(* ===== verification/_CoqProject ===== *)
-Q . S2P
Prelude.v
Catalog.v
Session.v
QuizSpec.v
Progress.v
Dashboard.v
Pronunciation.v
Conversation.v
Vocabulary.v
CulturalQuiz.v
App.v
