(* ===== verification/Prelude.v ===== *)
(** * A verification development of the Streamlit app [src/app.py]

    ** The program

    [src/app.py] is a language-learning app written for Streamlit.  Every
    interaction re-executes the whole script; what survives between runs is
    [st.session_state]: the learner's profile dict [user_profile], the chat
    transcript, the pronunciation log, the flashcard positions
    [current_{category}_index], the vocabulary quiz [current_quiz] and the
    three [cultural_quiz_*] keys.  [main] (1023-1083) draws the sidebar,
    whose one effect is [random.randint(5, daily_goal)], and calls the page
    the menu selects.  The pages read the static catalogue ([LANGUAGES],
    [CONVERSATION_SCENARIOS] and the literals inside the handlers).  They
    read the profile through [get_user_level_score] and
    [get_adaptive_difficulty].  They change the session when a button is
    clicked and often end with [st.rerun()].

    ** The files

    - [Prelude] (this file): Python values and their operations: [str] as
      code points with [lower()] and [in]; lists with [len], indexing,
      [index] and [in]; dicts as association lists with [d[k]], [get] and
      [in].  Python exceptions are values of [exn].  The handler monad [M]
      is state passing with three outcomes: return, [st.rerun()], or an
      exception that keeps the mutations made before it.  It also holds the
      widget model ([clicked], [clicked_enabled]: each run sees at most one
      click), the combinator [stays] (a reflexive, transitive relation kept
      by each statement is kept by the handler), [never_reruns], and the
      tactics [run_tac], [stays_tac], [never_reruns_tac] and [str_eqs].
    - [Catalog]: the literals of the source (languages, scenarios, AI
      replies, tongue twisters, phrases, cultural questions, form choices)
      and the shape the handlers rely on ([language_wf], [question_wf]).
    - [Session]: the session state as records ([UserProfile], [Session]),
      its initialisation (96-121), each profile update the code makes, and
      the preorder [progress_le] of learner progress.
    - [QuizSpec]: the design's generic quiz machine ([NotStarted],
      [InProgress], [Completed] with [start], [submit], [restart]), the
      view [QuizModel] of a concrete quiz, and the refinement relation
      [refines] between a handler and a transition of the machine.
    - [Progress]: [get_user_level_score], [get_adaptive_difficulty] and the
      analytics page [create_progress_analytics] (930-1021): achievements,
      recommendation, pie values and the thirty [random.choice] levels.
    - [Dashboard]: the home page [create_dashboard] (259-342): metrics,
      radar-chart scores, weekly points and the achievement badges.  Like
      the analytics page it writes nothing and returns what it shows.
    - [Pronunciation]: [simulate_pronunciation_score], the four reward
      chains and their band tables, the page handler
      [create_pronunciation_practice] with the indentation the source has,
      and its analytics column ([recent_scores], [pronunciation_tip]).
    - [Conversation]: [get_ai_response] with its abstract classifier, and
      [create_conversation_practice].
    - [Vocabulary]: [create_vocabulary_lessons], i.e. page setup,
      [flashcard_column] and [vocab_quiz_column].
    - [CulturalQuiz]: [create_cultural_insights] and its quiz state machine.
    - [App]: the profile form [create_profile_setup], the sidebar, [main],
      the Streamlit driver [run_script]/[interact], the reachable sessions
      [reachable] and the invariant [session_inv], and the theorems about
      whole interactions.

    Each page handler is one [Definition] of type [M Session unit].  Its
    statements follow the source: a guard is [when] or [if]; a Python
    exception is [lift] of an [exn + A] operation; [st.rerun()] is
    [rerun].  Randomness is an input: the event of a run carries the values
    of the random source for [random.randint], [random.choice] and
    [random.sample].  [py_randint] reduces its value into the range of the
    call ([py_randint_value]), so that a model's results are exactly the
    values Python can return; the simulator's [randint(70, 100)] is an
    argument restricted by [valid_event].

    ** The theorems

    - Functional behaviour of each button: Send Message, Practice
      Pronunciation and Clear Chat; Mark as Mastered; Start Quiz and Submit
      Answer; the cultural Submit; the tongue twister.  Error paths too:
      KeyError for languages without replies, IndexError for flashcard
      positions shared across languages, the UnboundLocalError of
      "Individual Words".
    - Refinement: the keyword if-chain of [get_ai_response] implements an
      ordered intent classifier.  The vocabulary and cultural quizzes
      implement the quiz machine of [QuizSpec], button by button.
    - Bounds of the simulated score, the difficulty tiers, monotonicity of
      tiers and achievements under progress, and of every reward chain in
      the score.
    - Invariants: the quiz and cultural-quiz well-formedness kept by every
      run.  On reachable sessions (rule induction on [reachable]): no
      duplicate mastered word, scores in [60, 100] in the profile and in
      the pronunciation log, streak 0, goal and level in their ranges.
      Consequences: the analytics average is well defined and lies in
      [60, 100]; "Streak Keeper" stays locked; the sidebar and the form
      never raise.  No interaction lowers progress.
    - Termination: an interaction ends within two runs, because a run with
      no click never calls [st.rerun()].  [interact] therefore uses fuel 2,
      and [run_script_two_runs] shows that more fuel changes nothing.
    - Liveness: from a quiz question in range, as many Submit clicks as
      questions are left complete the vocabulary quiz (induction on that
      number, [vocab_quiz_completes]).
    - Roundtrip: with no quiz dict, Next then Previous on a flashcard gives
      back the session it started from ([flashcard_next_previous]).
    - Type: every catalogue entry a handler indexes has the shape it needs
      ([catalog_shape], checked by evaluation of a [Decision] instance).
    - The display pages: on reachable sessions the radar scores lie in the
      chart's [0, 10] axis and the weekly points in [10, 50]; the pie is
      drawn exactly when some progress exists; the dashboard always shows
      the "3-Day Streak" badge although the streak stays 0.
    - Concrete traces, evaluated by [vm_compute]: a completed quiz counts a
      lesson on every later run; the IndexError after switching languages;
      a full cultural quiz pass; a reachable transcript with two learner
      messages in a row; the untouched profile form resetting the stored
      languages; a reachable session (45 Spanish and 4 French words
      mastered) on which the vocabulary page's [st.progress] raises.

    ** Not modelled

    - The dashboard and the analytics page are modelled up to the values
      they pass to Streamlit; the chart objects (plotly figures, dates of
      the axes) are not.
    - Page layout, CSS, [st.set_page_config], [time.sleep] and spinners
      are not modelled: they have no state and no value a handler reads.
    - [random.shuffle] of the vocabulary quiz options only reorders what is
      shown: the answer is compared by its text.
    - A selectbox keeps its value across reruns, as Streamlit does.  The
      event gives each run's widget values; [valid_event] restricts them to
      the ranges the widgets allow.
    - [datetime.now()] is the timestamp carried by the event. *)

From stdpp Require Import base list gmap strings.
From Stdlib Require Import ZArith NArith Lia.

(** ** Python strings

    A Python [str] is a sequence of Unicode code points.  A literal of the
    source is written here as a Rocq string literal in the [py] scope: the
    UTF-8 bytes of the literal are decoded into code points when the file
    is parsed, so ["¿Dónde?"%py] is the five-code-point string of the
    source and not its seven bytes. *)

Record pystr := PyStr { cps : list N }.

Definition byte_val (b : Byte.byte) : N := Byte.to_N b.

(** Decoding of well-formed UTF-8; used only on the literals of this
    development, which are well formed.  The fuel is the number of bytes. *)
Fixpoint utf8_decode (fuel : nat) (bs : list Byte.byte) : list N :=
  match fuel with
  | O => []
  | S f =>
    match bs with
    | [] => []
    | b0 :: r =>
      let n0 := byte_val b0 in
      if (n0 <? 128)%N then n0 :: utf8_decode f r
      else if (n0 <? 224)%N then
        match r with
        | b1 :: r' => (N.land n0 31 * 64 + N.land (byte_val b1) 63)%N :: utf8_decode f r'
        | [] => []
        end
      else if (n0 <? 240)%N then
        match r with
        | b1 :: b2 :: r' =>
            (N.land n0 15 * 4096 + N.land (byte_val b1) 63 * 64
             + N.land (byte_val b2) 63)%N :: utf8_decode f r'
        | _ => []
        end
      else
        match r with
        | b1 :: b2 :: b3 :: r' =>
            (N.land n0 7 * 262144 + N.land (byte_val b1) 63 * 4096
             + N.land (byte_val b2) 63 * 64 + N.land (byte_val b3) 63)%N
              :: utf8_decode f r'
        | _ => []
        end
    end
  end.

Definition utf8_encode_cp (c : N) : list Byte.byte :=
  let cont (x : N) := Byte.of_N (128 + N.land x 63)%N in
  let bs :=
    if (c <? 128)%N then [Byte.of_N c]
    else if (c <? 2048)%N then [Byte.of_N (192 + N.shiftr c 6)%N; cont c]
    else if (c <? 65536)%N then
      [Byte.of_N (224 + N.shiftr c 12)%N; cont (N.shiftr c 6); cont c]
    else [Byte.of_N (240 + N.shiftr c 18)%N; cont (N.shiftr c 12);
          cont (N.shiftr c 6); cont c] in
  omap id bs.

Definition pystr_of_bytes (bs : list Byte.byte) : pystr :=
  PyStr (utf8_decode (length bs) bs).

Definition pystr_to_bytes (s : pystr) : option (list Byte.byte) :=
  Some (cps s ≫= utf8_encode_cp).

Declare Scope py_scope.
Delimit Scope py_scope with py.
String Notation pystr pystr_of_bytes pystr_to_bytes : py_scope.

#[export] Instance pystr_eq_dec : EqDecision pystr.
Proof.
  intros [a] [b]. destruct (decide (a = b)) as [->|Hne];
    [left; reflexivity | right; congruence].
Defined.

#[export] Instance pystr_countable : Countable pystr.
Proof. apply (inj_countable' cps PyStr). by intros []. Defined.

(** [str.lower()].  [lower_cp] is exact on every code point whose Python
    lower case contains a code point below 256: ASCII and Latin-1 capitals,
    U+0130 (lowered to [i] followed by U+0307), U+0178, U+1E9E, and the
    Kelvin and Angstrom signs.  Every other code point is kept; Python maps
    such a code point to code points that are all at least 256, so the two
    agree on every substring test against a needle whose code points are
    below 256, which is every keyword of the source. *)
Definition lower_cp (c : N) : list N :=
  if ((65 <=? c) && (c <=? 90))%N then [(c + 32)%N]
  else if ((192 <=? c) && (c <=? 222) && negb (c =? 215))%N then [(c + 32)%N]
  else if (c =? 304)%N then [105%N; 775%N]
  else if (c =? 376)%N then [255%N]
  else if (c =? 7838)%N then [223%N]
  else if (c =? 8490)%N then [107%N]
  else if (c =? 8491)%N then [229%N]
  else [c].

Definition py_lower (s : pystr) : pystr := PyStr (cps s ≫= lower_cp).

Fixpoint is_prefix (p l : list N) : bool :=
  match p, l with
  | [], _ => true
  | x :: p', y :: l' => (x =? y)%N && is_prefix p' l'
  | _ :: _, [] => false
  end.

Fixpoint contains_cps (p l : list N) : bool :=
  is_prefix p l || match l with [] => false | _ :: l' => contains_cps p l' end.

(** [needle in hay] on strings. *)
Definition py_contains (needle hay : pystr) : bool := contains_cps (cps needle) (cps hay).

(** Truth value of a string: [if user_input:]. *)
(** [a + b] on strings *)
Definition py_add (a b : pystr) : pystr := PyStr (cps a ++ cps b).

(** The double quote character, which a string literal of this file
    cannot hold. *)
Definition py_dquote : pystr := PyStr [34%N].

Definition py_truthy (s : pystr) : bool :=
  match cps s with [] => false | _ => true end.

(** ** Python lists and dicts *)

Inductive exn := KeyError | IndexError | NameError | ValueError | StopIteration
  | StreamlitAPIException.

#[export] Instance exn_eq_dec : EqDecision exn.
Proof. solve_decision. Defined.

(** [x in l] on lists. *)
Definition py_mem {A} `{EqDecision A} (x : A) (l : list A) : bool := bool_decide (x ∈ l).

Definition py_len {A} (l : list A) : Z := Z.of_nat (length l).

(** [l[-n:]]: the last [n] elements (all of them when there are fewer). *)
Definition py_last {A} (n : nat) (l : list A) : list A := drop (length l - n) l.

(** [sum(l)] *)
Definition py_sum (l : list Z) : Z := fold_right Z.add 0%Z l.

(** [l[i]], with Python's negative indices and its [IndexError]. *)
Definition py_getitem {A} (l : list A) (i : Z) : exn + A :=
  let j := if (i <? 0)%Z then (i + py_len l)%Z else i in
  if (j <? 0)%Z then inl IndexError
  else match l !! Z.to_nat j with Some x => inr x | None => inl IndexError end.

(** [l.index(x)]: the first position, or [ValueError]. *)
Fixpoint py_index {A} `{EqDecision A} (x : A) (l : list A) : exn + Z :=
  match l with
  | [] => inl ValueError
  | y :: l' =>
    if decide (x = y) then inr 0%Z
    else match py_index x l' with inr i => inr (i + 1)%Z | e => e end
  end.

(** The value of [random.randint(lo, hi)] for the random source's value
    [draw]: every integer of [[lo, hi]] and nothing else; a draw already
    in the range is the value itself. *)
Definition py_randint_value (lo hi draw : Z) : Z :=
  (lo + (draw - lo) mod (hi - lo + 1))%Z.

(** [random.randint(lo, hi)]: Python raises [ValueError] on an empty
    range. *)
Definition py_randint (lo hi draw : Z) : exn + Z :=
  if (lo <=? hi)%Z then inr (py_randint_value lo hi draw) else inl ValueError.

(** [[random.randint(lo, hi) for _ in range(n)]], the [i]-th element drawn
    from [draws i]. *)
Definition py_randint_list (lo hi : Z) (n : nat) (draws : nat -> Z) : exn + list Z :=
  if (lo <=? hi)%Z then inr (map (fun i => py_randint_value lo hi (draws i)) (seq 0 n))
  else inl ValueError.

(** A dict literal is an association list in insertion order. *)
Definition pydict (K V : Type) := list (K * V).

Fixpoint dict_lookup {K V} `{EqDecision K} (k : K) (d : pydict K V) : option V :=
  match d with
  | [] => None
  | (k', v) :: d' => if decide (k = k') then Some v else dict_lookup k d'
  end.

(** [d[k]] *)
Definition dict_getitem {K V} `{EqDecision K} (k : K) (d : pydict K V) : exn + V :=
  match dict_lookup k d with Some v => inr v | None => inl KeyError end.

(** [d.get(k, default)] *)
Definition dict_get {K V} `{EqDecision K} (k : K) (d : pydict K V) (default : V) : V :=
  match dict_lookup k d with Some v => v | None => default end.

(** [k in d] *)
Definition dict_mem {K V} `{EqDecision K} (k : K) (d : pydict K V) : bool :=
  match dict_lookup k d with Some _ => true | None => false end.

(** ** Script runs: a state monad with Python exceptions and [st.rerun()]

    A handler runs against the session state [S].  It returns a value, or
    stops the script: [Rerun] is [st.rerun()], [Raise e] an uncaught
    exception.  In both cases the mutations made before the stop persist,
    as Streamlit's session state does. *)

Inductive outcome (A : Type) := Ret (a : A) | Rerun | Raise (e : exn).
Arguments Ret {A} a. Arguments Rerun {A}. Arguments Raise {A} e.

Definition M (S A : Type) : Type := S -> outcome A * S.

Section Monad.
Context {S : Type}.

Definition ret {A} (a : A) : M S A := fun s => (Ret a, s).

Definition bind {A B} (c : M S A) (k : A -> M S B) : M S B := fun s =>
  match c s with
  | (Ret a, s') => k a s'
  | (Rerun, s') => (Rerun, s')
  | (Raise e, s') => (Raise e, s')
  end.

Definition get : M S S := fun s => (Ret s, s).
Definition put (s : S) : M S unit := fun _ => (Ret tt, s).
Definition modify (f : S -> S) : M S unit := fun s => (Ret tt, f s).
Definition raise {A} (e : exn) : M S A := fun s => (Raise e, s).
Definition rerun {A} : M S A := fun s => (Rerun, s).

(** A Python expression that may raise. *)
Definition lift {A} (r : exn + A) : M S A :=
  match r with inl e => raise e | inr a => ret a end.

(** [if b: c] with no [else]. *)
Definition when (b : bool) (c : M S unit) : M S unit := if b then c else ret tt.

(** The state a run leaves behind, whatever the way it stops. *)
Definition final {A} (c : M S A) (s : S) : S := snd (c s).
End Monad.

Declare Scope st_scope.
Delimit Scope st_scope with st.
Notation "x <- c ;; k" := (bind c (fun x => k))
  (at level 100, c at next level, right associativity) : st_scope.
Notation "c ;; k" := (bind c (fun _ => k))
  (at level 100, right associativity) : st_scope.

(** ** Streamlit widgets

    [st.button] returns [True] only in the script run that its click
    started, and never when it is [disabled]; a run is started by at most
    one click.  A page's event names the button clicked, if any. *)
Definition clicked {B} `{EqDecision B} (pressed : option B) (b : B) : bool :=
  bool_decide (pressed = Some b).

Definition clicked_enabled {B} `{EqDecision B} (pressed : option B) (b : B)
    (disabled : bool) : bool :=
  clicked pressed b && negb disabled.

(** ** Relations kept by every statement of a handler

    [stays R c] says that the state after [c], however [c] stops, is
    related by [R] to the state before.  For a reflexive and transitive [R]
    this is closed under sequencing, so a handler keeps [R] when each of
    its statements does.  Invariants are the case
    [R s s' := P s -> P s']. *)

Definition stays {S A} (R : relation S) (c : M S A) : Prop :=
  forall s, R s (final c s).

(** The relation of a state invariant: [P] before implies [P] after. *)
Definition implies_rel {S} (P : S -> Prop) : relation S := fun s s' => P s -> P s'.

(** The relation of two states that agree on an observation [f]. *)
Definition same_on {S B} (f : S -> B) : relation S := fun s s' => f s' = f s.

(** [c] never ends in [st.rerun()]. *)
Definition never_reruns {S A} (c : M S A) : Prop := forall s, fst (c s) <> Rerun.

Section Stays.
Context {S : Type} (R : relation S) `{!Reflexive R} `{!Transitive R}.

Lemma stays_ret {A} (a : A) : stays R (ret a).
Proof. intros s. reflexivity. Qed.

Lemma stays_get : stays R get.
Proof. intros s. reflexivity. Qed.

Lemma stays_raise {A} e : stays R (@raise S A e).
Proof. intros s. reflexivity. Qed.

Lemma stays_rerun {A} : stays R (@rerun S A).
Proof. intros s. reflexivity. Qed.

Lemma stays_lift {A} (r : exn + A) : stays R (lift r).
Proof. destruct r; intros s; reflexivity. Qed.

Lemma stays_modify f : (forall s, R s (f s)) -> stays R (modify f).
Proof. intros H s. apply H. Qed.

Lemma stays_when b c : stays R c -> stays R (when b c).
Proof. destruct b; [done | intros _ s; reflexivity]. Qed.

Lemma stays_bind {A B} (c : M S A) (k : A -> M S B) :
  stays R c -> (forall a, stays R (k a)) -> stays R (bind c k).
Proof.
  intros Hc Hk s. unfold final, bind. specialize (Hc s). unfold final in Hc.
  destruct (c s) as [[a| |e] s']; simpl in *; [|done|done].
  etransitivity; [exact Hc | apply Hk].
Qed.
End Stays.

#[export] Instance implies_rel_refl {S} (P : S -> Prop) : Reflexive (implies_rel P).
Proof. intros s H. exact H. Qed.

#[export] Instance implies_rel_trans {S} (P : S -> Prop) : Transitive (implies_rel P).
Proof. intros s1 s2 s3 H1 H2 H. auto. Qed.

#[export] Instance same_on_refl {S B} (f : S -> B) : Reflexive (same_on f).
Proof. intros s. reflexivity. Qed.

#[export] Instance same_on_trans {S B} (f : S -> B) : Transitive (same_on f).
Proof. intros s1 s2 s3 H1 H2. unfold same_on in *. congruence. Qed.

Create HintDb pyapp discriminated.
Create Rewrite HintDb pyapp_rw.
#[export] Hint Resolve stays_ret stays_get stays_raise stays_rerun stays_lift
  stays_when stays_bind : pyapp.

(** [stays_tac] splits a handler into its statements and leaves one goal
    per state change; branches on a value read from the state are split. *)
Ltac stays_tac :=
  repeat match goal with
  | |- stays _ (bind _ _) => apply stays_bind; [..|intros ?]
  | |- stays _ (when _ _) => apply stays_when
  | |- stays _ (if ?b then _ else _) => destruct b
  | |- stays _ (match ?x with _ => _ end) => destruct x
  | |- stays _ (ret _) => apply stays_ret
  | |- stays _ get => apply stays_get
  | |- stays _ (raise _) => apply stays_raise
  | |- stays _ rerun => apply stays_rerun
  | |- stays _ (lift _) => apply stays_lift
  | |- stays _ (modify _) => apply stays_modify; [intros ?]
  end; try typeclasses eauto; try solve [eauto with pyapp].

(** [str_eqs] evaluates every test of equality between two closed
    strings in the goal. *)
Ltac str_eqs :=
  repeat match goal with
  | |- context [bool_decide (?a = ?b :> pystr)] =>
      let v := eval vm_compute in (bool_decide (a = b)) in
      lazymatch v with
      | true => change (bool_decide (a = b)) with true
      | false => change (bool_decide (a = b)) with false
      end
  end; simpl.

Lemma clicked_other {B} `{EqDecision B} (b b' : B) :
  b <> b' -> clicked (Some b) b' = false.
Proof. intros H. unfold clicked. apply bool_decide_eq_false_2. congruence. Qed.

Lemma clicked_same {B} `{EqDecision B} (b : B) : clicked (Some b) b = true.
Proof. unfold clicked. by apply bool_decide_eq_true_2. Qed.

Lemma clicked_none {B} `{EqDecision B} (b : B) : clicked None b = false.
Proof. unfold clicked. by apply bool_decide_eq_false_2. Qed.

Lemma clicked_enabled_none {B} `{EqDecision B} (b : B) d : clicked_enabled None b d = false.
Proof. unfold clicked_enabled. by rewrite clicked_none. Qed.

#[export] Hint Rewrite @clicked_same @clicked_none @clicked_enabled_none : pyapp_rw.

(** [run_tac] evaluates a handler on a symbolic state as far as the
    branch conditions the context decides. *)
Ltac run_tac :=
  repeat progress (
    cbv [bind get ret modify rerun raise lift when final fst snd andb orb negb] in *;
    autorewrite with pyapp_rw in *;
    try match goal with
        | H : ?x = _ |- context [?x] => rewrite H
        | |- context [clicked (Some ?b) ?b'] =>
            rewrite (clicked_other b b') by discriminate
        end).

(** ** Handlers that never call [st.rerun()] *)

Section NeverReruns.
Context {S : Type}.

Lemma never_reruns_ret {A} (a : A) : never_reruns (S:=S) (ret a).
Proof. intros s. discriminate. Qed.

Lemma never_reruns_get : never_reruns (S:=S) get.
Proof. intros s. discriminate. Qed.

Lemma never_reruns_modify f : never_reruns (S:=S) (modify f).
Proof. intros s. discriminate. Qed.

Lemma never_reruns_raise {A} e : never_reruns (S:=S) (A:=A) (raise e).
Proof. intros s. discriminate. Qed.

Lemma never_reruns_lift {A} (r : exn + A) : never_reruns (S:=S) (lift r).
Proof. destruct r; intros s; discriminate. Qed.

Lemma never_reruns_when b (c : M S unit) : never_reruns c -> never_reruns (when b c).
Proof. destruct b; [done|intros _ s; discriminate]. Qed.

Lemma never_reruns_when_false (c : M S unit) : never_reruns (when false c).
Proof. intros s. discriminate. Qed.

Lemma never_reruns_bind {A B} (c : M S A) (k : A -> M S B) :
  never_reruns c -> (forall a, never_reruns (k a)) -> never_reruns (bind c k).
Proof.
  intros Hc Hk s. unfold bind. specialize (Hc s).
  destruct (c s) as [[a| |e] s']; simpl in *; [apply Hk|done|discriminate].
Qed.
End NeverReruns.

(** [never_reruns_tac] splits a handler whose clicks are all [None]. *)
Ltac never_reruns_tac :=
  autorewrite with pyapp_rw;
  repeat match goal with
  | |- never_reruns (when (clicked None _) _) => rewrite clicked_none
  | |- never_reruns (when (clicked_enabled None _ _) _) => rewrite clicked_enabled_none
  | |- never_reruns (bind _ _) => apply never_reruns_bind; [..|intros ?]
  | |- never_reruns (when false _) => apply never_reruns_when_false
  | |- never_reruns (when _ _) => apply never_reruns_when
  | |- never_reruns (if ?b then _ else _) => destruct b
  | |- never_reruns (match ?x with _ => _ end) => destruct x
  | |- never_reruns (ret _) => apply never_reruns_ret
  | |- never_reruns get => apply never_reruns_get
  | |- never_reruns (modify _) => apply never_reruns_modify
  | |- never_reruns (raise _) => apply never_reruns_raise
  | |- never_reruns (lift _) => apply never_reruns_lift
  end; try solve [eauto with pyapp].

(** ** Running a handler on a concrete state *)

Section Run.
Context {S : Type}.

Lemma bind_ret_run {A B} (c : M S A) (k : A -> M S B) s a s' :
  c s = (Ret a, s') -> bind c k s = k a s'.
Proof. intros H. unfold bind. by rewrite H. Qed.

Lemma bind_stop_run {A B} (c : M S A) (k : A -> M S B) s (o : outcome A) s' :
  c s = (o, s') -> (forall a, o <> Ret a) ->
  bind c k s = (match o with Rerun => Rerun | Raise e => Raise e | Ret _ => Rerun end, s').
Proof.
  intros H Hno. unfold bind. rewrite H.
  destruct o as [a| |e]; [by destruct (Hno a)|done|done].
Qed.

Lemma final_bind_ret {A B} (c : M S A) (k : A -> M S B) s a s' :
  c s = (Ret a, s') -> final (bind c k) s = final (k a) s'.
Proof. intros H. unfold final. by rewrite (bind_ret_run c k s a s' H). Qed.
End Run.

(** ** Generic lemmas on the Python operations *)

Lemma py_mem_spec {A} `{EqDecision A} (x : A) (l : list A) :
  py_mem x l = true <-> x ∈ l.
Proof. unfold py_mem. apply bool_decide_eq_true. Qed.

Lemma py_len_app {A} (l1 l2 : list A) : py_len (l1 ++ l2) = (py_len l1 + py_len l2)%Z.
Proof. unfold py_len. rewrite length_app. lia. Qed.

Lemma py_randint_value_bounds lo hi d :
  (lo <= hi)%Z -> (lo <= py_randint_value lo hi d <= hi)%Z.
Proof.
  intros H. unfold py_randint_value.
  pose proof (Z.mod_pos_bound (d - lo) (hi - lo + 1) ltac:(lia)). lia.
Qed.

Lemma py_randint_value_small lo hi d :
  (lo <= d <= hi)%Z -> py_randint_value lo hi d = d.
Proof. intros H. unfold py_randint_value. rewrite Z.mod_small by lia. lia. Qed.

Lemma py_randint_values_bounds lo hi n (draws : nat -> Z) :
  (lo <= hi)%Z ->
  length (map (fun i => py_randint_value lo hi (draws i)) (seq 0 n)) = n /\
  Forall (fun x => lo <= x <= hi)%Z (map (fun i => py_randint_value lo hi (draws i)) (seq 0 n)).
Proof.
  intros H. rewrite length_map, length_seq. split; [done|].
  apply Forall_forall. intros x (i & -> & _)%list_elem_of_fmap. by apply py_randint_value_bounds.
Qed.

Lemma py_randint_list_bounds lo hi n draws :
  (lo <= hi)%Z -> exists l, py_randint_list lo hi n draws = inr l /\
    length l = n /\ Forall (fun x => lo <= x <= hi)%Z l.
Proof.
  intros H. unfold py_randint_list. rewrite (proj2 (Z.leb_le _ _) H).
  eexists. split; [reflexivity|]. by apply py_randint_values_bounds.
Qed.

Lemma py_len_pos_ne {A} (l : list A) : l <> [] <-> (0 < py_len l)%Z.
Proof. unfold py_len. destruct l; simpl; split; intros; try done; lia. Qed.

Lemma py_sum_bounds (lo hi : Z) (l : list Z) :
  Forall (fun x => lo <= x <= hi)%Z l -> (lo * py_len l <= py_sum l <= hi * py_len l)%Z.
Proof.
  unfold py_len. induction 1 as [|x l Hx _ IH]; simpl; [lia|].
  unfold py_sum in *; simpl. lia.
Qed.

Lemma py_last_nil {A} n (l : list A) : (0 < n)%nat -> l <> [] -> py_last n l <> [].
Proof.
  unfold py_last. intros Hn Hl Hd. apply (f_equal length) in Hd.
  rewrite length_drop in Hd. destruct l; simpl in *; [done|lia].
Qed.

Lemma py_len_nonneg {A} (l : list A) : (0 <= py_len l)%Z.
Proof. unfold py_len. lia. Qed.

Lemma py_getitem_in_range {A} (l : list A) (i : Z) :
  (0 <= i < py_len l)%Z -> exists x, py_getitem l i = inr x /\ l !! Z.to_nat i = Some x.
Proof.
  intros Hi. unfold py_getitem, py_len in *.
  destruct (Z.ltb_spec i 0); [lia|]. destruct (Z.ltb_spec i 0); [lia|].
  destruct (lookup_lt_is_Some_2 l (Z.to_nat i)) as [x Hx]; [lia|].
  rewrite Hx. eauto.
Qed.

Lemma py_getitem_out_of_range {A} (l : list A) (i : Z) :
  (py_len l <= i)%Z -> py_getitem l i = inl IndexError.
Proof.
  intros Hi. unfold py_getitem, py_len in *.
  destruct (Z.ltb_spec i 0); [lia|]. destruct (Z.ltb_spec i 0); [lia|].
  rewrite lookup_ge_None_2; [done | lia].
Qed.

Lemma contains_cps_app_r p l1 l2 :
  contains_cps p l2 = true -> contains_cps p (l1 ++ l2) = true.
Proof.
  induction l1 as [|x l1 IH]; simpl; [done|].
  intros H. rewrite (IH H). apply orb_true_r.
Qed.

Lemma is_prefix_app p l : is_prefix p (p ++ l) = true.
Proof. induction p as [|x p IH]; simpl; [done|]. by rewrite N.eqb_refl, IH. Qed.

Lemma contains_cps_prefix p l : is_prefix p l = true -> contains_cps p l = true.
Proof. destruct l; simpl; intros ->; done. Qed.

(** A string contains every one of its factors. *)
Lemma py_contains_factor (needle pre post : pystr) :
  py_contains needle (PyStr (cps pre ++ cps needle ++ cps post)) = true.
Proof.
  unfold py_contains. simpl. apply contains_cps_app_r, contains_cps_prefix.
  apply is_prefix_app.
Qed.

Lemma dict_mem_getitem {K V} `{EqDecision K} (k : K) (d : pydict K V) v :
  dict_getitem k d = inr v -> dict_mem k d = true.
Proof. unfold dict_getitem, dict_mem. by destruct (dict_lookup k d). Qed.

Lemma dict_mem_getitem_ex {K V} `{EqDecision K} (k : K) (d : pydict K V) :
  dict_mem k d = true -> exists v, dict_getitem k d = inr v.
Proof. unfold dict_getitem, dict_mem. destruct (dict_lookup k d); [eauto|discriminate]. Qed.

(** A property of every value of a dict holds of what [d[k]] returns. *)
Lemma dict_getitem_Forall {K V} `{EqDecision K} (P : V -> Prop) (k : K) (d : pydict K V) v :
  Forall P (map snd d) -> dict_getitem k d = inr v -> P v.
Proof.
  unfold dict_getitem. induction d as [|[k' v'] d IH]; simpl; [discriminate|].
  intros HF; inversion HF; subst. case_decide; [intros [= <-]; done|auto].
Qed.

(** A property of every key and value of a dict holds of [k] and [d[k]]. *)
Lemma dict_getitem_Forall_kv {K V} `{EqDecision K} (P : K -> V -> Prop) (k : K) (d : pydict K V) v :
  Forall (fun kv => P kv.1 kv.2) d -> dict_getitem k d = inr v -> P k v.
Proof.
  unfold dict_getitem. induction d as [|[k' v'] d IH]; simpl; [discriminate|].
  intros HF; inversion HF; subst. case_decide; [intros [= <-]; by subst|auto].
Qed.

Lemma py_index_elem_of {A} `{EqDecision A} (x : A) (l : list A) :
  x ∈ l -> exists i, py_index x l = inr i.
Proof.
  induction l as [|y l IH]; simpl; [by intros ?%elem_of_nil|].
  intros Hx. case_decide; [eauto|].
  destruct IH as [i ->]; [set_solver|eauto].
Qed.

Lemma py_index_not_elem_of {A} `{EqDecision A} (x : A) (l : list A) :
  x ∉ l -> py_index x l = inl ValueError.
Proof.
  induction l as [|y l IH]; simpl; [done|]. intros Hx.
  rewrite decide_False by set_solver. rewrite IH by set_solver. reflexivity.
Qed.

#[export] Hint Rewrite @py_len_app : pyapp_rw.
#[export] Hint Resolve py_len_nonneg : pyapp.
#[export] Hint Extern 5 (_ <= _)%Z => lia : pyapp.
