(* ===== verification/Catalog.v ===== *)
(** * Catalog: the static content of [src/app.py]

    The dict and list literals the handlers read: the vocabulary catalog
    [LANGUAGES], the conversation scenarios, the scripted replies of
    [get_ai_response], the tongue twisters and phrases of the pronunciation
    page, the cultural quiz bank and the widget choice lists.  A dict is an
    association list in the source's insertion order ([Prelude.pydict]),
    since the handlers iterate over keys and items in that order.  The
    well-formedness facts the handlers rely on (every category is
    non-empty, every quiz answer index is in range) are proved here by
    evaluation. *)

From stdpp Require Import base list strings.
From Stdlib Require Import ZArith Lia.
From S2P Require Import Prelude.

Local Open Scope py_scope.

Record Scenario := { scenario : pystr; context : pystr }.

Record CulturalQuestion := {
  question : pystr;
  options : list pystr;
  correct : Z;
  explanation : pystr }.

Definition LANGUAGES : pydict pystr (pydict pystr (list pystr)) := [
  ("Spanish", [
      ("greetings",
        ["Hola"; "Buenos días"; "Buenas tardes"; "Buenas noches"]);
      ("basics",
        ["Por favor"; "Gracias"; "De nada"; "Perdón"; "Lo siento"]);
      ("questions",
        ["¿Cómo estás?"; "¿Cómo te llamas?"; "¿Dónde vives?"; "¿Qué haces?"]);
      ("family",
        ["madre"; "padre"; "hermano"; "hermana"; "hijo"; "hija"]);
      ("numbers",
        ["uno"; "dos"; "tres"; "cuatro"; "cinco"; "seis"; "siete"; "ocho"; "nueve"; "diez"]);
      ("colors",
        ["rojo"; "azul"; "verde"; "amarillo"; "negro"; "blanco"; "rosa"; "naranja"]);
      ("food",
        ["comida"; "agua"; "pan"; "leche"; "carne"; "pollo"; "pescado"; "verduras"]);
      ("cultural_tips",
        ["In Spanish-speaking countries, it's common to greet with a kiss on the cheek or a hug, even in business settings.";
         "The siesta tradition is still observed in many Spanish-speaking countries, with businesses closing from 2-4 PM.";
         "Family gatherings are extremely important in Hispanic culture, often lasting several hours with multiple generations present.";
         "Punctuality varies by country - in some places, arriving 15-30 minutes late is considered normal for social events."])]);
  ("French", [
      ("greetings",
        ["Bonjour"; "Bonsoir"; "Salut"; "Bonne nuit"]);
      ("basics",
        ["S'il vous plaît"; "Merci"; "De rien"; "Pardon"; "Excusez-moi"]);
      ("questions",
        ["Comment allez-vous?";
         "Comment vous appelez-vous?";
         "Où habitez-vous?"]);
      ("family",
        ["mère"; "père"; "frère"; "sœur"; "fils"; "fille"]);
      ("numbers",
        ["un"; "deux"; "trois"; "quatre"; "cinq"; "six"; "sept"; "huit"; "neuf"; "dix"]);
      ("colors",
        ["rouge"; "bleu"; "vert"; "jaune"; "noir"; "blanc"; "rose"; "orange"]);
      ("food",
        ["nourriture"; "eau"; "pain"; "lait"; "viande"; "poulet"; "poisson"; "légumes"]);
      ("cultural_tips",
        ["French people value proper greetings - always say 'Bonjour' when entering shops or meeting someone.";
         "Lunch is sacred in France, typically lasting 1-2 hours with multiple courses.";
         "The French appreciate when foreigners attempt to speak French, even if imperfect.";
         "Tipping is not mandatory in France as service is included, but rounding up is appreciated."])]);
  ("German", [
      ("greetings",
        ["Guten Tag"; "Guten Morgen"; "Guten Abend"; "Gute Nacht"]);
      ("basics",
        ["Bitte"; "Danke"; "Bitte schön"; "Entschuldigung"; "Es tut mir leid"]);
      ("questions",
        ["Wie geht es Ihnen?"; "Wie heißen Sie?"; "Wo wohnen Sie?"]);
      ("family",
        ["Mutter"; "Vater"; "Bruder"; "Schwester"; "Sohn"; "Tochter"]);
      ("numbers",
        ["eins"; "zwei"; "drei"; "vier"; "fünf"; "sechs"; "sieben"; "acht"; "neun"; "zehn"]);
      ("colors",
        ["rot"; "blau"; "grün"; "gelb"; "schwarz"; "weiß"; "rosa"; "orange"]);
      ("food",
        ["Essen"; "Wasser"; "Brot"; "Milch"; "Fleisch"; "Huhn"; "Fisch"; "Gemüse"]);
      ("cultural_tips",
        ["Germans value punctuality highly - being late is considered disrespectful.";
         "Direct communication is preferred in German culture - beating around the bush is uncommon.";
         "Sunday is a day of rest in Germany - most shops are closed and loud activities are avoided.";
         "Germans often separate work and personal life strictly - don't be offended by formal interactions."])])].

Definition CONVERSATION_SCENARIOS : pydict pystr (list Scenario) := [
  ("Beginner", [
    {| scenario := "Meeting Someone New";
       context := "You're at a coffee shop and want to introduce yourself to someone." |};
    {| scenario := "Ordering Food";
       context := "You're at a restaurant and need to order your meal." |};
    {| scenario := "Asking for Directions";
       context := "You're lost and need to ask someone for help getting to the train station." |};
    {| scenario := "Shopping";
       context := "You're at a store and want to buy clothes." |}]);
  ("Intermediate", [
    {| scenario := "Job Interview";
       context := "You're interviewing for a position at a local company." |};
    {| scenario := "Making Plans";
       context := "You're trying to coordinate weekend plans with friends." |};
    {| scenario := "Discussing Hobbies";
       context := "You're at a social gathering talking about your interests." |};
    {| scenario := "Traveling";
       context := "You're at the airport dealing with a flight delay." |}]);
  ("Advanced", [
    {| scenario := "Business Meeting";
       context := "You're presenting a proposal to international clients." |};
    {| scenario := "Cultural Discussion";
       context := "You're debating cultural differences with native speakers." |};
    {| scenario := "Problem Solving";
       context := "You're working with a team to solve a complex issue." |};
    {| scenario := "Academic Discussion";
       context := "You're participating in a university seminar." |}])].

Definition ai_responses : pydict pystr (pydict pystr pystr) := [
  ("Spanish", [
    ("greeting", "¡Hola! Me llamo María. ¿Cómo te llamas?");
    ("food", "¡Excelente elección! ¿Te gustaría algo de beber también?");
    ("directions", "¡Por supuesto! La estación de tren está a dos cuadras hacia el norte.");
    ("general", "Interesante. ¿Puedes contarme más sobre eso?")]);
  ("French", [
    ("greeting", "Bonjour! Je m'appelle Marie. Comment vous appelez-vous?");
    ("food", "Excellent choix! Voulez-vous quelque chose à boire aussi?");
    ("directions", "Bien sûr! La gare est à deux pâtés de maisons vers le nord.");
    ("general", "C'est intéressant. Pouvez-vous m'en dire plus?")]);
  ("German", [
    ("greeting", "Hallo! Ich heiße Maria. Wie heißen Sie?");
    ("food", "Ausgezeichnete Wahl! Möchten Sie auch etwas trinken?");
    ("directions", "Natürlich! Der Bahnhof ist zwei Blocks nach Norden.");
    ("general", "Das ist interessant. Können Sie mir mehr darüber erzählen?")])].

Definition tongue_twisters : pydict pystr (list pystr) := [
  ("Spanish",
    ["Tres tristes tigres tragaban trigo en un trigal";
     "El perro de San Roque no tiene rabo";
     "Pablito clavó un clavito"]);
  ("French",
    ["Les chaussettes de l'archiduchesse";
     "Un chasseur sachant chasser";
     "Ces six saucissons-ci sont si secs"]);
  ("German",
    ["Fischers Fritz fischt frische Fische";
     "Brautkleid bleibt Brautkleid";
     "Zehn zahme Ziegen"])].

Definition common_phrases : list pystr :=
  ["Hello, how are you?";
   "Thank you very much";
   "Where is the bathroom?";
   "I don't understand";
   "Can you help me?";
   "What time is it?";
   "I'm sorry";
   "Excuse me"].

Definition cultural_quiz_questions : pydict pystr (list CulturalQuestion) := [
  ("Spanish", [
    {| question := "What time do people typically eat dinner in Spain?";
       options := ["6 PM"; "8 PM"; "10 PM"; "12 AM"];
       correct := 2;
       explanation := "In Spain, dinner is typically eaten very late, often around 10 PM or later." |};
    {| question := "What is the appropriate greeting in most Spanish-speaking countries?";
       options := ["Handshake"; "Bow"; "Kiss on cheek"; "Wave"];
       correct := 2;
       explanation := "A kiss on the cheek (or air kiss) is common, even in business settings." |}]);
  ("French", [
    {| question := "What should you always do when entering a French shop?";
       options := ["Smile and wave";
                   "Say 'Bonjour'";
                   "Nod silently";
                   "Ask for help immediately"];
       correct := 1;
       explanation := "Always greet with 'Bonjour' - it's considered rude not to greet in France." |};
    {| question := "How long is a typical French lunch break?";
       options := ["30 minutes"; "1 hour"; "1-2 hours"; "3 hours"];
       correct := 2;
       explanation := "French lunch breaks are typically 1-2 hours, reflecting the importance of meals." |}]);
  ("German", [
    {| question := "How important is punctuality in German culture?";
       options := ["Not important";
                   "Somewhat important";
                   "Very important";
                   "Only for business"];
       correct := 2;
       explanation := "Punctuality is extremely important in German culture and being late is considered disrespectful." |};
    {| question := "What happens to most German shops on Sundays?";
       options := ["Open as usual"; "Close early"; "Most are closed"; "Only food shops open"];
       correct := 2;
       explanation := "Most shops in Germany are closed on Sundays as it's considered a day of rest." |}])].

(** The placeholder answers of the vocabulary quiz (line 566). *)
Definition vocab_quiz_options : list pystr :=
  ["Option A"; "Option B"; "Option C"; "Correct Answer"].

(** The choice lists of the profile form (lines 354, 359, 366, 372). *)
Definition native_language_choices : list pystr :=
  ["English"; "Spanish"; "French"; "German"; "Chinese"; "Japanese"; "Arabic"].

Definition target_language_choices : list pystr :=
  ["Spanish"; "French"; "German"; "Italian"; "Portuguese"; "Chinese"; "Japanese"].

Definition level_choices : list pystr := ["Beginner"; "Intermediate"; "Advanced"].

Definition interest_choices : list pystr :=
  ["Travel"; "Business"; "Culture"; "Food"; "Sports"; "Technology"; "Arts"; "Music"].

(** ** The shape of the catalog

    The design's [Question]: at least two options, no option twice, and a
    [correctIndex] into them.  A language of [LANGUAGES]: a
    ["cultural_tips"] entry (read at lines 415 and 824), no empty word
    list (the flashcard page reads [words[0]], line 511) and a reply
    table in [get_ai_response]. *)
Definition question_wf (q : CulturalQuestion) : Prop :=
  (2 <= py_len (options q))%Z /\ NoDup (options q) /\ (0 <= correct q < py_len (options q))%Z.

Definition language_wf (lang : pystr) (data : pydict pystr (list pystr)) : Prop :=
  dict_mem "cultural_tips" data = true /\ Forall (fun cw => cw.2 <> []) data /\
  dict_mem lang ai_responses = true.

#[export] Instance question_wf_dec q : Decision (question_wf q).
Proof. unfold question_wf. apply _. Defined.

#[export] Instance language_wf_dec lang data : Decision (language_wf lang data).
Proof. unfold language_wf. apply _. Defined.

(** C13: the catalog has the shape the handlers read: every language has its
    cultural tips, no empty word list and a reply table, and every
    cultural quiz bank belongs to a language of the catalog and has
    well-formed questions. *)
Theorem catalog_shape :
  (forall lang data, dict_getitem lang LANGUAGES = inr data -> language_wf lang data) /\
  (forall lang qs, dict_getitem lang cultural_quiz_questions = inr qs ->
     dict_mem lang LANGUAGES = true /\ Forall question_wf qs).
Proof.
  split; intros lang v Hv.
  - apply (dict_getitem_Forall_kv language_wf lang LANGUAGES v); [|exact Hv].
    apply (bool_decide_unpack _). vm_compute. reflexivity.
  - apply (dict_getitem_Forall_kv (fun l qs => dict_mem l LANGUAGES = true /\ Forall question_wf qs)
             lang cultural_quiz_questions v); [|exact Hv].
    apply (bool_decide_unpack _). vm_compute. reflexivity.
Qed.
