(* ===== verification/Session.v ===== *)
(** * Session: the state of a learner's session

    [st.session_state] of [src/app.py] as a record.  Its keys are the
    fields: the [user_profile] dict (lines 97-112), the transcript
    [conversation_history] (114-115), the practice log
    [pronunciation_feedback] (120-121), the flashcard positions stored
    under the dynamic keys [current_{category}_index] (507-508), kept here
    as a [gmap] from the category name, the vocabulary quiz
    [current_quiz] (550-555, absent before the first start and after
    [del]) and the three [cultural_quiz_*] keys (888-891), absent until
    the cultural page first runs.  The key [current_lesson] (117-118) is
    set to [None] at start and never read or written again; every update
    here keeps it.

    The updates the handlers make are defined once here, one per field,
    together with the preorder [progress_le] on profiles that every
    handler respects. *)

From stdpp Require Import base list gmap strings.
From Stdlib Require Import ZArith Lia.
From S2P Require Import Prelude Catalog.

Local Open Scope Z_scope.

Record UserProfile := {
  name : pystr;
  native_language : pystr;
  target_language : pystr;
  level : pystr;
  daily_goal : Z;
  interests : list pystr;
  streak : Z;
  total_points : Z;
  lessons_completed : Z;
  conversations_had : Z;
  pronunciation_scores : list Z;
  vocabulary_mastered : list pystr;
  last_login : pystr }.

(** A transcript entry: [{'role': 'user' | 'assistant', 'content': ...}]. *)
Inductive Role := RoleUser | RoleAssistant.
Record Message := { role : Role; content : pystr }.

(** A practice-log entry: its first key is ['word'], ['phrase'] or
    ['twister'] (lines 654-658, 705-709, 751-755). *)
Inductive FeedbackKind := FbWord | FbPhrase | FbTwister.
Record Feedback := {
  fb_kind : FeedbackKind;
  fb_subject : pystr;
  fb_score : Z;
  fb_timestamp : pystr }.

(** [st.session_state.current_quiz] (lines 550-555). *)
Record VocabQuiz := {
  quiz_words : list pystr;
  current_question : Z;
  quiz_score : Z;
  answers : list pystr }.

(** The keys [cultural_quiz_started], [cultural_quiz_score] and
    [cultural_quiz_question], always set together (888-891). *)
Record CulturalQuizState := {
  cultural_quiz_started : bool;
  cultural_quiz_score : Z;
  cultural_quiz_question : Z }.

Record Session := {
  user_profile : UserProfile;
  conversation_history : list Message;
  current_lesson : option pystr;      (** only [None] is ever stored *)
  pronunciation_feedback : list Feedback;
  category_index : gmap pystr Z;
  current_quiz : option VocabQuiz;
  cultural_quiz : option CulturalQuizState }.

(** Lines 97-121, run on the first script run of a session; [now] is
    [datetime.now().isoformat()]. *)
Definition initial_profile (now : pystr) : UserProfile := {|
  name := ""%py;
  native_language := "English"%py;
  target_language := "Spanish"%py;
  level := "Beginner"%py;
  daily_goal := 20;
  interests := [];
  streak := 0;
  total_points := 0;
  lessons_completed := 0;
  conversations_had := 0;
  pronunciation_scores := [];
  vocabulary_mastered := [];
  last_login := now |}.

Definition initial_session (now : pystr) : Session := {|
  user_profile := initial_profile now;
  conversation_history := [];
  current_lesson := None;
  pronunciation_feedback := [];
  category_index := ∅;
  current_quiz := None;
  cultural_quiz := None |}.

(** A session at its first run, for the concrete runs of the components. *)
Definition demo_session : Session := initial_session "2026-11-09T09:00:00"%py.

(** ** Profile updates, one per statement form of the source *)

(** [profile['total_points'] += n] *)
Definition add_points (n : Z) (p : UserProfile) : UserProfile :=
  {| name := name p; native_language := native_language p;
     target_language := target_language p; level := level p;
     daily_goal := daily_goal p; interests := interests p; streak := streak p;
     total_points := total_points p + n;
     lessons_completed := lessons_completed p;
     conversations_had := conversations_had p;
     pronunciation_scores := pronunciation_scores p;
     vocabulary_mastered := vocabulary_mastered p; last_login := last_login p |}.

(** [profile['lessons_completed'] += 1] *)
Definition incr_lessons (p : UserProfile) : UserProfile :=
  {| name := name p; native_language := native_language p;
     target_language := target_language p; level := level p;
     daily_goal := daily_goal p; interests := interests p; streak := streak p;
     total_points := total_points p;
     lessons_completed := lessons_completed p + 1;
     conversations_had := conversations_had p;
     pronunciation_scores := pronunciation_scores p;
     vocabulary_mastered := vocabulary_mastered p; last_login := last_login p |}.

(** [profile['conversations_had'] += 1] *)
Definition incr_conversations (p : UserProfile) : UserProfile :=
  {| name := name p; native_language := native_language p;
     target_language := target_language p; level := level p;
     daily_goal := daily_goal p; interests := interests p; streak := streak p;
     total_points := total_points p;
     lessons_completed := lessons_completed p;
     conversations_had := conversations_had p + 1;
     pronunciation_scores := pronunciation_scores p;
     vocabulary_mastered := vocabulary_mastered p; last_login := last_login p |}.

(** [profile['pronunciation_scores'].append(x)] *)
Definition push_score (x : Z) (p : UserProfile) : UserProfile :=
  {| name := name p; native_language := native_language p;
     target_language := target_language p; level := level p;
     daily_goal := daily_goal p; interests := interests p; streak := streak p;
     total_points := total_points p;
     lessons_completed := lessons_completed p;
     conversations_had := conversations_had p;
     pronunciation_scores := pronunciation_scores p ++ [x];
     vocabulary_mastered := vocabulary_mastered p; last_login := last_login p |}.

(** [profile['vocabulary_mastered'].append(w)] *)
Definition push_vocab (w : pystr) (p : UserProfile) : UserProfile :=
  {| name := name p; native_language := native_language p;
     target_language := target_language p; level := level p;
     daily_goal := daily_goal p; interests := interests p; streak := streak p;
     total_points := total_points p;
     lessons_completed := lessons_completed p;
     conversations_had := conversations_had p;
     pronunciation_scores := pronunciation_scores p;
     vocabulary_mastered := vocabulary_mastered p ++ [w];
     last_login := last_login p |}.

(** The [update] of the profile form (lines 377-384). *)
Definition update_form (nm native target lvl : pystr) (goal : Z) (ints : list pystr)
    (p : UserProfile) : UserProfile :=
  {| name := nm; native_language := native; target_language := target;
     level := lvl; daily_goal := goal; interests := ints; streak := streak p;
     total_points := total_points p;
     lessons_completed := lessons_completed p;
     conversations_had := conversations_had p;
     pronunciation_scores := pronunciation_scores p;
     vocabulary_mastered := vocabulary_mastered p; last_login := last_login p |}.

(** ** Session updates, one per key *)

Definition set_profile (f : UserProfile -> UserProfile) (s : Session) : Session :=
  {| user_profile := f (user_profile s);
     conversation_history := conversation_history s;
     current_lesson := current_lesson s;
     pronunciation_feedback := pronunciation_feedback s;
     category_index := category_index s; current_quiz := current_quiz s;
     cultural_quiz := cultural_quiz s |}.

Definition set_history (h : list Message) (s : Session) : Session :=
  {| user_profile := user_profile s; conversation_history := h;
     current_lesson := current_lesson s;
     pronunciation_feedback := pronunciation_feedback s;
     category_index := category_index s; current_quiz := current_quiz s;
     cultural_quiz := cultural_quiz s |}.

Definition set_feedback (l : list Feedback) (s : Session) : Session :=
  {| user_profile := user_profile s;
     conversation_history := conversation_history s;
     current_lesson := current_lesson s;
     pronunciation_feedback := l;
     category_index := category_index s; current_quiz := current_quiz s;
     cultural_quiz := cultural_quiz s |}.

Definition set_category_index (m : gmap pystr Z) (s : Session) : Session :=
  {| user_profile := user_profile s;
     conversation_history := conversation_history s;
     current_lesson := current_lesson s;
     pronunciation_feedback := pronunciation_feedback s;
     category_index := m; current_quiz := current_quiz s;
     cultural_quiz := cultural_quiz s |}.

Definition set_current_quiz (q : option VocabQuiz) (s : Session) : Session :=
  {| user_profile := user_profile s;
     conversation_history := conversation_history s;
     current_lesson := current_lesson s;
     pronunciation_feedback := pronunciation_feedback s;
     category_index := category_index s; current_quiz := q;
     cultural_quiz := cultural_quiz s |}.

Definition set_cultural_quiz (c : option CulturalQuizState) (s : Session) : Session :=
  {| user_profile := user_profile s;
     conversation_history := conversation_history s;
     current_lesson := current_lesson s;
     pronunciation_feedback := pronunciation_feedback s;
     category_index := category_index s; current_quiz := current_quiz s;
     cultural_quiz := c |}.

(** ** The progress preorder

    No statement of the source lowers a counter or removes a mastered word
    or a score: [progress_le p p'] says that [p'] has at least the points,
    lessons and conversations of [p], and extends its two lists. *)
Definition progress_le (p p' : UserProfile) : Prop :=
  total_points p <= total_points p' /\
  lessons_completed p <= lessons_completed p' /\
  conversations_had p <= conversations_had p' /\
  streak p = streak p' /\
  prefix (vocabulary_mastered p) (vocabulary_mastered p') /\
  prefix (pronunciation_scores p) (pronunciation_scores p').

#[export] Instance progress_le_refl : Reflexive progress_le.
Proof. intros p. repeat split; try lia; reflexivity. Qed.

#[export] Instance progress_le_trans : Transitive progress_le.
Proof.
  intros p1 p2 p3 (?&?&?&?&?&?) (?&?&?&?&?&?).
  repeat split; try lia; try congruence; etransitivity; eauto.
Qed.

(** The session-level relation: the profile only progresses. *)
Definition session_progress (s s' : Session) : Prop :=
  progress_le (user_profile s) (user_profile s').

#[export] Instance session_progress_refl : Reflexive session_progress.
Proof. intros s. unfold session_progress. reflexivity. Qed.

#[export] Instance session_progress_trans : Transitive session_progress.
Proof. intros s1 s2 s3 H1 H2. unfold session_progress in *. etransitivity; eauto. Qed.

Lemma add_points_progress n p : 0 <= n -> progress_le p (add_points n p).
Proof. intros Hn. repeat split; simpl; try lia; reflexivity. Qed.

Lemma incr_lessons_progress p : progress_le p (incr_lessons p).
Proof. repeat split; simpl; try lia; reflexivity. Qed.

Lemma incr_conversations_progress p : progress_le p (incr_conversations p).
Proof. repeat split; simpl; try lia; reflexivity. Qed.

Lemma push_score_progress x p : progress_le p (push_score x p).
Proof. repeat split; simpl; try lia; try reflexivity. by exists [x]. Qed.

Lemma push_vocab_progress w p : progress_le p (push_vocab w p).
Proof. repeat split; simpl; try lia; try reflexivity. by exists [w]. Qed.

Lemma update_form_progress nm nat tgt lvl g ints p :
  progress_le p (update_form nm nat tgt lvl g ints p).
Proof. repeat split; simpl; try lia; reflexivity. Qed.

Lemma set_profile_progress f s :
  (forall p, progress_le p (f p)) -> session_progress s (set_profile f s).
Proof. intros H. apply H. Qed.

Lemma set_history_progress h s : session_progress s (set_history h s).
Proof. unfold session_progress. apply progress_le_refl. Qed.

Lemma set_feedback_progress l s : session_progress s (set_feedback l s).
Proof. unfold session_progress. apply progress_le_refl. Qed.

Lemma set_category_index_progress m s : session_progress s (set_category_index m s).
Proof. unfold session_progress. apply progress_le_refl. Qed.

Lemma set_current_quiz_progress q s : session_progress s (set_current_quiz q s).
Proof. unfold session_progress. apply progress_le_refl. Qed.

Lemma set_cultural_quiz_progress c s : session_progress s (set_cultural_quiz c s).
Proof. unfold session_progress. apply progress_le_refl. Qed.

#[export] Hint Resolve add_points_progress incr_lessons_progress
  incr_conversations_progress push_score_progress push_vocab_progress
  update_form_progress set_profile_progress set_history_progress
  set_feedback_progress set_category_index_progress set_current_quiz_progress
  set_cultural_quiz_progress : pyapp.
