(* ===== verification/QuizSpec.v ===== *)
(** * QuizSpec: the generic quiz state machine the quizzes implement

    The abstract quiz of the design: a phase [NotStarted], [InProgress]
    with a cursor and a score, or [Completed] with a score, over a question
    list of length [n].  [spec_start] resets the cursor and the score when
    there is a question; [spec_submit] scores a right answer, advances the
    cursor and completes the quiz on the last question; [spec_restart]
    returns a completed quiz to [NotStarted].  An operation outside the
    phase it is meant for changes nothing.

    A concrete quiz is related to the machine by a [QuizModel]: its phase
    and its question count, read from the session.  [refines] says that a
    handler moves the concrete phase as a transition of the machine does;
    [Vocabulary] and [CulturalQuiz] prove it for their buttons. *)

From stdpp Require Import base list.
From Stdlib Require Import ZArith Lia.
From S2P Require Import Prelude Session.

Local Open Scope Z_scope.

Inductive QuizPhase :=
  | NotStarted
  | InProgress (cursor score : Z)
  | Completed (score : Z).

#[export] Instance QuizPhase_eq_dec : EqDecision QuizPhase.
Proof. solve_decision. Defined.

(** [start(questions)]: requires a question. *)
Definition spec_start (n : Z) (ph : QuizPhase) : QuizPhase :=
  if 0 <? n then InProgress 0 0 else ph.

(** [submit(answerIndex)], with [correct] the comparison with
    [correctIndex]. *)
Definition spec_submit (n : Z) (correct : bool) (ph : QuizPhase) : QuizPhase :=
  match ph with
  | InProgress c sc =>
      let sc' := if correct then sc + 1 else sc in
      if c + 1 <? n then InProgress (c + 1) sc' else Completed sc'
  | _ => ph
  end.

(** [restart()] *)
Definition spec_restart (ph : QuizPhase) : QuizPhase :=
  match ph with Completed _ => NotStarted | _ => ph end.

(** The points of an answer: the quiz type's pair of awards. *)
Definition spec_points (right wrong : Z) (correct : bool) : Z :=
  if correct then right else wrong.

(** The well-formed phases for [n] questions. *)
Definition phase_wf (n : Z) (ph : QuizPhase) : Prop :=
  match ph with
  | NotStarted => True
  | InProgress c sc => 0 <= sc <= c /\ c < n
  | Completed sc => 0 <= sc <= n
  end.

(** The view of a concrete quiz: its phase and its number of questions. *)
Record QuizModel := {
  qm_phase : Session -> QuizPhase;
  qm_size : Session -> Z }.

(** [c] implements the transition [t s] of the machine from every state
    [s] satisfying [pre]; [t] reads from [s] what the transition takes (the
    question count, whether the answer is right). *)
Definition refines (m : QuizModel) (pre : Session -> Prop) (c : M Session unit)
    (t : Session -> QuizPhase -> QuizPhase) : Prop :=
  forall s, pre s -> qm_phase m (final c s) = t s (qm_phase m s).

(** ** The machine keeps its phases well formed *)

Lemma spec_start_wf n ph : phase_wf n ph -> phase_wf n (spec_start n ph).
Proof. unfold spec_start. destruct (Z.ltb_spec 0 n); simpl; [lia|done]. Qed.

Lemma spec_submit_wf n b ph : phase_wf n ph -> phase_wf n (spec_submit n b ph).
Proof.
  destruct ph as [|c sc|sc]; simpl; [done| |done]. intros [? ?].
  destruct (Z.ltb_spec (c + 1) n); destruct b; simpl; lia.
Qed.

Lemma spec_restart_wf n ph : phase_wf n ph -> phase_wf n (spec_restart ph).
Proof. destruct ph; simpl; done. Qed.
