(* ===== verification/Progress.v ===== *)
(** * Progress: level score, adaptive difficulty and achievements

    The pure functions of [src/app.py] that read the profile:
    [get_user_level_score] (lines 193-202), [get_adaptive_difficulty]
    (204-212), the achievement table of the analytics page (1008-1015),
    its recommendation thresholds (997-1003) and its points distribution
    (976-982), and the whole page [create_progress_analytics] (930-1021),
    which returns what it displays as an [AnalyticsView]; its thirty
    [random.choice] draws are an argument.  Each takes the profile (or
    session) it reads as an argument instead of the global
    [st.session_state].

    The theorems give each function's value on every branch, and show that
    the level score, the tier and every achievement only move up along
    [Session.progress_le], the preorder every handler respects. *)

From stdpp Require Import base list gmap strings.
From Stdlib Require Import ZArith Lia.
From S2P Require Import Prelude Catalog Session.

Local Open Scope Z_scope.
Local Open Scope st_scope.

Definition get_user_level_score (profile : UserProfile) : Z :=
  lessons_completed profile * 10 +
  conversations_had profile * 15 +
  py_len (vocabulary_mastered profile) * 5 +
  total_points profile.

Definition get_adaptive_difficulty (profile : UserProfile) : pystr :=
  let score := get_user_level_score profile in
  if score <? 100 then "Beginner"%py
  else if score <? 300 then "Intermediate"%py
  else "Advanced"%py.

(** The achievement table: [{"name", "description", "unlocked"}]. *)
Record Achievement := {
  ach_name : pystr;
  ach_description : pystr;
  unlocked : bool }.

Definition achievements (profile : UserProfile) : list Achievement := [
  {| ach_name := "First Steps"; ach_description := "Complete your first lesson";
     unlocked := 1 <=? lessons_completed profile |};
  {| ach_name := "Chatterbox"; ach_description := "Have 5 conversations";
     unlocked := 5 <=? conversations_had profile |};
  {| ach_name := "Word Master"; ach_description := "Master 20 vocabulary words";
     unlocked := 20 <=? py_len (vocabulary_mastered profile) |};
  {| ach_name := "Pronunciation Pro"; ach_description := "Score 90+ on pronunciation";
     unlocked := existsb (fun score => 90 <=? score) (pronunciation_scores profile) |};
  {| ach_name := "Streak Keeper"; ach_description := "Maintain a 7-day streak";
     unlocked := 7 <=? streak profile |};
  {| ach_name := "Point Collector"; ach_description := "Earn 500 total points";
     unlocked := 500 <=? total_points profile |}]%py.

(** [unlocked] of the achievement called [n], [false] when there is none. *)
Definition unlocked_named (n : pystr) (profile : UserProfile) : bool :=
  existsb (fun a => bool_decide (ach_name a = n) && unlocked a) (achievements profile).

(** The recommendation text of lines 997-1003. *)
Definition recommendation (profile : UserProfile) : pystr :=
  let score := get_user_level_score profile in
  if score <? 50 then
    "💡 Focus on vocabulary building and basic conversations to improve your foundation."%py
  else if score <? 150 then
    "💡 Great progress! Try more challenging conversations and pronunciation practice."%py
  else
    "💡 Excellent work! Continue with advanced conversations and cultural learning."%py.

(** The pie-chart values of lines 977-982, in the order of [skills]. *)
Definition points_distribution (s : Session) : list Z :=
  let profile := user_profile s in
  [py_len (vocabulary_mastered profile) * 20;
   py_len (pronunciation_feedback s) * 15;
   conversations_had profile * 10;
   lessons_completed profile * 25].

(** The tier order Beginner < Intermediate < Advanced, by rank. *)
Definition tier_rank (t : pystr) : Z :=
  if bool_decide (t = "Beginner"%py) then 0
  else if bool_decide (t = "Intermediate"%py) then 1 else 2.

(** ** The analytics page handler (lines 930-1021) *)

(** The options of [random.choice] for the activity heatmap (954). *)
Definition activity_choices : list Z := [0; 1; 1; 1; 2; 2; 3].

(** What the page shows: the four metrics (937-946), the thirty drawn
    activity levels (954), the pie-chart values and whether the pie is
    drawn (976-991), the recommendation (997-1003) and the achievement
    table (1007-1021). *)
Record AnalyticsView := {
  an_metrics : list Z;
  an_activity : list Z;
  an_points : list Z;
  an_show_pie : bool;
  an_recommendation : pystr;
  an_achievements : list Achievement }.

(** [[random.choice(choices) for _ in range(n)]], the [i]-th choice being
    the element at [draws i] modulo [len(choices)]: every element of
    [choices] and nothing else.  [random.choice] raises [IndexError] on an
    empty sequence. *)
Definition py_choice_list (choices : list Z) (n : nat) (draws : nat -> Z) : exn + list Z :=
  match choices with
  | [] => inl IndexError
  | _ => inr (map (fun i => nth (Z.to_nat (draws i mod py_len choices)) choices 0) (seq 0 n))
  end.

Definition create_progress_analytics (activity_draws : nat -> Z) : M Session AnalyticsView :=
  s <- get ;;
  let profile := user_profile s in
  activity <- lift (py_choice_list activity_choices 30 activity_draws) ;;
  let points := points_distribution s in
  ret {| an_metrics := [total_points profile; lessons_completed profile;
                        conversations_had profile; py_len (vocabulary_mastered profile)];
         an_activity := activity;
         an_points := points;
         an_show_pie := 0 <? py_sum points;
         an_recommendation := recommendation profile;
         an_achievements := achievements profile |}.

(** ** Lemmas *)

Lemma level_score_progress p p' :
  progress_le p p' -> get_user_level_score p <= get_user_level_score p'.
Proof.
  intros (?&?&?&_&Hv&_). unfold get_user_level_score, py_len.
  apply prefix_length in Hv. lia.
Qed.

Lemma existsb_prefix {A} (f : A -> bool) (l l' : list A) :
  prefix l l' -> existsb f l = true -> existsb f l' = true.
Proof.
  intros [k ->] H. rewrite existsb_app, H. reflexivity.
Qed.

Lemma leb_mono (a b c : Z) : b <= c -> (a <=? b) = true -> (a <=? c) = true.
Proof. intros H1 H2. apply Z.leb_le. apply Z.leb_le in H2. lia. Qed.

#[export] Hint Resolve level_score_progress : pyapp.

Lemma create_progress_analytics_state a s :
  exists o, create_progress_analytics a s = (o, s) /\ o <> Rerun.
Proof. unfold create_progress_analytics. cbv [bind get lift ret py_choice_list activity_choices]. by eexists. Qed.

Lemma stays_create_progress_analytics (R : relation Session) `{!Reflexive R} a :
  stays R (create_progress_analytics a).
Proof. intros s. unfold final. destruct (create_progress_analytics_state a s) as (o & -> & _). reflexivity. Qed.

Lemma never_reruns_create_progress_analytics a : never_reruns (create_progress_analytics a).
Proof. intros s. destruct (create_progress_analytics_state a s) as (o & -> & Ho). exact Ho. Qed.

#[export] Hint Resolve never_reruns_create_progress_analytics : pyapp.
#[export] Hint Extern 2 (stays _ (create_progress_analytics _)) =>
  (apply stays_create_progress_analytics; typeclasses eauto) : pyapp.

(** ** Theorems *)

(** C29: [get_adaptive_difficulty] returns "Beginner" exactly below 100,
    "Intermediate" exactly on [100, 300) and "Advanced" exactly from 300
    on: each threshold is inclusive on its lower bound. *)
Theorem adaptive_difficulty_tiers (p : UserProfile) :
  let score := get_user_level_score p in
  (get_adaptive_difficulty p = "Beginner"%py <-> score < 100) /\
  (get_adaptive_difficulty p = "Intermediate"%py <-> 100 <= score < 300) /\
  (get_adaptive_difficulty p = "Advanced"%py <-> 300 <= score).
Proof.
  simpl. unfold get_adaptive_difficulty.
  destruct (Z.ltb_spec (get_user_level_score p) 100);
    [|destruct (Z.ltb_spec (get_user_level_score p) 300)];
    repeat split; intros; try lia; try done; exfalso; congruence.
Qed.

(** C30: along any progress of the profile, the level score and the tier
    never go down: a learner is never moved back to an easier tier. *)
Theorem adaptive_difficulty_monotone (p p' : UserProfile) :
  progress_le p p' ->
  get_user_level_score p <= get_user_level_score p' /\
  tier_rank (get_adaptive_difficulty p) <= tier_rank (get_adaptive_difficulty p').
Proof.
  intros H. pose proof (level_score_progress p p' H) as Hs. split; [exact Hs|].
  unfold get_adaptive_difficulty.
  destruct (Z.ltb_spec (get_user_level_score p) 100),
           (Z.ltb_spec (get_user_level_score p') 100);
    [| |lia|];
    destruct (Z.ltb_spec (get_user_level_score p) 300),
             (Z.ltb_spec (get_user_level_score p') 300);
    vm_compute; try congruence; lia.
Qed.

(** C31: every achievement, once unlocked, stays unlocked along any
    progress of the profile: the table is recomputed on each read, and
    each condition is monotone in the counters and lists it reads. *)
Theorem achievements_monotone (p p' : UserProfile) (n : pystr) :
  progress_le p p' -> unlocked_named n p = true -> unlocked_named n p' = true.
Proof.
  intros (Ht&Hl&Hc&Hs&Hv&Hps) H. unfold unlocked_named, achievements in *.
  apply prefix_length in Hv as Hlen.
  simpl in *. unfold py_len in *. rewrite <- Hs.
  repeat match goal with
  | H : _ || _ = true |- _ => apply orb_true_iff in H; destruct H as [H|H]
  | H : _ && _ = true |- _ => apply andb_true_iff in H; destruct H
  end; try discriminate;
  repeat (apply orb_true_iff; first [left; apply andb_true_iff; split; [assumption|]
                                    | right]);
  first [ eapply leb_mono; [|eassumption]; lia
        | eapply existsb_prefix; eassumption
        | assumption ].
Qed.

Lemma unlocked_word_master (p : UserProfile) :
  unlocked_named "Word Master"%py p = (20 <=? py_len (vocabulary_mastered p)).
Proof. unfold unlocked_named, achievements. cbn -[Z.leb py_len]. str_eqs. apply orb_false_r. Qed.

Lemma unlocked_streak_keeper (p : UserProfile) :
  unlocked_named "Streak Keeper"%py p = (7 <=? streak p).
Proof. unfold unlocked_named, achievements. cbn -[Z.leb py_len]. str_eqs. apply orb_false_r. Qed.

Lemma unlocked_pronunciation_pro (p : UserProfile) :
  unlocked_named "Pronunciation Pro"%py p =
  existsb (fun score => 90 <=? score) (pronunciation_scores p).
Proof. unfold unlocked_named, achievements. cbn -[Z.leb py_len]. str_eqs. apply orb_false_r. Qed.

(** ** Witnesses on a concrete profile *)

Lemma adaptive_difficulty_monotone_witness :
  progress_le (user_profile demo_session) (add_points 150 (user_profile demo_session)) /\
  tier_rank (get_adaptive_difficulty (user_profile demo_session)) <=
  tier_rank (get_adaptive_difficulty (add_points 150 (user_profile demo_session))).
Proof.
  assert (H : progress_le (user_profile demo_session) (add_points 150 (user_profile demo_session)))
    by (apply add_points_progress; lia).
  split; [exact H|]. exact (proj2 (adaptive_difficulty_monotone _ _ H)).
Defined.

Lemma achievements_monotone_witness :
  let p := incr_lessons (user_profile demo_session) in
  progress_le p (add_points 10 p) /\ unlocked_named "First Steps"%py p = true /\
  unlocked_named "First Steps"%py (add_points 10 p) = true.
Proof.
  intros p.
  assert (H : progress_le p (add_points 10 p)) by (apply add_points_progress; lia).
  assert (Hu : unlocked_named "First Steps"%py p = true) by (vm_compute; reflexivity).
  split_and!; [exact H|exact Hu|exact (achievements_monotone _ _ _ H Hu)].
Defined.
