(* ===== verification/Dashboard.v ===== *)
(** * Dashboard: the home page

    [create_dashboard] (lines 259-342) writes nothing to the session: it
    shows four metrics of the profile (266-276), the six values of the
    skill radar chart (285-293), seven mock daily point counts (317-318)
    and the "Recent Achievements" badges (329-342).  Three of the six
    skills and the seven daily counts are [random.randint] calls; the
    random source is given by the run as [DashboardDraws], and
    [py_randint] keeps each value in the range of its call.  The handler
    returns the values the
    page displays, as a [DashboardView], so that the theorems can speak of
    them.  The badge list is a literal: it does not depend on the
    learner's progress. *)

From stdpp Require Import base list strings.
From Stdlib Require Import ZArith Lia.
From S2P Require Import Prelude Catalog Session.

Local Open Scope Z_scope.
Local Open Scope st_scope.

(** The random source of the page's [random.randint] calls: one value
    for each of grammar, listening and reading (289, 292, 293), in the
    order of the list literal, and one for each day of the week (318).
    [py_randint] takes each into the range the code asks for. *)
Record DashboardDraws := {
  grammar_draw : Z;
  listening_draw : Z;
  reading_draw : Z;
  daily_points_draws : nat -> Z }.

(** What the page shows. *)
Record DashboardView := {
  dash_metrics : list Z;          (** points, streak, lessons, conversations *)
  dash_skills : list Z;           (** the radar chart, in the order of [skills] *)
  dash_daily_points : list Z;
  dash_badges_html : pystr }.

(** Lines 266-276. *)
Definition dashboard_metrics (p : UserProfile) : list Z :=
  [total_points p; streak p; lessons_completed p; conversations_had p].

(** Lines 285-293: Vocabulary, Grammar, Pronunciation, Conversation,
    Listening, Reading. *)
Definition skill_scores (p : UserProfile) (grammar listening reading : Z) : list Z :=
  [Z.min (py_len (vocabulary_mastered p)) 10;
   grammar;
   if bool_decide (pronunciation_scores p <> []) then 8 else 5;
   Z.min (conversations_had p) 10;
   listening;
   reading].

(** Lines 330-335. *)
Definition recent_achievements : list pystr :=
  ["First Conversation Complete"; "10 Words Mastered"; "Perfect Pronunciation";
   "3-Day Streak"]%py.

(** [f'<span class="achievement-badge">{achievement}</span>'] (339). *)
Definition achievement_badge (a : pystr) : pystr :=
  py_add (py_add (py_add (py_add (py_add "<span class="%py py_dquote) "achievement-badge"%py)
                         py_dquote) (py_add ">"%py a)) "</span>"%py.

(** Lines 337-339: [achievement_html += ...] over the list. *)
Definition achievements_html (achievements : list pystr) : pystr :=
  fold_left (fun html a => py_add html (achievement_badge a)) achievements ""%py.

Definition create_dashboard (d : DashboardDraws) : M Session DashboardView :=
  s <- get ;;
  let profile := user_profile s in
  grammar <- lift (py_randint 5 10 (grammar_draw d)) ;;
  listening <- lift (py_randint 5 10 (listening_draw d)) ;;
  reading <- lift (py_randint 5 10 (reading_draw d)) ;;
  daily_points <- lift (py_randint_list 10 50 7 (daily_points_draws d)) ;;
  ret {| dash_metrics := dashboard_metrics profile;
         dash_skills := skill_scores profile grammar listening reading;
         dash_daily_points := daily_points;
         dash_badges_html := achievements_html recent_achievements |}.

(** The view of the page on a session, for given draws. *)
Definition dashboard_view (d : DashboardDraws) (s : Session) : DashboardView :=
  {| dash_metrics := dashboard_metrics (user_profile s);
     dash_skills := skill_scores (user_profile s) (py_randint_value 5 10 (grammar_draw d))
                      (py_randint_value 5 10 (listening_draw d))
                      (py_randint_value 5 10 (reading_draw d));
     dash_daily_points := map (fun i => py_randint_value 10 50 (daily_points_draws d i)) (seq 0 7);
     dash_badges_html := achievements_html recent_achievements |}.

(** ** Lemmas *)

(** The dashboard never raises and never writes the session; what it
    shows is [dashboard_view]. *)
Lemma create_dashboard_run (d : DashboardDraws) (s : Session) :
  create_dashboard d s = (Ret (dashboard_view d s), s).
Proof. reflexivity. Qed.

Lemma stays_create_dashboard (R : relation Session) `{!Reflexive R} d :
  stays R (create_dashboard d).
Proof. intros s. unfold final. rewrite create_dashboard_run. reflexivity. Qed.

Lemma never_reruns_create_dashboard d : never_reruns (create_dashboard d).
Proof. intros s. by rewrite create_dashboard_run. Qed.

#[export] Hint Resolve never_reruns_create_dashboard : pyapp.
#[export] Hint Extern 2 (stays _ (create_dashboard _)) =>
  (apply stays_create_dashboard; typeclasses eauto) : pyapp.
