(* ===== verification/Pronunciation.v ===== *)
(** * Pronunciation: the score simulator, the reward bands and the
      pronunciation page

    [simulate_pronunciation_score] (lines 214-224) with its random draw
    [random.randint(70, 100)] passed in as [base_score]; the four reward
    bands the source writes as [if]/[elif] chains (conversation page
    465-473, words 660-675, phrases 711-716, tongue twisters 757-766),
    each monotone in the score (the spec asks for these as data tables;
    the source hardcodes them); the page handler [create_pronunciation_practice]
    (606-766); and the page's analytics column (768-798), which reads the
    last ten attempts of the log.

    The handler is translated with the indentation the source really has:
    the [elif practice_type == "Common Phrases"] of line 680 is the [elif]
    of the "Listen" button inside the "Individual Words" branch, and the
    phrase block (692-716) is the tail of that branch.  The local [phrases]
    is therefore bound only when the practice type is both "Individual
    Words" and "Common Phrases", which never happens: the branch ends in
    [UnboundLocalError] (a [NameError]), and the "Common Phrases" type does
    nothing at all. *)

From stdpp Require Import base list gmap strings.
From Stdlib Require Import ZArith Lia.
From S2P Require Import Prelude Catalog Session Progress.

Local Open Scope Z_scope.
Local Open Scope st_scope.

Definition simulate_pronunciation_score (base_score : Z) (profile : UserProfile) : Z :=
  let user_level := get_adaptive_difficulty profile in
  if bool_decide (user_level = "Beginner"%py) then Z.max 60 (base_score - 10)
  else if bool_decide (user_level = "Intermediate"%py) then Z.max 70 (base_score - 5)
  else base_score.

(** The draw of [random.randint(70, 100)]. *)
Definition valid_base_score (base_score : Z) : Prop := 70 <= base_score <= 100.

(** ** Reward bands, as the source writes them *)

(** Conversation page, lines 465-473. *)
Definition conversation_pronunciation_points (score : Z) : Z :=
  if score >=? 85 then 15 else if score >=? 70 then 10 else 5.

(** "Individual Words", lines 660-675. *)
Definition word_pronunciation_points (score : Z) : Z :=
  if score >=? 90 then 25 else if score >=? 80 then 20
  else if score >=? 70 then 15 else if score >=? 60 then 10 else 5.

(** "Record Phrase", lines 711-716. *)
Definition phrase_pronunciation_points (score : Z) : Z :=
  if score >=? 85 then 30 else 15.

(** "Tongue Twisters", lines 757-766. *)
Definition twister_pronunciation_points (score : Z) : Z :=
  if score >=? 90 then 50 else if score >=? 80 then 40 else 25.

(** A reward chain compared at two scores: every pair of branches. *)
Ltac reward_chain_tac :=
  unfold conversation_pronunciation_points, word_pronunciation_points,
    phrase_pronunciation_points, twister_pronunciation_points;
  repeat match goal with |- context [?a >=? ?b] => destruct (Z.geb_spec a b) end; lia.

(** ** The page handler *)

Inductive PronButton :=
  | RecordPronunciation | ListenPronunciation | RecordPhrase | ChallengeAccepted.

#[export] Instance PronButton_eq_dec : EqDecision PronButton.
Proof. solve_decision. Defined.

(** The widget values of one run of the page and its random draw. *)
Record PronEvent := {
  practice_type : pystr;
  practice_choice : pystr;   (** the word or tongue twister selected *)
  phrase_choice : pystr;     (** the value of the phrase selectbox, line 692 *)
  pron_button : option PronButton;
  pron_base_score : Z;
  pron_timestamp : pystr }.

(** [pronunciation_feedback.append({...})] and the points of its band. *)
Definition record_attempt (kind : FeedbackKind) (subject : pystr) (base_score : Z)
    (timestamp : pystr) (points : Z -> Z) : M Session unit :=
  s <- get ;;
  let score := simulate_pronunciation_score base_score (user_profile s) in
  modify (set_feedback (pronunciation_feedback s ++
    [{| fb_kind := kind; fb_subject := subject; fb_score := score;
        fb_timestamp := timestamp |}])) ;;
  modify (set_profile (add_points (points score))).

(** [for category, words in language_data.items(): if isinstance(words,
    list): all_words.extend(words)]: every value is a list, the cultural
    tips included. *)
Definition all_practice_words (language_data : pydict pystr (list pystr)) : list pystr :=
  concat (map snd language_data).

Definition create_pronunciation_practice (ev : PronEvent) : M Session unit :=
  s <- get ;;
  let target_language := target_language (user_profile s) in
  if negb (dict_mem target_language LANGUAGES) then ret tt
  else
  language_data <- lift (dict_getitem target_language LANGUAGES) ;;
  (if bool_decide (practice_type ev = "Individual Words"%py) then
     let all_words := all_practice_words language_data in
     (* [phrases] is bound by the [elif] of line 680 only *)
     let phrases :=
       if negb (bool_decide (all_words = [])) &&
          negb (clicked (pron_button ev) ListenPronunciation) &&
          bool_decide (practice_type ev = "Common Phrases"%py)
       then Some common_phrases else None in
     when (negb (bool_decide (all_words = [])))
       (when (clicked (pron_button ev) RecordPronunciation)
          (record_attempt FbWord (practice_choice ev) (pron_base_score ev)
             (pron_timestamp ev) word_pronunciation_points)) ;;
     match phrases with
     | None => raise NameError
     | Some _ =>
         when (clicked (pron_button ev) RecordPhrase)
           (record_attempt FbPhrase (phrase_choice ev) (pron_base_score ev)
              (pron_timestamp ev) phrase_pronunciation_points)
     end
   else if bool_decide (practice_type ev = "Tongue Twisters"%py) then
     when (clicked (pron_button ev) ChallengeAccepted)
       (record_attempt FbTwister (practice_choice ev) (pron_base_score ev)
          (pron_timestamp ev) twister_pronunciation_points)
   else ret tt).

(** The twister list the selectbox offers (line 737); the default
    argument [twisters['Spanish']] is evaluated first and exists. *)
Definition language_twisters (target_language : pystr) : list pystr :=
  dict_get target_language tongue_twisters
    (dict_get "Spanish"%py tongue_twisters []).

(** ** The analytics column (lines 768-798) *)

(** [[item['score'] for item in pronunciation_feedback[-10:]]] *)
Definition recent_scores (fb : list Feedback) : list Z := map fb_score (py_last 10 fb).

(** The tip the column shows.  [avg_score >= 85] with [avg_score =
    sum / len] is [sum >= 85 * len]: the scores are integers and [len <=
    10], so the float quotient is at least [1/10] away from any threshold
    it does not reach, far more than its rounding error. *)
Definition pronunciation_tip (fb : list Feedback) : pystr :=
  match fb with
  | [] => "Start practicing to see your pronunciation analytics!"%py
  | _ =>
      let rs := recent_scores fb in
      if 85 * py_len rs <=? py_sum rs then "🎯 Excellent pronunciation! You're doing great!"%py
      else if 70 * py_len rs <=? py_sum rs then
        "👍 Good progress! Keep practicing to improve further."%py
      else "💪 Focus on pronunciation practice to improve your scores."%py
  end.

(** ** Concrete sessions and events of the examples and witnesses *)

Definition pron_event (kind : pystr) (b : PronButton) : PronEvent := {|
  practice_type := kind;
  practice_choice := "hola"%py;
  phrase_choice := "Hello, how are you?"%py;
  pron_button := Some b;
  pron_base_score := 95;
  pron_timestamp := "2026-11-09T09:05:00"%py |}.

(** ** Lemmas *)

Lemma simulate_cases base p :
  (get_adaptive_difficulty p = "Beginner"%py /\
     simulate_pronunciation_score base p = Z.max 60 (base - 10)) \/
  (get_adaptive_difficulty p = "Intermediate"%py /\
     simulate_pronunciation_score base p = Z.max 70 (base - 5)) \/
  (get_adaptive_difficulty p = "Advanced"%py /\
     simulate_pronunciation_score base p = base).
Proof.
  unfold simulate_pronunciation_score, get_adaptive_difficulty.
  destruct (Z.ltb _ 100); [left|destruct (Z.ltb _ 300); right; [left|right]];
    str_eqs; auto.
Qed.

Lemma record_attempt_progress k subj base ts points :
  (forall x, 0 <= points x) -> stays session_progress (record_attempt k subj base ts points).
Proof.
  intros Hp. unfold record_attempt. stays_tac.
Qed.

Lemma conversation_points_nonneg x : 0 <= conversation_pronunciation_points x.
Proof. unfold conversation_pronunciation_points. repeat case_match; lia. Qed.

Lemma word_points_nonneg x : 0 <= word_pronunciation_points x.
Proof. unfold word_pronunciation_points. repeat case_match; lia. Qed.

Lemma phrase_points_nonneg x : 0 <= phrase_pronunciation_points x.
Proof. unfold phrase_pronunciation_points. repeat case_match; lia. Qed.

Lemma twister_points_nonneg x : 0 <= twister_pronunciation_points x.
Proof. unfold twister_pronunciation_points. repeat case_match; lia. Qed.

#[export] Hint Resolve conversation_points_nonneg word_points_nonneg
  phrase_points_nonneg twister_points_nonneg : pyapp.

(** Every language of the catalog has words to practise. *)
Lemma languages_have_words target data :
  dict_getitem target LANGUAGES = inr data -> all_practice_words data <> [].
Proof.
  apply (dict_getitem_Forall (fun d => all_practice_words d <> [])).
  repeat constructor; vm_compute; discriminate.
Qed.

(** The points of an attempt are those of its band, for the score of the
    profile before the attempt. *)
Lemma record_attempt_run k subj base ts points s :
  record_attempt k subj base ts points s =
    (Ret tt, set_profile (add_points (points (simulate_pronunciation_score base (user_profile s))))
               (set_feedback (pronunciation_feedback s ++
                  [{| fb_kind := k; fb_subject := subj;
                      fb_score := simulate_pronunciation_score base (user_profile s);
                      fb_timestamp := ts |}]) s)).
Proof. reflexivity. Qed.

Lemma record_attempt_same_scores k subj base ts points :
  stays (same_on (fun s => pronunciation_scores (user_profile s)))
    (record_attempt k subj base ts points).
Proof. unfold record_attempt. stays_tac; reflexivity. Qed.

#[export] Hint Resolve record_attempt_same_scores : pyapp.

Lemma simulate_in_range base p :
  valid_base_score base -> 60 <= simulate_pronunciation_score base p <= 100.
Proof.
  unfold valid_base_score. intros Hb.
  destruct (simulate_cases base p) as [[_ ->]|[[_ ->]|[_ ->]]]; lia.
Qed.

(** ** Theorems *)

(** C17: for a draw of [random.randint(70, 100)], the simulated score is
    in [60, 90] for a Beginner, in [70, 95] for an Intermediate learner
    and in [70, 100] for an Advanced one; in every tier it lies in
    [0, 100]. *)
Theorem simulate_score_bounds (base : Z) (p : UserProfile) :
  valid_base_score base ->
  let score := simulate_pronunciation_score base p in
  0 <= score <= 100 /\
  (get_adaptive_difficulty p = "Beginner"%py -> 60 <= score <= 90) /\
  (get_adaptive_difficulty p = "Intermediate"%py -> 70 <= score <= 95) /\
  (get_adaptive_difficulty p = "Advanced"%py -> 70 <= score <= 100).
Proof.
  unfold valid_base_score. intros Hb. simpl.
  destruct (simulate_cases base p) as [[Ht ->]|[[Ht ->]|[Ht ->]]]; rewrite Ht;
    repeat split; intros; try discriminate; lia.
Qed.

(** C32: every reward chain is monotone in the score: a better
    pronunciation score never earns fewer points, on the conversation
    page, for words, for phrases and for tongue twisters. *)
Theorem reward_chains_monotone :
  Proper (Z.le ==> Z.le) conversation_pronunciation_points /\
  Proper (Z.le ==> Z.le) word_pronunciation_points /\
  Proper (Z.le ==> Z.le) phrase_pronunciation_points /\
  Proper (Z.le ==> Z.le) twister_pronunciation_points.
Proof. split_and!; intros x y Hxy; reward_chain_tac. Qed.

(** C18: "Individual Words" always ends in [UnboundLocalError]: the
    local [phrases] of line 681 is bound only under the [elif] of the
    "Listen" button with the practice type "Common Phrases", which the
    branch excludes, so line 692 raises.  The attempt of "Record
    Pronunciation" (655-675) is recorded before the exception and stays in
    the session. *)
Theorem individual_words_name_error (ev : PronEvent) (s : Session) :
  practice_type ev = "Individual Words"%py ->
  dict_mem (target_language (user_profile s)) LANGUAGES = true ->
  fst (create_pronunciation_practice ev s) = Raise NameError /\
  final (create_pronunciation_practice ev) s =
    if clicked (pron_button ev) RecordPronunciation
    then final (record_attempt FbWord (practice_choice ev) (pron_base_score ev)
                  (pron_timestamp ev) word_pronunciation_points) s
    else s.
Proof.
  intros Ht Hm. destruct (dict_mem_getitem_ex _ _ Hm) as [data Hd].
  unfold create_pronunciation_practice. run_tac. str_eqs.
  rewrite (bool_decide_eq_false_2 _ (languages_have_words _ _ Hd)).
  destruct (clicked (pron_button ev) ListenPronunciation); cbn [negb andb];
    destruct (clicked (pron_button ev) RecordPronunciation); cbn [when];
    rewrite ?record_attempt_run; split; reflexivity.
Qed.

(** C35: the practice type "Common Phrases" does nothing: no phrase can be
    recorded and the phrase reward (711-716) is never paid. *)
Theorem common_phrases_noop (ev : PronEvent) (s : Session) :
  practice_type ev = "Common Phrases"%py ->
  create_pronunciation_practice ev s = (Ret tt, s).
Proof.
  intros Ht. unfold create_pronunciation_practice. run_tac. str_eqs.
  destruct (dict_mem _ LANGUAGES) eqn:Hm; [|reflexivity].
  destruct (dict_mem_getitem_ex _ _ Hm) as [data Hd]. rewrite Hd. reflexivity.
Qed.

(** "Challenge Accepted!" on a tongue twister appends the attempt to
    [pronunciation_feedback] with the simulated score and awards the
    points of the twister band. *)
Theorem tongue_twister_effect (ev : PronEvent) (s : Session) :
  practice_type ev = "Tongue Twisters"%py ->
  pron_button ev = Some ChallengeAccepted ->
  dict_mem (target_language (user_profile s)) LANGUAGES = true ->
  let score := simulate_pronunciation_score (pron_base_score ev) (user_profile s) in
  create_pronunciation_practice ev s =
    (Ret tt, set_profile (add_points (twister_pronunciation_points score))
               (set_feedback (pronunciation_feedback s ++
                  [{| fb_kind := FbTwister; fb_subject := practice_choice ev;
                      fb_score := score; fb_timestamp := pron_timestamp ev |}]) s)).
Proof.
  intros Ht Hb Hm score. destruct (dict_mem_getitem_ex _ _ Hm) as [data Hd].
  unfold create_pronunciation_practice. run_tac. str_eqs. run_tac.
  apply record_attempt_run.
Qed.

(** C24: the pronunciation page never changes the profile's
    [pronunciation_scores]: its attempts go to [pronunciation_feedback], so
    "Pronunciation Pro" (line 1014) counts only the attempts of the
    conversation page. *)
Theorem pronunciation_page_keeps_scores (ev : PronEvent) (s : Session) :
  pronunciation_scores (user_profile (final (create_pronunciation_practice ev) s)) =
  pronunciation_scores (user_profile s).
Proof.
  revert s. change (stays (same_on (fun s => pronunciation_scores (user_profile s)))
                     (create_pronunciation_practice ev)).
  unfold create_pronunciation_practice. stays_tac.
Qed.

(** ** Witnesses on a concrete session *)

Lemma simulate_score_bounds_witness :
  valid_base_score 95 /\
  0 <= simulate_pronunciation_score 95 (user_profile demo_session) <= 100.
Proof.
  assert (Hv : valid_base_score 95) by (unfold valid_base_score; lia).
  split; [exact Hv|]. exact (proj1 (simulate_score_bounds 95 (user_profile demo_session) Hv)).
Defined.

Lemma individual_words_name_error_witness :
  fst (create_pronunciation_practice (pron_event "Individual Words"%py RecordPronunciation)
         demo_session) = Raise NameError.
Proof.
  apply (individual_words_name_error (pron_event "Individual Words"%py RecordPronunciation)
           demo_session); vm_compute; reflexivity.
Defined.

Lemma common_phrases_noop_witness :
  create_pronunciation_practice (pron_event "Common Phrases"%py RecordPhrase) demo_session =
    (Ret tt, demo_session).
Proof.
  apply (common_phrases_noop (pron_event "Common Phrases"%py RecordPhrase) demo_session).
  reflexivity.
Defined.

Lemma tongue_twister_effect_witness :
  create_pronunciation_practice (pron_event "Tongue Twisters"%py ChallengeAccepted) demo_session =
    (Ret tt, set_profile (add_points 40)
               (set_feedback [{| fb_kind := FbTwister; fb_subject := "hola"%py;
                                 fb_score := 85; fb_timestamp := "2026-11-09T09:05:00"%py |}]
                  demo_session)).
Proof.
  rewrite (tongue_twister_effect (pron_event "Tongue Twisters"%py ChallengeAccepted) demo_session)
    by (vm_compute; reflexivity).
  vm_compute. reflexivity.
Defined.

Lemma reward_chains_monotone_witness :
  word_pronunciation_points 79 <= word_pronunciation_points 80.
Proof. apply (proj1 (proj2 reward_chains_monotone)). lia. Defined.
