(* ===== verification/Conversation.v ===== *)
(** * Conversation: the AI partner's replies and the conversation page

    [get_ai_response] (lines 226-257) and the page handler
    [create_conversation_practice] (388-478): its three buttons "Send
    Message" (436-456), "Practice Pronunciation" (458-473) and "Clear
    Chat" (475-478).  The scenario selectbox, the text input, the button
    clicked and the draw of [random.randint] are the page's event.

    Intent detection is specified abstractly by [classify], which returns
    the first of the ordered buckets greeting, food, directions whose
    keywords occur in the lower-cased input, and [General] otherwise;
    [get_ai_response] is proved to be the reply table read at that
    intent.  The theorems then give the effect of each button on the
    transcript and the profile, the error of an unsupported target
    language included. *)

From stdpp Require Import base list gmap strings.
From Stdlib Require Import ZArith Lia.
From S2P Require Import Prelude Catalog Session Progress Pronunciation.

Local Open Scope Z_scope.
Local Open Scope st_scope.

(** ** Replies *)

Definition greeting_words : list pystr := ["hello"; "hi"; "hola"; "bonjour"; "hallo"]%py.
Definition food_words : list pystr := ["food"; "eat"; "comida"; "manger"; "essen"]%py.
Definition direction_words : list pystr := ["direction"; "where"; "dónde"; "où"; "wo"]%py.

(** [any(word in user_input.lower() for word in words)] *)
Definition mentions_any (words : list pystr) (user_input : pystr) : bool :=
  existsb (fun word => py_contains word (py_lower user_input)) words.

(** [responses[language][key]] *)
Definition response_of (language key : pystr) : exn + pystr :=
  match dict_getitem language ai_responses with
  | inl e => inl e
  | inr r => dict_getitem key r
  end.

Definition get_ai_response (user_input scenario_context language : pystr) : exn + pystr :=
  if mentions_any greeting_words user_input then response_of language "greeting"%py
  else if mentions_any food_words user_input then response_of language "food"%py
  else if mentions_any direction_words user_input then response_of language "directions"%py
  else response_of language "general"%py.

(** ** The abstract intent classifier *)

Inductive Intent := Greeting | Food | Directions | General.

Definition intent_key (i : Intent) : pystr :=
  match i with
  | Greeting => "greeting" | Food => "food" | Directions => "directions"
  | General => "general"
  end%py.

(** The buckets in priority order; the first that matches wins. *)
Definition intent_buckets : list (Intent * list pystr) :=
  [(Greeting, greeting_words); (Food, food_words); (Directions, direction_words)].

Fixpoint first_bucket (buckets : list (Intent * list pystr)) (user_input : pystr) : Intent :=
  match buckets with
  | [] => General
  | (i, words) :: rest =>
      if mentions_any words user_input then i else first_bucket rest user_input
  end.

Definition classify (user_input : pystr) : Intent := first_bucket intent_buckets user_input.

(** ** The page handler *)

Inductive ConvButton := SendMessage | PracticePronunciation | ClearChat.

#[export] Instance ConvButton_eq_dec : EqDecision ConvButton.
Proof. solve_decision. Defined.

Record ConvEvent := {
  conv_scenario : pystr;
  conv_input : pystr;
  conv_button : option ConvButton;
  conv_base_score : Z }.

(** [CONVERSATION_SCENARIOS.get(user_level, CONVERSATION_SCENARIOS['Beginner'])] *)
Definition level_scenarios (profile : UserProfile) : list Scenario :=
  dict_get (get_adaptive_difficulty profile) CONVERSATION_SCENARIOS
    (dict_get "Beginner"%py CONVERSATION_SCENARIOS []).

(** [next(s['context'] for s in scenarios if s['scenario'] == selected)] *)
Definition scenario_context_of (selected : pystr) (scenarios : list Scenario) : exn + pystr :=
  match find (fun sc => bool_decide (scenario sc = selected)) scenarios with
  | Some sc => inr (context sc)
  | None => inl StopIteration
  end.

Definition append_message (r : Role) (text : pystr) (s : Session) : Session :=
  set_history (conversation_history s ++ [{| role := r; content := text |}]) s.

Definition create_conversation_practice (ev : ConvEvent) : M Session unit :=
  s <- get ;;
  let target_language := target_language (user_profile s) in
  let scenarios := level_scenarios (user_profile s) in
  scenario_context <- lift (scenario_context_of (conv_scenario ev) scenarios) ;;
  let user_input := conv_input ev in
  when (clicked (conv_button ev) SendMessage)
    (when (py_truthy user_input)
       (modify (append_message RoleUser user_input) ;;
        ai_response <- lift (get_ai_response user_input scenario_context target_language) ;;
        modify (append_message RoleAssistant ai_response) ;;
        modify (set_profile incr_conversations) ;;
        modify (set_profile (add_points 10)) ;;
        rerun)) ;;
  when (clicked (conv_button ev) PracticePronunciation)
    (when (py_truthy user_input)
       (s <- get ;;
        let score := simulate_pronunciation_score (conv_base_score ev) (user_profile s) in
        modify (set_profile (push_score score)) ;;
        modify (set_profile (add_points (conversation_pronunciation_points score))))) ;;
  when (clicked (conv_button ev) ClearChat)
    (modify (set_history []) ;; rerun).

(** ** Concrete sessions and events of the examples and witnesses *)

Definition demo_italian : Session :=
  set_profile (update_form ""%py "English"%py "Italian"%py "Beginner"%py 20 []) demo_session.

Definition demo_event (b : ConvButton) : ConvEvent := {|
  conv_scenario := "Meeting Someone New"%py;
  conv_input := "Hello, food please"%py;
  conv_button := Some b;
  conv_base_score := 93 |}.

(** ** Lemmas *)

Lemma append_message_progress r t s : session_progress s (append_message r t s).
Proof. apply set_history_progress. Qed.

#[export] Hint Resolve append_message_progress : pyapp.

Lemma get_ai_response_language u ctx lang :
  dict_mem lang ai_responses = false -> get_ai_response u ctx lang = inl KeyError.
Proof.
  unfold dict_mem, get_ai_response, response_of, dict_getitem.
  destruct (dict_lookup lang ai_responses); [discriminate|].
  intros _. repeat case_match; reflexivity.
Qed.

Lemma response_of_supported lang key :
  dict_mem lang ai_responses = true -> key ∈ intent_key <$> [Greeting; Food; Directions; General] ->
  exists reply, response_of lang key = inr reply.
Proof.
  unfold dict_mem, response_of, dict_getitem, ai_responses.
  intros Hl Hk. simpl in Hl.
  repeat (case_decide; [subst; simpl;
            repeat (apply elem_of_cons in Hk as [->|Hk]; [by eexists|]);
            by apply elem_of_nil in Hk|]).
  discriminate.
Qed.

(** In a language with a reply table every input gets a reply. *)
Lemma get_ai_response_supported u ctx lang :
  dict_mem lang ai_responses = true -> exists reply, get_ai_response u ctx lang = inr reply.
Proof.
  intros Hl. unfold get_ai_response.
  repeat case_match; apply response_of_supported; [exact Hl|set_solver..|exact Hl|set_solver].
Qed.

(** ** Theorems *)

(** C6: the reply of [get_ai_response] is the reply table of the target
    language read at the intent [classify] gives: the if-chain of the
    source implements the ordered-bucket classifier. *)
Theorem get_ai_response_refines_classify (user_input ctx language : pystr) :
  get_ai_response user_input ctx language =
  response_of language (intent_key (classify user_input)).
Proof.
  unfold get_ai_response, classify, intent_buckets. cbn [first_bucket].
  repeat case_match; reflexivity.
Qed.

(** The buckets are tried in the order greeting, food, directions:
    an input is classified [Food] exactly when it mentions a food keyword
    and no greeting keyword, [Directions] exactly when it mentions a
    direction keyword and neither of the others. *)
Theorem classify_priority (u : pystr) :
  (classify u = Greeting <-> mentions_any greeting_words u = true) /\
  (classify u = Food <->
     mentions_any greeting_words u = false /\ mentions_any food_words u = true) /\
  (classify u = Directions <->
     mentions_any greeting_words u = false /\ mentions_any food_words u = false /\
     mentions_any direction_words u = true) /\
  (classify u = General <->
     mentions_any greeting_words u = false /\ mentions_any food_words u = false /\
     mentions_any direction_words u = false).
Proof.
  unfold classify, intent_buckets. cbn [first_bucket].
  destruct (mentions_any greeting_words u), (mentions_any food_words u),
    (mentions_any direction_words u); repeat split; intros; destruct_and?;
    first [done | discriminate | congruence].
Qed.

(** C5: "Send Message" with a non-empty input, in a target language that
    has replies: the transcript gains exactly the learner's message and
    then the partner's reply, [conversations_had] grows by one and
    [total_points] by 10, nothing else changes, and the run ends in
    [st.rerun()]. *)
Theorem send_message_effect (ev : ConvEvent) (s : Session) (ctx : pystr) :
  conv_button ev = Some SendMessage ->
  py_truthy (conv_input ev) = true ->
  scenario_context_of (conv_scenario ev) (level_scenarios (user_profile s)) = inr ctx ->
  dict_mem (target_language (user_profile s)) ai_responses = true ->
  exists reply,
    get_ai_response (conv_input ev) ctx (target_language (user_profile s)) = inr reply /\
    create_conversation_practice ev s =
      (Rerun, set_profile (fun p => add_points 10 (incr_conversations p))
                (set_history (conversation_history s ++
                   [{| role := RoleUser; content := conv_input ev |};
                    {| role := RoleAssistant; content := reply |}]) s)).
Proof.
  intros Hb Hin Hctx Hlang.
  destruct (get_ai_response_supported (conv_input ev) ctx _ Hlang) as [reply Hr].
  exists reply. split; [exact Hr|].
  unfold create_conversation_practice. rewrite Hb.
  run_tac. cbn.
  unfold append_message, set_history, set_profile; cbn. by rewrite <- app_assoc.
Qed.

(** C19: "Send Message" when the target language has no reply table (a
    language the profile form offers, such as Italian): the run raises
    [KeyError] after the learner's message has been appended, and no
    counter changes.  The spec asks for a rejected command to leave all
    state unchanged. *)
Theorem send_message_unsupported_language (ev : ConvEvent) (s : Session) (ctx : pystr) :
  conv_button ev = Some SendMessage ->
  py_truthy (conv_input ev) = true ->
  scenario_context_of (conv_scenario ev) (level_scenarios (user_profile s)) = inr ctx ->
  dict_mem (target_language (user_profile s)) ai_responses = false ->
  create_conversation_practice ev s =
    (Raise KeyError, append_message RoleUser (conv_input ev) s).
Proof.
  intros Hb Hin Hctx Hlang. unfold create_conversation_practice. rewrite Hb.
  run_tac. rewrite get_ai_response_language by exact Hlang. reflexivity.
Qed.

(** "Clear Chat" empties the transcript and changes nothing else: the
    profile, its counters and points included, is kept. *)
Theorem clear_chat_effect (ev : ConvEvent) (s : Session) (ctx : pystr) :
  conv_button ev = Some ClearChat ->
  scenario_context_of (conv_scenario ev) (level_scenarios (user_profile s)) = inr ctx ->
  create_conversation_practice ev s = (Rerun, set_history [] s).
Proof.
  intros Hb Hctx. unfold create_conversation_practice. rewrite Hb. run_tac. reflexivity.
Qed.

(** C34: "Practice Pronunciation" on the conversation page appends the
    simulated score to the profile's [pronunciation_scores] and awards the
    points of the conversation band for that same score. *)
Theorem conversation_pronunciation_effect (ev : ConvEvent) (s : Session) (ctx : pystr) :
  conv_button ev = Some PracticePronunciation ->
  py_truthy (conv_input ev) = true ->
  scenario_context_of (conv_scenario ev) (level_scenarios (user_profile s)) = inr ctx ->
  let score := simulate_pronunciation_score (conv_base_score ev) (user_profile s) in
  create_conversation_practice ev s =
    (Ret tt, set_profile (fun p => add_points (conversation_pronunciation_points score)
                                     (push_score score p)) s).
Proof.
  intros Hb Hin Hctx. unfold create_conversation_practice. rewrite Hb. run_tac. reflexivity.
Qed.

(** The conversation page never lowers the profile's progress. *)
Lemma conversation_progress ev : stays session_progress (create_conversation_practice ev).
Proof. unfold create_conversation_practice. stays_tac. Qed.

(** ** Witnesses on a concrete session *)

(** The spec's priority example: greeting is checked before food. *)
Example classify_hello_food : classify "Hello, food please"%py = Greeting.
Proof. vm_compute. reflexivity. Qed.

(** A keyword is matched as a substring: "this" contains "hi". *)
Example classify_substring : classify "Is this the way?"%py = Greeting.
Proof. vm_compute. reflexivity. Qed.

Lemma send_message_effect_witness :
  exists reply,
    get_ai_response "Hello, food please"%py
      "You're at a coffee shop and want to introduce yourself to someone."%py
      "Spanish"%py = inr reply /\
    create_conversation_practice (demo_event SendMessage) demo_session =
      (Rerun, set_profile (fun p => add_points 10 (incr_conversations p))
                (set_history ([] ++
                   [{| role := RoleUser; content := "Hello, food please"%py |};
                    {| role := RoleAssistant; content := reply |}]) demo_session)).
Proof.
  apply (send_message_effect (demo_event SendMessage) demo_session);
    vm_compute; reflexivity.
Defined.

Lemma send_message_unsupported_language_witness :
  create_conversation_practice (demo_event SendMessage) demo_italian =
    (Raise KeyError, append_message RoleUser "Hello, food please"%py demo_italian).
Proof.
  apply (send_message_unsupported_language (demo_event SendMessage) demo_italian
           "You're at a coffee shop and want to introduce yourself to someone."%py);
    vm_compute; reflexivity.
Defined.

Lemma clear_chat_effect_witness :
  create_conversation_practice (demo_event ClearChat) demo_session =
    (Rerun, set_history [] demo_session).
Proof.
  apply (clear_chat_effect (demo_event ClearChat) demo_session
           "You're at a coffee shop and want to introduce yourself to someone."%py);
    vm_compute; reflexivity.
Defined.

Lemma conversation_pronunciation_effect_witness :
  create_conversation_practice (demo_event PracticePronunciation) demo_session =
    (Ret tt, set_profile (fun p => add_points (conversation_pronunciation_points 83)
                                     (push_score 83 p)) demo_session).
Proof.
  apply (conversation_pronunciation_effect (demo_event PracticePronunciation) demo_session
           "You're at a coffee shop and want to introduce yourself to someone."%py);
    vm_compute; reflexivity.
Defined.
