(* ===== verification/Vocabulary.v ===== *)
(** * Vocabulary: flashcards and the vocabulary quiz

    The page handler [create_vocabulary_lessons] (lines 480-604) in four
    parts, composed in the order of the source: the setup of the page
    (484-511: the language check, the category list without
    ["cultural_tips"], the flashcard position stored under
    [current_{category}_index], the current word), the flashcard column
    [flashcard_column] (522-542: "Previous", "Next", "Mark as Mastered")
    the quiz column [vocab_quiz_column] (544-588: "Start Quiz", the
    question, "Submit Answer", the completed state and "Start New Quiz"),
    and the progress section [vocabulary_progress] (590-604), whose
    [st.progress] raises once more words are mastered than the language
    holds.

    The quiz is the state [Session.current_quiz]; its draw
    [random.sample(words, min(5, len(words)))] is given by the event as a
    list of positions.  The answer is the value of the radio button, one
    of the four placeholder options.  The completed state is not a
    transition but a branch of the page: every run of the page that finds
    the quiz completed executes [lessons_completed += 1] again, as the
    theorems below show.  [vocab_phase] reads the quiz as a phase of the
    machine of [QuizSpec]; [vocab_quiz_refines_spec] shows the quiz column
    implements it. *)

From stdpp Require Import base list gmap strings.
From Stdlib Require Import ZArith Lia.
From S2P Require Import Prelude Catalog Session QuizSpec Progress.

Local Open Scope Z_scope.
Local Open Scope st_scope.

Inductive VocabButton :=
  | PreviousWord | NextWord | MarkMastered | StartQuiz | SubmitAnswer | StartNewQuiz.

#[export] Instance VocabButton_eq_dec : EqDecision VocabButton.
Proof. solve_decision. Defined.

Record VocabEvent := {
  vocab_category : pystr;       (** the category selectbox *)
  vocab_button : option VocabButton;
  vocab_sample : list nat;      (** the positions [random.sample] draws *)
  vocab_answer : pystr }.       (** the radio value *)

(** [if x in l: l.remove(x)]: drops the first occurrence. *)
Fixpoint remove_first (x : pystr) (l : list pystr) : list pystr :=
  match l with
  | [] => []
  | y :: l' => if bool_decide (x = y) then l' else y :: remove_first x l'
  end.

Definition lesson_categories (language_data : pydict pystr (list pystr)) : list pystr :=
  remove_first "cultural_tips"%py (map fst language_data).

(** [random.sample(words, k)] for the drawn positions. *)
Definition sample_words (words : list pystr) (positions : list nat) : list pystr :=
  omap (fun i => words !! i) positions.

Definition valid_sample (words : list pystr) (positions : list nat) : Prop :=
  NoDup positions /\ Forall (fun i => i < length words)%nat positions /\
  length positions = Nat.min 5 (length words).

(** [st.session_state[f"current_{category}_index"] = i] *)
Definition set_index (category : pystr) (i : Z) (s : Session) : Session :=
  set_category_index (<[category := i]> (category_index s)) s.

(** [quiz[...] = ...] on the quiz dict held by the session. *)
Definition modify_quiz (f : VocabQuiz -> VocabQuiz) (s : Session) : Session :=
  set_current_quiz (f <$> current_quiz s) s.

Definition quiz_scored (q : VocabQuiz) : VocabQuiz :=
  {| quiz_words := quiz_words q; current_question := current_question q;
     quiz_score := quiz_score q + 1; answers := answers q |}.

Definition quiz_advanced (q : VocabQuiz) : VocabQuiz :=
  {| quiz_words := quiz_words q; current_question := current_question q + 1;
     quiz_score := quiz_score q; answers := answers q |}.

Definition fresh_quiz (quiz_words : list pystr) : VocabQuiz :=
  {| quiz_words := quiz_words; current_question := 0; quiz_score := 0; answers := [] |}.

(** Lines 522-542. *)
Definition flashcard_column (ev : VocabEvent) (category : pystr) (words : list pystr)
    (current_index : Z) (current_word : pystr) : M Session unit :=
  when (clicked_enabled (vocab_button ev) PreviousWord (current_index =? 0))
    (modify (set_index category (Z.max 0 (current_index - 1))) ;; rerun) ;;
  when (clicked_enabled (vocab_button ev) NextWord (current_index =? py_len words - 1))
    (modify (set_index category (Z.min (py_len words - 1) (current_index + 1))) ;; rerun) ;;
  when (clicked (vocab_button ev) MarkMastered)
    (s <- get ;;
     if negb (py_mem current_word (vocabulary_mastered (user_profile s))) then
       modify (set_profile (push_vocab current_word)) ;;
       modify (set_profile (add_points 20))
     else ret tt).

(** Lines 547-588. *)
Definition vocab_quiz_column (ev : VocabEvent) (words : list pystr) : M Session unit :=
  when (clicked (vocab_button ev) StartQuiz)
    (modify (set_current_quiz (Some (fresh_quiz (sample_words words (vocab_sample ev)))))) ;;
  s <- get ;;
  match current_quiz s with
  | None => ret tt
  | Some quiz =>
    if current_question quiz <? py_len (quiz_words quiz) then
      _ <- lift (py_getitem (quiz_words quiz) (current_question quiz)) ;;
      when (clicked (vocab_button ev) SubmitAnswer)
        (let is_correct := bool_decide (vocab_answer ev = "Correct Answer"%py) in
         (if is_correct then modify (modify_quiz quiz_scored) else ret tt) ;;
         modify (modify_quiz quiz_advanced) ;;
         modify (set_profile (add_points (if is_correct then 5 else 2))) ;;
         rerun)
    else
      modify (set_profile incr_lessons) ;;
      when (clicked (vocab_button ev) StartNewQuiz)
        (modify (set_current_quiz None) ;; rerun)
  end.

(** [sum(len(words) for words in language_data.values() if
    isinstance(words, list))], the denominator of "Words mastered" (593). *)
Definition total_words (language_data : pydict pystr (list pystr)) : Z :=
  fold_right Z.add 0 (map (fun cw => py_len (snd cw)) language_data).

(** The progress section, lines 590-604.  [st.progress] accepts a float
    only in [[0.0, 1.0]] and raises [StreamlitAPIException] otherwise;
    [mastered_count / total_words] is above [1.0] exactly when more words
    are mastered than the language holds.  The rest only displays. *)
Definition vocabulary_progress (language_data : pydict pystr (list pystr)) : M Session unit :=
  s <- get ;;
  let mastered_count := py_len (vocabulary_mastered (user_profile s)) in
  let total_words := total_words language_data in
  if (0 <? total_words) && (total_words <? mastered_count) then raise StreamlitAPIException
  else ret tt.

(** The whole handler, lines 484-604. *)
Definition create_vocabulary_lessons (ev : VocabEvent) : M Session unit :=
  s <- get ;;
  let target_language := target_language (user_profile s) in
  if negb (dict_mem target_language LANGUAGES) then ret tt
  else
  language_data <- lift (dict_getitem target_language LANGUAGES) ;;
  let selected_category := vocab_category ev in
  words <- lift (dict_getitem selected_category language_data) ;;
  s <- get ;;
  (if bool_decide (category_index s !! selected_category = None)
   then modify (set_index selected_category 0) else ret tt) ;;
  s <- get ;;
  current_index <- lift (match category_index s !! selected_category with
                         | Some i => inr i | None => inl KeyError end) ;;
  current_word <- lift (py_getitem words current_index) ;;
  flashcard_column ev selected_category words current_index current_word ;;
  vocab_quiz_column ev words ;;
  vocabulary_progress language_data.

(** The data a run of the page reads before its two columns: the
    language's categories, the selected category's words, the stored
    position and the word at that position. *)
Definition page_reads (ev : VocabEvent) (s : Session) (words : list pystr) (i : Z) (w : pystr) : Prop :=
  exists data,
    dict_getitem (target_language (user_profile s)) LANGUAGES = inr data /\
    dict_getitem (vocab_category ev) data = inr words /\
    category_index s !! vocab_category ev = Some i /\
    py_getitem words i = inr w.

(** The [language_data] a run of the page reads. *)
Definition page_language_data (s : Session) : pydict pystr (list pystr) :=
  dict_get (target_language (user_profile s)) LANGUAGES [].

(** A quiz dict is well formed when [0 <= score <= current_question <=
    len(words)]. *)
Definition quiz_wf (q : VocabQuiz) : Prop :=
  0 <= quiz_score q <= current_question q /\ current_question q <= py_len (quiz_words q).

Definition session_quiz_wf (s : Session) : Prop :=
  match current_quiz s with Some q => quiz_wf q | None => True end.

(** The phase of the quiz in the sense of [QuizSpec]: no quiz dict, a
    question left, or every question answered. *)
Definition vocab_phase (s : Session) : QuizPhase :=
  match current_quiz s with
  | None => NotStarted
  | Some q =>
      if current_question q <? py_len (quiz_words q)
      then InProgress (current_question q) (quiz_score q) else Completed (quiz_score q)
  end.

Definition vocab_size (s : Session) : Z :=
  match current_quiz s with Some q => py_len (quiz_words q) | None => 0 end.

Definition vocab_model : QuizModel := {| qm_phase := vocab_phase; qm_size := vocab_size |}.

(** ** Concrete sessions and events of the examples and witnesses *)

Definition vocab_event (c : pystr) (b : option VocabButton) : VocabEvent := {|
  vocab_category := c; vocab_button := b; vocab_sample := [0; 2; 1; 3]%nat;
  vocab_answer := "Correct Answer"%py |}.

Definition run_vocab (evs : list VocabEvent) (s : Session) : Session :=
  fold_left (fun s ev => final (create_vocabulary_lessons ev) s) evs s.

Definition spanish_questions_at_3 : Session :=
  run_vocab [vocab_event "questions" None;
             vocab_event "questions" (Some NextWord); vocab_event "questions" None;
             vocab_event "questions" (Some NextWord); vocab_event "questions" None;
             vocab_event "questions" (Some NextWord); vocab_event "questions" None]%py
    demo_session.

Definition switched_to_french : Session :=
  set_profile (update_form ""%py "English"%py "French"%py "Beginner"%py 20 [])
    spanish_questions_at_3.

Definition quiz_trace : list VocabEvent :=
  let q := vocab_event "questions"%py in
  [q None; q (Some StartQuiz)] ++ concat (repeat [q (Some SubmitAnswer); q None] 4) ++
  [q None; q None].

(** A session whose one-question quiz is completed, on the Spanish
    greetings at position 0. *)
Definition completed_demo : Session :=
  set_current_quiz (Some {| quiz_words := ["Hola"%py]; current_question := 1;
                            quiz_score := 1; answers := [] |})
    (set_index "greetings"%py 0 demo_session).

Definition in_progress_demo : Session :=
  set_current_quiz (Some {| quiz_words := ["Hola"; "Salut"]%py; current_question := 1;
                            quiz_score := 1; answers := [] |}) demo_session.

(** ** Lemmas *)

Lemma flashcard_column_quiet ev c words i w :
  vocab_button ev = None -> forall s, flashcard_column ev c words i w s = (Ret tt, s).
Proof. intros Hb s. unfold flashcard_column. rewrite Hb. run_tac. reflexivity. Qed.

(** The data a run of the page reads before its columns. *)

Lemma create_vocabulary_lessons_columns ev s words i w :
  page_reads ev s words i w ->
  create_vocabulary_lessons ev s =
  bind (flashcard_column ev (vocab_category ev) words i w)
    (fun _ => bind (vocab_quiz_column ev words)
                (fun _ => vocabulary_progress (page_language_data s))) s.
Proof.
  intros (data & Hd & Hw & Hi & Hg). unfold create_vocabulary_lessons.
  cbn [bind get]. rewrite (dict_mem_getitem _ _ _ Hd). cbn [negb].
  assert (Hdata : page_language_data s = data).
  { unfold page_language_data, dict_get. unfold dict_getitem in Hd.
    destruct (dict_lookup _ _); congruence. }
  rewrite Hdata. run_tac. rewrite bool_decide_eq_false_2 by congruence. run_tac. reflexivity.
Qed.

(** The progress section writes nothing and never reruns. *)
Lemma vocabulary_progress_state d s :
  exists o, vocabulary_progress d s = (o, s) /\ o <> Rerun.
Proof. unfold vocabulary_progress. cbn. destruct (_ && _); eexists; split; done. Qed.

Lemma vocabulary_progress_final d s : final (vocabulary_progress d) s = s.
Proof. unfold final. by destruct (vocabulary_progress_state d s) as (o & -> & _). Qed.

Lemma never_reruns_vocabulary_progress d : never_reruns (vocabulary_progress d).
Proof. intros s. unfold vocabulary_progress. cbn. by destruct (_ && _). Qed.

Lemma stays_vocabulary_progress (R : relation Session) `{!Reflexive R} d :
  stays R (vocabulary_progress d).
Proof. intros s. rewrite vocabulary_progress_final. reflexivity. Qed.

#[export] Hint Resolve never_reruns_vocabulary_progress : pyapp.
#[export] Hint Extern 2 (stays _ (vocabulary_progress _)) =>
  (apply stays_vocabulary_progress; typeclasses eauto) : pyapp.

(** A run of the page whose two columns return: the progress section
    decides its outcome and writes nothing. *)
Lemma vocab_page_ret ev s words i w s1 s2 :
  page_reads ev s words i w ->
  flashcard_column ev (vocab_category ev) words i w s = (Ret tt, s1) ->
  vocab_quiz_column ev words s1 = (Ret tt, s2) ->
  create_vocabulary_lessons ev s = vocabulary_progress (page_language_data s) s2.
Proof.
  intros Hr Hf Hq. rewrite (create_vocabulary_lessons_columns _ _ _ _ _ Hr).
  rewrite (bind_ret_run _ _ _ _ _ Hf). exact (bind_ret_run _ _ _ _ _ Hq).
Qed.

Lemma vocab_page_quiz_rerun ev s words i w s1 s2 :
  page_reads ev s words i w ->
  flashcard_column ev (vocab_category ev) words i w s = (Ret tt, s1) ->
  vocab_quiz_column ev words s1 = (Rerun, s2) ->
  create_vocabulary_lessons ev s = (Rerun, s2).
Proof.
  intros Hr Hf Hq. rewrite (create_vocabulary_lessons_columns _ _ _ _ _ Hr).
  rewrite (bind_ret_run _ _ _ _ _ Hf). unfold bind. by rewrite Hq.
Qed.

Lemma vocab_page_flashcard_rerun ev s words i w s1 :
  page_reads ev s words i w ->
  flashcard_column ev (vocab_category ev) words i w s = (Rerun, s1) ->
  create_vocabulary_lessons ev s = (Rerun, s1).
Proof.
  intros Hr Hf. rewrite (create_vocabulary_lessons_columns _ _ _ _ _ Hr). unfold bind. by rewrite Hf.
Qed.

Lemma completed_quiz_counts_each_run (ev : VocabEvent) (words : list pystr) (s : Session)
    (q : VocabQuiz) :
  vocab_button ev = None ->
  current_quiz s = Some q -> py_len (quiz_words q) <= current_question q ->
  vocab_quiz_column ev words s = (Ret tt, set_profile incr_lessons s).
Proof.
  intros Hb Hq Hlen. unfold vocab_quiz_column. rewrite Hb. run_tac.
  destruct (Z.ltb_spec (current_question q) (py_len (quiz_words q))); [lia|].
  run_tac. reflexivity.
Qed.

Lemma fresh_quiz_wf l : quiz_wf (fresh_quiz l).
Proof. unfold quiz_wf; simpl. pose proof (py_len_nonneg l). lia. Qed.

Lemma mark_mastered_effect (ev : VocabEvent) c words i w (s : Session) :
  vocab_button ev = Some MarkMastered ->
  flashcard_column ev c words i w s =
    (Ret tt, if py_mem w (vocabulary_mastered (user_profile s)) then s
             else set_profile (fun p => add_points 20 (push_vocab w p)) s).
Proof.
  intros Hb. unfold flashcard_column, clicked_enabled. rewrite Hb. run_tac.
  destruct (py_mem w _); reflexivity.
Qed.

Lemma flashcard_column_cases ev c words i w s :
  final (flashcard_column ev c words i w) s = s \/
  (exists j, final (flashcard_column ev c words i w) s = set_index c j s /\
             (j = Z.max 0 (i - 1) \/ j = Z.min (py_len words - 1) (i + 1))) \/
  (vocab_button ev = Some MarkMastered /\
   final (flashcard_column ev c words i w) s =
     if py_mem w (vocabulary_mastered (user_profile s)) then s
     else set_profile (fun p => add_points 20 (push_vocab w p)) s).
Proof.
  destruct (vocab_button ev) as [b|] eqn:Hb.
  2: { left. unfold final, flashcard_column. rewrite Hb. run_tac. reflexivity. }
  destruct b;
    try (right; right; split; [done|]; unfold final; by rewrite (mark_mastered_effect ev c words i w s Hb));
    unfold final, flashcard_column, clicked_enabled; rewrite Hb; run_tac;
    try (left; reflexivity);
    (first [destruct (_ =? _) | destruct (_ <=? _)]; cbn;
     [left; reflexivity| right; left; eexists; split; [reflexivity|auto]]).
Qed.

Lemma flashcard_column_vocab_nodup ev c words i w (s : Session) :
  NoDup (vocabulary_mastered (user_profile s)) ->
  NoDup (vocabulary_mastered (user_profile (final (flashcard_column ev c words i w) s))).
Proof.
  intros H. destruct (flashcard_column_cases ev c words i w s) as [->|[(j & -> & _)|(_ & ->)]];
    [done|done|].
  destruct (py_mem w _) eqn:Hm; [done|]. simpl.
  apply NoDup_app. split; [done|]. split; [|apply NoDup_singleton].
  intros x Hx ->%list_elem_of_singleton.
  apply not_true_iff_false in Hm. apply Hm, py_mem_spec, Hx.
Qed.

Lemma flashcard_index_in_range ev c words i w (s : Session) (j : Z) :
  0 <= i < py_len words ->
  category_index (final (flashcard_column ev c words i w) s) !! c = Some j ->
  category_index s !! c = Some j \/ 0 <= j < py_len words.
Proof.
  intros Hi Hj. destruct (flashcard_column_cases ev c words i w s) as [E|[(k & E & Hk)|(_ & E)]];
    rewrite E in Hj.
  - by left.
  - right. unfold set_index in Hj. simpl in Hj. rewrite lookup_insert_eq in Hj.
    injection Hj as <-. lia.
  - left. by destruct (py_mem w _).
Qed.

Lemma vocab_phase_some s q :
  current_quiz s = Some q ->
  vocab_phase s = if current_question q <? py_len (quiz_words q)
                  then InProgress (current_question q) (quiz_score q) else Completed (quiz_score q).
Proof. unfold vocab_phase. by intros ->. Qed.

(** The quiz column keeps [session_quiz_wf]. *)
Lemma vocab_quiz_column_keeps_wf (ev : VocabEvent) (words : list pystr) (s : Session) :
  session_quiz_wf s -> session_quiz_wf (final (vocab_quiz_column ev words) s).
Proof.
  intros H. unfold final, vocab_quiz_column.
  assert (H1 : session_quiz_wf (final (when (clicked (vocab_button ev) StartQuiz)
      (modify (set_current_quiz (Some (fresh_quiz (sample_words words (vocab_sample ev))))))) s)).
  { destruct (clicked (vocab_button ev) StartQuiz); [apply fresh_quiz_wf | exact H]. }
  unfold bind at 1. destruct (when _ _ s) as [o s1] eqn:E1.
  assert (Ho : o = Ret tt).
  { destruct (clicked (vocab_button ev) StartQuiz); cbv [when modify ret] in E1; congruence. }
  subst o. unfold final in H1. rewrite E1 in H1. simpl in H1. clear E1 H s.
  run_tac. unfold session_quiz_wf in *.
  destruct (current_quiz s1) as [q|] eqn:Eq; [|run_tac; rewrite ?Eq; done].
  destruct (Z.ltb_spec (current_question q) (py_len (quiz_words q))) as [Hlt|Hge].
  - destruct (py_getitem_in_range (quiz_words q) (current_question q)) as (w & Hw & _);
      [unfold quiz_wf in H1; lia|].
    run_tac. destruct (clicked _ SubmitAnswer); [|run_tac; rewrite ?Eq; done].
    destruct (bool_decide _); run_tac; unfold modify_quiz; cbn; rewrite Eq; cbn;
      unfold quiz_wf in *; cbn; lia.
  - run_tac. destruct (clicked _ StartNewQuiz); run_tac. all: cbn; rewrite ?Eq; try done.
Qed.

(** A submitted answer on a question in range. *)
Lemma quiz_submit_run (ev : VocabEvent) (words : list pystr) (s : Session) (q : VocabQuiz) :
  vocab_button ev = Some SubmitAnswer ->
  current_quiz s = Some q ->
  0 <= current_question q < py_len (quiz_words q) ->
  let ok := bool_decide (vocab_answer ev = "Correct Answer"%py) in
  vocab_quiz_column ev words s =
    (Rerun, set_profile (add_points (if ok then 5 else 2))
       (set_current_quiz (Some {| quiz_words := quiz_words q;
                                  current_question := current_question q + 1;
                                  quiz_score := quiz_score q + (if ok then 1 else 0);
                                  answers := answers q |}) s)).
Proof.
  intros Hb Hq Hlen ok. unfold vocab_quiz_column. rewrite Hb. run_tac.
  destruct (Z.ltb_spec (current_question q) (py_len (quiz_words q))); [|lia].
  destruct (py_getitem_in_range (quiz_words q) (current_question q) Hlen) as (w & Hw & _).
  run_tac. subst ok. destruct (bool_decide _); run_tac; unfold modify_quiz; cbn; rewrite ?Hq; cbn;
  [reflexivity|]. rewrite Z.add_0_r. reflexivity.
Qed.

(** The flashcard buttons do nothing on a run started by a quiz button. *)
Lemma flashcard_column_submit ev c words i w s :
  vocab_button ev = Some SubmitAnswer -> flashcard_column ev c words i w s = (Ret tt, s).
Proof. intros Hb. unfold flashcard_column, clicked_enabled. rewrite Hb. run_tac. reflexivity. Qed.

(** A run with no click on a question in range changes nothing. *)
Lemma quiz_in_progress_quiet ev words s q :
  vocab_button ev = None -> current_quiz s = Some q ->
  0 <= current_question q < py_len (quiz_words q) ->
  vocab_quiz_column ev words s = (Ret tt, s).
Proof.
  intros Hb Hq Hlen. unfold vocab_quiz_column. rewrite Hb. run_tac.
  destruct (Z.ltb_spec (current_question q) (py_len (quiz_words q))); [|lia].
  destruct (py_getitem_in_range (quiz_words q) (current_question q) Hlen) as (w & Hw & _).
  run_tac. reflexivity.
Qed.

(** The two navigation buttons. *)
Lemma flashcard_navigation_run (ev : VocabEvent) c words i w (s : Session) :
  (vocab_button ev = Some PreviousWord ->
   flashcard_column ev c words i w s =
     if i =? 0 then (Ret tt, s) else (Rerun, set_index c (Z.max 0 (i - 1)) s)) /\
  (vocab_button ev = Some NextWord ->
   flashcard_column ev c words i w s =
     if i =? py_len words - 1 then (Ret tt, s)
     else (Rerun, set_index c (Z.min (py_len words - 1) (i + 1)) s)).
Proof.
  split; intros Hb; unfold flashcard_column, clicked_enabled; rewrite Hb; run_tac;
    destruct (_ =? _); reflexivity.
Qed.

(** Moving the position away and back restores the session. *)
Lemma set_index_restore c i j s :
  category_index s !! c = Some i -> set_index c i (set_index c j s) = s.
Proof.
  intros Hi. unfold set_index, set_category_index. cbn.
  rewrite insert_insert_eq, insert_id by exact Hi. by destruct s.
Qed.

Lemma page_reads_set_index v s words i w j w' :
  page_reads v s words i w -> py_getitem words j = inr w' ->
  page_reads v (set_index (vocab_category v) j s) words j w'.
Proof.
  intros (data & Hd & Hw & _ & _) Hj. exists data. split_and!; try done.
  cbn. apply lookup_insert_eq.
Qed.

(** With no quiz dict and no click, the quiz column shows its button only. *)
Lemma vocab_quiz_column_no_quiz ev words s :
  vocab_button ev = None -> current_quiz s = None -> vocab_quiz_column ev words s = (Ret tt, s).
Proof. intros Hb Hq. unfold vocab_quiz_column. rewrite Hb. run_tac. reflexivity. Qed.

(** ** Theorems *)

(** C4: a run of the vocabulary page with no button clicked, on a
    quiz that is already completed, executes [lessons_completed += 1]:
    [n] such runs, each of them any later rerun of the page, add [n]
    lessons for one completed quiz.  The spec counts one lesson per
    completion. *)
Theorem completed_quiz_page_counts_each_run (ev : VocabEvent) (s : Session)
    (q : VocabQuiz) words i w (n : nat) :
  vocab_button ev = None -> page_reads ev s words i w ->
  current_quiz s = Some q -> py_len (quiz_words q) <= current_question q ->
  lessons_completed (user_profile (Nat.iter n (final (create_vocabulary_lessons ev)) s)) =
  lessons_completed (user_profile s) + Z.of_nat n.
Proof.
  intros Hb Hr Hq Hlen. induction n as [|n IH]; [simpl; lia|].
  assert (Hstep : forall s', page_reads ev s' words i w -> current_quiz s' = Some q ->
     final (create_vocabulary_lessons ev) s' = set_profile incr_lessons s').
  { intros s' Hr' Hq'. unfold final.
    rewrite (vocab_page_ret ev s' words i w s' _ Hr' (flashcard_column_quiet ev _ _ _ _ Hb s')
               (completed_quiz_counts_each_run ev words s' q Hb Hq' Hlen)).
    apply vocabulary_progress_final. }
  assert (Hinv : forall m, page_reads ev (Nat.iter m (final (create_vocabulary_lessons ev)) s) words i w /\
                  current_quiz (Nat.iter m (final (create_vocabulary_lessons ev)) s) = Some q).
  { induction m as [|m [IHr IHq]]; [done|]. simpl. rewrite Hstep by done. done. }
  simpl. destruct (Hinv n) as [Hr' Hq']. rewrite Hstep by done. simpl. rewrite IH. lia.
Qed.

(** C7: "Submit Answer" on a question in range advances
    [current_question] by one, adds one to the score exactly when the
    answer is "Correct Answer", awards 5 points for a right answer and 2
    for a wrong one, and reruns the script. *)
Theorem quiz_submit_effect (ev : VocabEvent) (words : list pystr) (s : Session) (q : VocabQuiz) :
  vocab_button ev = Some SubmitAnswer ->
  current_quiz s = Some q ->
  0 <= current_question q < py_len (quiz_words q) ->
  let ok := bool_decide (vocab_answer ev = "Correct Answer"%py) in
  vocab_quiz_column ev words s =
    (Rerun, set_profile (add_points (if ok then 5 else 2))
       (set_current_quiz (Some {| quiz_words := quiz_words q;
                                  current_question := current_question q + 1;
                                  quiz_score := quiz_score q + (if ok then 1 else 0);
                                  answers := answers q |}) s)).
Proof. exact (quiz_submit_run ev words s q). Qed.

(** "Start Quiz" with a non-empty draw replaces the quiz by a
    fresh one on the drawn words, at question 0 with score 0, whatever the
    quiz was before; the run then shows the first question. *)
Theorem quiz_start_effect (ev : VocabEvent) (words : list pystr) (s : Session) :
  vocab_button ev = Some StartQuiz ->
  sample_words words (vocab_sample ev) <> [] ->
  vocab_quiz_column ev words s =
    (Ret tt, set_current_quiz (Some (fresh_quiz (sample_words words (vocab_sample ev)))) s).
Proof.
  intros Hb Hne. unfold vocab_quiz_column. rewrite Hb. run_tac.
  destruct (sample_words words (vocab_sample ev)) as [|w l] eqn:E; [done|].
  cbn. reflexivity.
Qed.

(** C27: every run of the quiz column keeps the quiz well formed:
    [0 <= score <= current_question <= len(words)]. *)
Theorem vocab_quiz_column_wf (ev : VocabEvent) (words : list pystr) (s : Session) :
  session_quiz_wf s -> session_quiz_wf (final (vocab_quiz_column ev words) s).
Proof. exact (vocab_quiz_column_keeps_wf ev words s). Qed.

(** C33: "Mark as Mastered" is idempotent: clicking it twice on a
    word not yet mastered appends the word once and awards the 20 points
    once. *)
Theorem mark_mastered_twice (ev : VocabEvent) c words i w (s : Session) :
  vocab_button ev = Some MarkMastered ->
  w ∉ vocabulary_mastered (user_profile s) ->
  final (flashcard_column ev c words i w) (final (flashcard_column ev c words i w) s) =
  set_profile (fun p => add_points 20 (push_vocab w p)) s.
Proof.
  intros Hb Hw. unfold final. rewrite !(mark_mastered_effect ev c words i w _ Hb). simpl.
  assert (Hf : py_mem w (vocabulary_mastered (user_profile s)) = false)
    by (apply not_true_iff_false; rewrite py_mem_spec; exact Hw).
  rewrite Hf. simpl.
  assert (Ht : py_mem w (vocabulary_mastered (user_profile s) ++ [w]) = true)
    by (apply py_mem_spec; set_solver).
  by rewrite Ht.
Qed.

(** The navigation buttons: "Previous" and "Next" move the stored
    position by one, clamped to the category, and rerun; each is disabled
    (and a click does nothing) on the first and on the last word. *)
Theorem flashcard_navigation_effect (ev : VocabEvent) c words i w (s : Session) :
  (vocab_button ev = Some PreviousWord ->
   flashcard_column ev c words i w s =
     if i =? 0 then (Ret tt, s) else (Rerun, set_index c (Z.max 0 (i - 1)) s)) /\
  (vocab_button ev = Some NextWord ->
   flashcard_column ev c words i w s =
     if i =? py_len words - 1 then (Ret tt, s)
     else (Rerun, set_index c (Z.min (py_len words - 1) (i + 1)) s)).
Proof. exact (flashcard_navigation_run ev c words i w s). Qed.

(** "Start New Quiz" on a completed quiz first counts the lesson of the
    completed branch, then deletes the quiz and reruns. *)
Theorem start_new_quiz_effect (ev : VocabEvent) (words : list pystr) (s : Session) (q : VocabQuiz) :
  vocab_button ev = Some StartNewQuiz ->
  current_quiz s = Some q -> py_len (quiz_words q) <= current_question q ->
  vocab_quiz_column ev words s = (Rerun, set_current_quiz None (set_profile incr_lessons s)).
Proof.
  intros Hb Hq Hlen. unfold vocab_quiz_column. rewrite Hb. run_tac.
  destruct (Z.ltb_spec (current_question q) (py_len (quiz_words q))); [lia|].
  run_tac. reflexivity.
Qed.

(** C9: the quiz column implements the quiz machine of the design:
    "Submit Answer" is [submit] with the answer compared to "Correct
    Answer", "Start New Quiz" is [restart], "Start Quiz" on a non-empty
    draw is [start], and a run without a click keeps the phase. *)
Theorem vocab_quiz_refines_spec (ev : VocabEvent) (words : list pystr) :
  (vocab_button ev = Some SubmitAnswer ->
   refines vocab_model session_quiz_wf (vocab_quiz_column ev words)
     (fun s => spec_submit (vocab_size s) (bool_decide (vocab_answer ev = "Correct Answer"%py)))) /\
  (vocab_button ev = Some StartNewQuiz ->
   refines vocab_model session_quiz_wf (vocab_quiz_column ev words) (fun _ => spec_restart)) /\
  (vocab_button ev = Some StartQuiz -> sample_words words (vocab_sample ev) <> [] ->
   refines vocab_model (fun _ => True) (vocab_quiz_column ev words)
     (fun _ => spec_start (py_len (sample_words words (vocab_sample ev))))) /\
  (vocab_button ev = None ->
   refines vocab_model (fun _ => True) (vocab_quiz_column ev words) (fun _ ph => ph)).
Proof.
  split_and!; intros Hb; [| |intros Hne|]; intros s Hwf;
    unfold refines, vocab_model, final, vocab_quiz_column, vocab_size in *; cbn [qm_phase];
    rewrite Hb; run_tac.
  3: { unfold spec_start. destruct (sample_words words (vocab_sample ev)) as [|w l]; [done|].
       reflexivity. }
  all: unfold session_quiz_wf, quiz_wf in *.
  all: destruct (current_quiz s) as [q|] eqn:Eq; run_tac; [|unfold vocab_phase; by rewrite Eq].
  all: rewrite (vocab_phase_some s q Eq).
  all: destruct (Z.ltb_spec (current_question q) (py_len (quiz_words q))); run_tac;
    [destruct (py_getitem (quiz_words q) (current_question q)) as [e|w] eqn:Eg; run_tac|].
  all: try (exfalso; destruct (py_getitem_in_range (quiz_words q) (current_question q))
              as (w' & Hw' & _); [lia|congruence]).
  all: try destruct (bool_decide _); cbn.
  all: unfold vocab_phase, modify_quiz, spec_submit, spec_restart; cbn; rewrite ?Eq; cbn.
  all: repeat match goal with |- context [?a <? ?b] => destruct (Z.ltb_spec a b) end;
    try lia; rewrite ?Z.add_0_r; reflexivity.
Qed.

(** ** Concrete runs *)

(** Four runs on the Spanish "questions": open the page, then "Next"
    three times (each followed by its quiet rerun). *)

(** C22: the flashcard position is stored per category name, not per
    language: after "Next" three times on the Spanish "questions" (four
    entries) and a switch of the target language to French (three
    entries), the vocabulary page raises [IndexError] at [words[current_index]]. *)
Theorem flashcard_index_error :
  category_index spanish_questions_at_3 !! "questions"%py = Some 3 /\
  create_vocabulary_lessons (vocab_event "questions" None)%py switched_to_french =
    (Raise IndexError, switched_to_french).
Proof. vm_compute. split; reflexivity. Qed.

(** One quiz of four questions, answered and followed by two more runs
    of the page, counts three lessons. *)
Example one_quiz_three_lessons :
  lessons_completed (user_profile (run_vocab quiz_trace demo_session)) = 3 /\
  total_points (user_profile (run_vocab quiz_trace demo_session)) = 20.
Proof. vm_compute. split; reflexivity. Qed.

(** ** Witnesses *)

Lemma completed_quiz_page_counts_each_run_witness :
  lessons_completed (user_profile
    (Nat.iter 3 (final (create_vocabulary_lessons (vocab_event "greetings"%py None)))
       completed_demo)) = 0 + Z.of_nat 3.
Proof.
  apply (completed_quiz_page_counts_each_run (vocab_event "greetings"%py None) completed_demo
           {| quiz_words := ["Hola"%py]; current_question := 1; quiz_score := 1; answers := [] |}
           (dict_get "greetings"%py (dict_get "Spanish"%py LANGUAGES []) []) 0 "Hola"%py 3);
    [reflexivity | | reflexivity | vm_compute; discriminate].
  exists (dict_get "Spanish"%py LANGUAGES []). vm_compute. repeat split.
Defined.

Lemma quiz_submit_effect_witness :
  vocab_quiz_column (vocab_event "greetings"%py (Some SubmitAnswer)) [] in_progress_demo =
    (Rerun, set_profile (add_points 5)
       (set_current_quiz (Some {| quiz_words := ["Hola"; "Salut"]%py; current_question := 2;
                                  quiz_score := 2; answers := [] |}) in_progress_demo)).
Proof.
  apply (quiz_submit_effect (vocab_event "greetings"%py (Some SubmitAnswer)) [] in_progress_demo
           {| quiz_words := ["Hola"; "Salut"]%py; current_question := 1;
              quiz_score := 1; answers := [] |});
    [reflexivity | reflexivity | unfold py_len; simpl; lia].
Defined.

Lemma quiz_start_effect_witness :
  vocab_quiz_column (vocab_event "greetings"%py (Some StartQuiz))
    ["Hola"; "Buenos días"; "Buenas tardes"; "Buenas noches"]%py demo_session =
    (Ret tt, set_current_quiz (Some (fresh_quiz
       ["Hola"; "Buenas tardes"; "Buenos días"; "Buenas noches"]%py)) demo_session).
Proof.
  apply (quiz_start_effect (vocab_event "greetings"%py (Some StartQuiz))
           ["Hola"; "Buenos días"; "Buenas tardes"; "Buenas noches"]%py demo_session);
    [reflexivity | vm_compute; discriminate].
Defined.

Lemma vocab_quiz_column_wf_witness :
  session_quiz_wf (final (vocab_quiz_column (vocab_event "greetings"%py (Some SubmitAnswer)) [])
                     in_progress_demo).
Proof.
  apply vocab_quiz_column_wf. unfold session_quiz_wf, quiz_wf, py_len. simpl. lia.
Defined.

Lemma mark_mastered_twice_witness :
  final (flashcard_column (vocab_event "greetings"%py (Some MarkMastered))
           "greetings"%py [] 0 "Hola"%py)
    (final (flashcard_column (vocab_event "greetings"%py (Some MarkMastered))
              "greetings"%py [] 0 "Hola"%py) demo_session) =
  set_profile (fun p => add_points 20 (push_vocab "Hola"%py p)) demo_session.
Proof.
  apply (mark_mastered_twice (vocab_event "greetings"%py (Some MarkMastered))
           "greetings"%py [] 0 "Hola"%py demo_session);
    [reflexivity | vm_compute; apply not_elem_of_nil].
Defined.

Lemma flashcard_navigation_effect_witness :
  flashcard_column (vocab_event "greetings"%py (Some NextWord)) "greetings"%py
    ["Hola"; "Adiós"]%py 0 "Hola"%py demo_session =
  (Rerun, set_index "greetings"%py 1 demo_session).
Proof.
  rewrite (proj2 (flashcard_navigation_effect (vocab_event "greetings"%py (Some NextWord))
                    "greetings"%py ["Hola"; "Adiós"]%py 0 "Hola"%py demo_session) eq_refl).
  reflexivity.
Defined.

Lemma start_new_quiz_effect_witness :
  vocab_quiz_column (vocab_event "greetings"%py (Some StartNewQuiz)) [] completed_demo =
  (Rerun, set_current_quiz None (set_profile incr_lessons completed_demo)).
Proof.
  apply (start_new_quiz_effect (vocab_event "greetings"%py (Some StartNewQuiz)) [] completed_demo
           {| quiz_words := ["Hola"%py]; current_question := 1; quiz_score := 1; answers := [] |});
    [reflexivity | reflexivity | vm_compute; discriminate].
Defined.

Lemma vocab_quiz_refines_spec_witness :
  vocab_phase (final (vocab_quiz_column (vocab_event "greetings"%py (Some SubmitAnswer)) [])
                 in_progress_demo) =
  spec_submit 2 true (InProgress 1 1).
Proof.
  assert (Hwf : session_quiz_wf in_progress_demo)
    by (unfold session_quiz_wf, quiz_wf, py_len; simpl; lia).
  exact (proj1 (vocab_quiz_refines_spec (vocab_event "greetings"%py (Some SubmitAnswer)) [])
           eq_refl in_progress_demo Hwf).
Defined.
