(* ===== verification/CulturalQuiz.v ===== *)
(** * CulturalQuiz: the cultural insights page and its quiz

    The page handler [create_cultural_insights] (lines 814-928).  The tips
    are only displayed; the state is the three keys
    [cultural_quiz_started], [cultural_quiz_score] and
    [cultural_quiz_question] ([Session.cultural_quiz]), created together on
    the first run of the page (888-891).  The quiz is a three-state
    machine: not started; started with a question left ("Submit Answer",
    908-919); started with every question answered ("Restart Quiz",
    926-928).  "Start Cultural Quiz" (894-898) resets the score and the
    question; "Restart Quiz" only clears the started flag, so the old score
    and position stay in the session until the next start.

    The answer is the radio value; its position is found with
    [list.index] (909) and compared with the question's [correct].
    [cq_phase] reads the three keys as a phase of the machine of
    [QuizSpec]; [cultural_quiz_refines_spec] shows the page implements it. *)

From stdpp Require Import base list gmap strings.
From Stdlib Require Import ZArith Lia.
From S2P Require Import Prelude Catalog Session QuizSpec Progress.

Local Open Scope Z_scope.
Local Open Scope st_scope.

Inductive CultButton := StartCulturalQuiz | SubmitCultural | RestartCulturalQuiz.

#[export] Instance CultButton_eq_dec : EqDecision CultButton.
Proof. solve_decision. Defined.

Record CultEvent := {
  cult_answer : pystr;          (** the radio value *)
  cult_button : option CultButton }.

Definition cq_state (started : bool) (score question : Z) : CulturalQuizState :=
  {| cultural_quiz_started := started; cultural_quiz_score := score;
     cultural_quiz_question := question |}.

(** [st.session_state.cultural_quiz_* = ...] on the stored keys. *)
Definition modify_cq (f : CulturalQuizState -> CulturalQuizState) (s : Session) : Session :=
  set_cultural_quiz (f <$> cultural_quiz s) s.

Definition cq_scored (c : CulturalQuizState) : CulturalQuizState :=
  cq_state (cultural_quiz_started c) (cultural_quiz_score c + 1) (cultural_quiz_question c).

Definition cq_advanced (c : CulturalQuizState) : CulturalQuizState :=
  cq_state (cultural_quiz_started c) (cultural_quiz_score c) (cultural_quiz_question c + 1).

Definition cq_stopped (c : CulturalQuizState) : CulturalQuizState :=
  cq_state false (cultural_quiz_score c) (cultural_quiz_question c).

(** Lines 888-891: the keys are created on the first run of the page. *)
Definition init_cultural_quiz : M Session unit :=
  s <- get ;;
  match cultural_quiz s with
  | None => modify (set_cultural_quiz (Some (cq_state false 0 0)))
  | Some _ => ret tt
  end.

(** Lines 893-928, for the question list of the target language. *)
Definition cultural_quiz_body (ev : CultEvent) (questions : list CulturalQuestion) :
    M Session unit :=
  s <- get ;;
  st <- lift (match cultural_quiz s with Some c => inr c | None => inl KeyError end) ;;
  if negb (cultural_quiz_started st) then
    when (clicked (cult_button ev) StartCulturalQuiz)
      (modify (set_cultural_quiz (Some (cq_state true 0 0))) ;; rerun)
  else if cultural_quiz_question st <? py_len questions then
    current_q <- lift (py_getitem questions (cultural_quiz_question st)) ;;
    when (clicked (cult_button ev) SubmitCultural)
      (i <- lift (py_index (cult_answer ev) (options current_q)) ;;
       (if i =? correct current_q then
          modify (modify_cq cq_scored) ;; modify (set_profile (add_points 15))
        else modify (set_profile (add_points 5))) ;;
       modify (modify_cq cq_advanced) ;;
       rerun)
  else
    when (clicked (cult_button ev) RestartCulturalQuiz)
      (modify (modify_cq cq_stopped) ;; rerun).

Definition cultural_quiz_step (ev : CultEvent) (questions : list CulturalQuestion) :
    M Session unit :=
  init_cultural_quiz ;; cultural_quiz_body ev questions.

Definition create_cultural_insights (ev : CultEvent) : M Session unit :=
  s <- get ;;
  let target_language := target_language (user_profile s) in
  if negb (dict_mem target_language LANGUAGES) then ret tt
  else
  language_data <- lift (dict_getitem target_language LANGUAGES) ;;
  _ <- lift (dict_getitem "cultural_tips"%py language_data) ;;
  if dict_mem target_language cultural_quiz_questions then
    questions <- lift (dict_getitem target_language cultural_quiz_questions) ;;
    cultural_quiz_step ev questions
  else ret tt.

(** The quiz keys are well formed: [0 <= score <= question <= n]. *)
Definition cq_wf (n : Z) (s : Session) : Prop :=
  match cultural_quiz s with
  | None => True
  | Some c => 0 <= cultural_quiz_score c <= cultural_quiz_question c /\
              cultural_quiz_question c <= n
  end.

(** The phase of the cultural quiz in the sense of [QuizSpec], for [n]
    questions: not started (or the keys not yet created), a question left,
    or every question answered. *)
Definition cq_phase (n : Z) (s : Session) : QuizPhase :=
  match cultural_quiz s with
  | None => NotStarted
  | Some c =>
      if negb (cultural_quiz_started c) then NotStarted
      else if cultural_quiz_question c <? n
      then InProgress (cultural_quiz_question c) (cultural_quiz_score c)
      else Completed (cultural_quiz_score c)
  end.

Definition cultural_model (questions : list CulturalQuestion) : QuizModel :=
  {| qm_phase := cq_phase (py_len questions); qm_size := fun _ => py_len questions |}.

(** Whether the radio value is the current question's correct option
    (the comparison of line 909). *)
Definition cultural_answer_correct (ev : CultEvent) (questions : list CulturalQuestion)
    (s : Session) : bool :=
  match cultural_quiz s with
  | Some c =>
      match py_getitem questions (cultural_quiz_question c) with
      | inr q => match py_index (cult_answer ev) (options q) with
                 | inr i => i =? correct q
                 | inl _ => false
                 end
      | inl _ => false
      end
  | None => false
  end.

(** The radio offers the options of the current question. *)
Definition answer_offered (ev : CultEvent) (questions : list CulturalQuestion) (s : Session) : Prop :=
  forall c q, cultural_quiz s = Some c -> py_getitem questions (cultural_quiz_question c) = inr q ->
  cult_answer ev ∈ options q.

(** ** Concrete sessions and events of the examples and witnesses *)

Definition cult_event (answer : pystr) (b : option CultButton) : CultEvent :=
  {| cult_answer := answer; cult_button := b |}.

Definition run_cultural (evs : list CultEvent) (s : Session) : Session :=
  fold_left (fun s ev => final (create_cultural_insights ev) s) evs s.

(** Open the page, start, answer the two Spanish questions (right, then
    wrong), each followed by its rerun, and click "Restart Quiz". *)
Definition cultural_trace : list CultEvent :=
  [cult_event "" None; cult_event "" (Some StartCulturalQuiz); cult_event "" None;
   cult_event "10 PM" (Some SubmitCultural); cult_event "" None;
   cult_event "Bow" (Some SubmitCultural); cult_event "" None;
   cult_event "" (Some RestartCulturalQuiz); cult_event "" None]%py.

Definition cultural_demo : Session :=
  set_cultural_quiz (Some (cq_state true 0 0)) demo_session.

(** ** Lemmas *)

Lemma py_index_lt {A} `{EqDecision A} (x : A) (l : list A) i :
  py_index x l = inr i -> 0 <= i < py_len l.
Proof.
  revert i. induction l as [|y l IH]; intros i; simpl; [discriminate|].
  case_decide; [intros [= <-]; unfold py_len; simpl; lia|].
  destruct (py_index x l) as [e|j] eqn:E; [discriminate|].
  intros [= <-]. specialize (IH j eq_refl). unfold py_len in *. simpl. lia.
Qed.

Lemma init_cultural_quiz_wf n s : 0 <= n -> cq_wf n s -> cq_wf n (final init_cultural_quiz s).
Proof.
  intros Hn H. unfold final, init_cultural_quiz. cbv [bind get ret modify snd].
  unfold cq_wf in *. destruct (cultural_quiz s) eqn:E; cbn; [by rewrite E|lia].
Qed.

Lemma cultural_quiz_body_wf ev questions s1 :
  cultural_quiz s1 <> None -> cq_wf (py_len questions) s1 ->
  cq_wf (py_len questions) (final (cultural_quiz_body ev questions) s1).
Proof.
  intros Hne H1. unfold final, cultural_quiz_body. unfold cq_wf in H1.
  destruct (cultural_quiz s1) as [c|] eqn:Ec; [|done]. run_tac.
  destruct (cultural_quiz_started c) eqn:Est; cbn [negb].
  2: { destruct (clicked _ StartCulturalQuiz); run_tac; unfold cq_wf; cbn;
       [pose proof (py_len_nonneg questions); lia | by rewrite Ec]. }
  destruct (Z.ltb_spec (cultural_quiz_question c) (py_len questions)).
  - destruct (py_getitem questions (cultural_quiz_question c)) as [e|q] eqn:Eq; run_tac;
      [unfold cq_wf; by rewrite Ec|].
    destruct (clicked _ SubmitCultural); run_tac; [|unfold cq_wf; by rewrite Ec].
    destruct (py_index _ _) as [e|i]; run_tac; [unfold cq_wf; by rewrite Ec|].
    destruct (i =? correct q); run_tac; unfold cq_wf, modify_cq; cbn; rewrite Ec; cbn; lia.
  - destruct (clicked _ RestartCulturalQuiz); run_tac;
      unfold cq_wf, modify_cq; cbn; rewrite Ec; cbn; lia.
Qed.

(** The quiz step keeps [cq_wf] for its question list. *)
Lemma cultural_quiz_step_keeps_wf (ev : CultEvent) (questions : list CulturalQuestion)
    (s : Session) :
  cq_wf (py_len questions) s -> cq_wf (py_len questions) (final (cultural_quiz_step ev questions) s).
Proof.
  intros H. unfold cultural_quiz_step.
  rewrite (final_bind_ret _ _ s tt (final init_cultural_quiz s))
    by (unfold final, init_cultural_quiz; cbv [bind get ret modify];
        by destruct (cultural_quiz s)).
  apply cultural_quiz_body_wf;
    [|apply init_cultural_quiz_wf; [apply py_len_nonneg|exact H]].
  unfold final, init_cultural_quiz. cbv [bind get ret modify snd].
  destruct (cultural_quiz s) eqn:E; cbn; [by rewrite E|done].
Qed.

(** ** Theorems *)

(** C8: "Submit Answer" on a question in range: when the answer sits
    at the question's [correct] position, the score grows by one and 15
    points are awarded, otherwise 5 points; the question always advances
    by one and the script reruns. *)
Theorem cultural_submit_effect (ev : CultEvent) (questions : list CulturalQuestion)
    (s : Session) (score question : Z) (q : CulturalQuestion) (i : Z) :
  cult_button ev = Some SubmitCultural ->
  cultural_quiz s = Some (cq_state true score question) ->
  py_getitem questions question = inr q ->
  py_index (cult_answer ev) (options q) = inr i ->
  question < py_len questions ->
  let ok := (i =? correct q) in
  cultural_quiz_step ev questions s =
    (Rerun, set_cultural_quiz (Some (cq_state true (if ok then score + 1 else score)
                                                   (question + 1)))
              (set_profile (add_points (if ok then 15 else 5)) s)).
Proof.
  intros Hb Hc Hq Hi Hlt ok.
  unfold cultural_quiz_step, init_cultural_quiz, cultural_quiz_body. rewrite Hb.
  unfold cq_state in Hc. run_tac. cbn [cultural_quiz_question cultural_quiz_started].
  destruct (Z.ltb_spec question (py_len questions)); [|lia].
  run_tac. subst ok. destruct (i =? correct q); run_tac; unfold modify_cq; cbn; rewrite ?Hc; reflexivity.
Qed.

(** C28: every run of the quiz keeps [0 <= score <= question <= n],
    where [n] is the number of questions. *)
Theorem cultural_quiz_step_wf (ev : CultEvent) (questions : list CulturalQuestion)
    (s : Session) :
  cq_wf (py_len questions) s -> cq_wf (py_len questions) (final (cultural_quiz_step ev questions) s).
Proof. exact (cultural_quiz_step_keeps_wf ev questions s). Qed.

(** C26: the cultural page never changes the analytics page's "Points
    Distribution by Skill" (976-982): its "Cultural Knowledge" slice is
    [lessons_completed * 25], which only the vocabulary quiz increases, so
    the answers and points of the cultural quiz show in no slice. *)
Theorem cultural_page_keeps_skill_breakdown (ev : CultEvent) (s : Session) :
  points_distribution (final (create_cultural_insights ev) s) = points_distribution s.
Proof.
  revert s. change (stays (same_on points_distribution) (create_cultural_insights ev)).
  unfold create_cultural_insights, cultural_quiz_step, init_cultural_quiz, cultural_quiz_body,
    modify_cq.
  stays_tac; reflexivity.
Qed.

(** ** Concrete runs *)

(** C10: the cultural quiz implements the quiz machine of the design:
    "Start Cultural Quiz" (shown only before a start) is [start], "Submit
    Answer" is [submit] with the radio value's position compared to the
    question's [correct], "Restart Quiz" is [restart] and a run without a
    click keeps the phase.  Restart leaves the old score and position in
    the session, but a quiz that is not started shows neither, and
    [start] resets both. *)
Theorem cultural_quiz_refines_spec (ev : CultEvent) (questions : list CulturalQuestion) :
  let n := py_len questions in
  (cult_button ev = Some StartCulturalQuiz ->
   refines (cultural_model questions) (fun s => 0 < n /\ cq_phase n s = NotStarted)
     (cultural_quiz_step ev questions) (fun _ => spec_start n)) /\
  (cult_button ev = Some SubmitCultural ->
   refines (cultural_model questions) (fun s => cq_wf n s /\ answer_offered ev questions s)
     (cultural_quiz_step ev questions)
     (fun s => spec_submit n (cultural_answer_correct ev questions s))) /\
  (cult_button ev = Some RestartCulturalQuiz ->
   refines (cultural_model questions) (fun _ => True)
     (cultural_quiz_step ev questions) (fun _ => spec_restart)) /\
  (cult_button ev = None ->
   refines (cultural_model questions) (fun _ => True)
     (cultural_quiz_step ev questions) (fun _ ph => ph)).
Proof.
  intros n. subst n. split_and!; intros Hb s Hpre;
    unfold refines, cultural_model, final, cultural_quiz_step, init_cultural_quiz,
      cultural_quiz_body in *; cbn [qm_phase]; rewrite Hb; run_tac.
  all: destruct (cultural_quiz s) as [c|] eqn:Ec;
    cbn [set_cultural_quiz cultural_quiz cq_state cultural_quiz_started cultural_quiz_question negb];
    run_tac.
  all: unfold cq_phase, cultural_answer_correct, answer_offered, cq_wf, spec_start, spec_submit,
         spec_restart in *; rewrite ?Ec in *; cbn.
  all: try (destruct (cultural_quiz_started c) eqn:Est); cbn in *; try done.
  all: repeat match goal with
    | |- context [?a <? ?b] => destruct (Z.ltb_spec a b)
    | |- context [match py_getitem ?l ?i with _ => _ end] =>
        let E := fresh "E" in destruct (py_getitem l i) eqn:E
    | |- context [match py_index ?x ?l with _ => _ end] =>
        let E := fresh "E" in destruct (py_index x l) eqn:E
    | |- context [if ?a =? ?b then _ else _] => destruct (a =? b)
    end; cbn in *; run_tac; unfold modify_cq; cbn; rewrite ?Ec, ?Est; cbn; try lia; try done.
  all: try (match type of Hpre with _ /\ _ => destruct Hpre as [_ Hp]; discriminate Hp end).
  all: repeat match goal with |- context [?a <? ?b] => destruct (Z.ltb_spec a b) end;
    try lia; try done.
  all: exfalso; destruct Hpre as [Hwf Hoff].
  all: first
    [ destruct (py_getitem_in_range questions (cultural_quiz_question c)) as (q' & Hq' & _);
        [lia|congruence]
    | match goal with
      | E : py_getitem _ _ = inr ?q, E' : py_index _ _ = inl _ |- _ =>
          destruct (py_index_elem_of _ _ (Hoff c q eq_refl E)) as [i Hi]; congruence
      end ].
Qed.
(** C39: a full pass through the cultural quiz: one right and one wrong
    answer give score 1 at question 2 and 15 + 5 points; "Restart Quiz"
    returns to the not-started state but keeps score 1 and question 2 in
    the session; only "Start Cultural Quiz" resets them to 0. *)
Theorem cultural_quiz_pass :
  cultural_quiz (run_cultural cultural_trace demo_session) = Some (cq_state false 1 2) /\
  total_points (user_profile (run_cultural cultural_trace demo_session)) = 20 /\
  cultural_quiz (run_cultural (cultural_trace ++ [cult_event ""%py (Some StartCulturalQuiz)])
                   demo_session) = Some (cq_state true 0 0).
Proof. vm_compute. split_and!; reflexivity. Qed.

(** ** Witnesses *)

Lemma cultural_submit_effect_witness :
  cultural_quiz_step (cult_event "10 PM"%py (Some SubmitCultural))
    (dict_get "Spanish"%py cultural_quiz_questions []) cultural_demo =
    (Rerun, set_cultural_quiz (Some (cq_state true 1 1))
              (set_profile (add_points 15) cultural_demo)).
Proof.
  rewrite (cultural_submit_effect (cult_event "10 PM"%py (Some SubmitCultural))
           (dict_get "Spanish"%py cultural_quiz_questions []) cultural_demo 0 0
           (nth 0 (dict_get "Spanish"%py cultural_quiz_questions [])
              {| question := ""; options := []; correct := 0; explanation := "" |}%py) 2)
    by (vm_compute; reflexivity).
  vm_compute. reflexivity.
Defined.

Lemma cultural_quiz_step_wf_witness :
  cq_wf (py_len (dict_get "Spanish"%py cultural_quiz_questions [])) (final (cultural_quiz_step (cult_event "10 PM"%py (Some SubmitCultural))
                    (dict_get "Spanish"%py cultural_quiz_questions [])) cultural_demo).
Proof.
  apply (cultural_quiz_step_wf (cult_event "10 PM"%py (Some SubmitCultural))
           (dict_get "Spanish"%py cultural_quiz_questions []) cultural_demo).
  vm_compute. split; [split|]; discriminate.
Defined.

Lemma cultural_quiz_refines_spec_witness :
  cq_phase 2 (final (cultural_quiz_step (cult_event "Very important"%py (Some SubmitCultural))
                       (dict_get "German"%py cultural_quiz_questions []))
                (set_cultural_quiz (Some (cq_state true 0 0)) demo_session)) =
  spec_submit 2 true (InProgress 0 0).
Proof.
  assert (Hpre : cq_wf (py_len (dict_get "German"%py cultural_quiz_questions []))
                   (set_cultural_quiz (Some (cq_state true 0 0)) demo_session) /\
                 answer_offered (cult_event "Very important"%py (Some SubmitCultural))
                   (dict_get "German"%py cultural_quiz_questions [])
                   (set_cultural_quiz (Some (cq_state true 0 0)) demo_session)).
  { split; [vm_compute; split; [split|]; discriminate|].
    intros c q Hc Hq. injection Hc as <-. vm_compute in Hq. injection Hq as <-.
    vm_compute. set_solver. }
  pose proof (proj1 (proj2 (cultural_quiz_refines_spec
                (cult_event "Very important"%py (Some SubmitCultural))
                (dict_get "German"%py cultural_quiz_questions []))) eq_refl _ Hpre) as H.
  etransitivity; [exact H|]. vm_compute. reflexivity.
Defined.
