(* ===== verification/App.v ===== *)
(** * App: the script run, its reruns and the reachable sessions

    [main] (lines 1023-1083) as a handler: the sidebar (1027-1067), whose
    only effect is the draw [random.randint(5, daily_goal)], then the page
    the menu selects.  The profile form [create_profile_setup] (344-386)
    is modelled here, since it only writes the profile; the dashboard
    (259-342, [Dashboard]) and the analytics page (930-1021, [Progress])
    change nothing: [main] runs them and drops the view they return.

    Streamlit runs the whole script for each interaction.  A run is
    started by at most one click; [st.rerun()] stops it and starts a run
    with the same widget values and no click ([quiet]).  [run_script]
    follows reruns with fuel; a run without a click never reruns, so two
    runs always suffice ([interact]).  The reachable sessions are those
    of [initial_session] followed by any sequence of interactions with
    valid widget values ([reachable]); the invariants are proved by
    induction on it.  The liveness of the vocabulary quiz and the
    roundtrip of the flashcard buttons are stated over sequences of
    interactions ([fold_left interact]). *)

From stdpp Require Import base list gmap strings.
From Stdlib Require Import ZArith Lia.
From S2P Require Import Prelude Catalog Session QuizSpec Progress Dashboard Pronunciation.
From S2P Require Import Conversation Vocabulary CulturalQuiz.

Local Open Scope Z_scope.
Local Open Scope st_scope.

(** ** The profile form *)

Record ProfileEvent := {
  pf_name : pystr;
  pf_native : pystr;
  pf_target : pystr;
  pf_level : pystr;
  pf_daily_goal : Z;
  pf_interests : list pystr;
  pf_save : bool }.            (** "Save Profile" clicked *)

Definition create_profile_setup (ev : ProfileEvent) : M Session unit :=
  s <- get ;;
  (* the level selectbox's index, line 367 *)
  _ <- lift (py_index (level (user_profile s)) level_choices) ;;
  when (pf_save ev)
    (modify (set_profile (update_form (pf_name ev) (pf_native ev) (pf_target ev)
                            (pf_level ev) (pf_daily_goal ev) (pf_interests ev))) ;;
     rerun).

(** The values the form's widgets show when the page is opened (351-376):
    the stored name, level, goal and interests, but the first choice of
    both language selectboxes, whose [index=0 if ... else 0] is 0 in
    both branches (355, 360). *)
Definition profile_form_defaults (p : UserProfile) (save : bool) : ProfileEvent := {|
  pf_name := name p;
  pf_native := hd ""%py native_language_choices;
  pf_target := hd ""%py target_language_choices;
  pf_level := level p;
  pf_daily_goal := daily_goal p;
  pf_interests := interests p;
  pf_save := save |}.

(** ** The script *)

Inductive PageEvent :=
  | OnDashboard (d : DashboardDraws)
  | OnProfile (p : ProfileEvent)
  | OnConversation (c : ConvEvent)
  | OnVocabulary (v : VocabEvent)
  | OnPronunciation (p : PronEvent)
  | OnCultural (c : CultEvent)
  | OnAnalytics (activity : nat -> Z).

Record Event := {
  ev_page : PageEvent;
  ev_daily_minutes : Z }.     (** the sidebar's [random.randint] draw *)

(** Lines 1060-1067: [random.randint(5, daily_goal)]. *)
Definition sidebar (ev : Event) : M Session unit :=
  s <- get ;;
  _ <- lift (py_randint 5 (daily_goal (user_profile s)) (ev_daily_minutes ev)) ;;
  ret tt.

Definition main (ev : Event) : M Session unit :=
  sidebar ev ;;
  match ev_page ev with
  | OnDashboard d => _ <- create_dashboard d ;; ret tt
  | OnProfile p => create_profile_setup p
  | OnConversation c => create_conversation_practice c
  | OnVocabulary v => create_vocabulary_lessons v
  | OnPronunciation p => create_pronunciation_practice p
  | OnCultural c => create_cultural_insights c
  | OnAnalytics a => _ <- create_progress_analytics a ;; ret tt
  end.

(** The same widget values with no click: the run [st.rerun()] starts. *)
Definition quiet (ev : Event) : Event :=
  {| ev_daily_minutes := ev_daily_minutes ev;
     ev_page :=
       match ev_page ev with
       | OnDashboard d => OnDashboard d
       | OnProfile p =>
           OnProfile {| pf_name := pf_name p; pf_native := pf_native p;
                        pf_target := pf_target p; pf_level := pf_level p;
                        pf_daily_goal := pf_daily_goal p; pf_interests := pf_interests p;
                        pf_save := false |}
       | OnConversation c =>
           OnConversation {| conv_scenario := conv_scenario c; conv_input := conv_input c;
                             conv_button := None; conv_base_score := conv_base_score c |}
       | OnVocabulary v =>
           OnVocabulary {| vocab_category := vocab_category v; vocab_button := None;
                           vocab_sample := vocab_sample v; vocab_answer := vocab_answer v |}
       | OnPronunciation p =>
           OnPronunciation {| practice_type := practice_type p;
                              practice_choice := practice_choice p;
                              phrase_choice := phrase_choice p; pron_button := None;
                              pron_base_score := pron_base_score p;
                              pron_timestamp := pron_timestamp p |}
       | OnCultural c => OnCultural {| cult_answer := cult_answer c; cult_button := None |}
       | OnAnalytics a => OnAnalytics a
       end |}.

(** A run and the reruns it triggers, with [fuel] runs at most. *)
Fixpoint run_script (fuel : nat) (ev : Event) (s : Session) : option (outcome unit * Session) :=
  match fuel with
  | O => None
  | S fuel' =>
      match main ev s with
      | (Rerun, s') => run_script fuel' (quiet ev) s'
      | r => Some r
      end
  end.

(** One interaction: its run and the rerun it may trigger.  A run that
    raises leaves the session as the exception found it. *)
Definition interact (ev : Event) (s : Session) : Session :=
  match run_script 2 ev s with Some (_, s') => s' | None => s end.

(** The widget values a run can see: slider and selectbox ranges, and
    the draws of [random.randint(70, 100)]. *)
Definition valid_event (ev : Event) : Prop :=
  match ev_page ev with
  | OnProfile p => 10 <= pf_daily_goal p <= 120 /\ pf_level p ∈ level_choices
  | OnConversation c => valid_base_score (conv_base_score c)
  | OnPronunciation p => valid_base_score (pron_base_score p)
  | _ => True
  end.

Inductive reachable : Session -> Prop :=
  | reachable_init now : reachable (initial_session now)
  | reachable_step s ev : reachable s -> valid_event ev -> reachable (interact ev s).

(** The invariant of every reachable session. *)
Definition profile_inv (p : UserProfile) : Prop :=
  NoDup (vocabulary_mastered p) /\
  Forall (fun x => 60 <= x <= 100) (pronunciation_scores p) /\
  streak p = 0 /\
  10 <= daily_goal p <= 120 /\
  level p ∈ level_choices /\
  0 <= total_points p /\ 0 <= lessons_completed p /\ 0 <= conversations_had p.

(** Every attempt of the pronunciation log has a score in [60, 100]. *)
Definition feedback_ok (s : Session) : Prop :=
  Forall (fun f => 60 <= fb_score f <= 100) (pronunciation_feedback s).

Definition session_inv (s : Session) : Prop :=
  profile_inv (user_profile s) /\ session_quiz_wf s /\ cq_wf 2 s /\ feedback_ok s.

(** The transcript of [s'] extends that of [s]. *)
Definition history_ext (s s' : Session) : Prop :=
  exists l, conversation_history s' = conversation_history s ++ l.

(** The event clicks "Clear Chat". *)
Definition clears_chat (ev : Event) : Prop :=
  match ev_page ev with OnConversation c => conv_button c = Some ClearChat | _ => False end.

(** The invariant of the profile, read on the session. *)
Definition profile_ok (s : Session) : Prop := profile_inv (user_profile s).

(** ** Concrete sessions and events of the examples and witnesses *)

Definition demo_draws : DashboardDraws := {|
  grammar_draw := 7; listening_draw := 5; reading_draw := 9;
  daily_points_draws := fun i => nth i [12; 30; 45; 10; 22; 50; 18] 0 |}.

Definition dashboard_event : Event := {| ev_page := OnDashboard demo_draws; ev_daily_minutes := 12 |}.

Definition save_event : ProfileEvent := {|
  pf_name := "Ana"%py; pf_native := "English"%py; pf_target := "French"%py;
  pf_level := "Intermediate"%py; pf_daily_goal := 30; pf_interests := ["Travel"%py];
  pf_save := true |}.

Definition twister_event : Event :=
  {| ev_page := OnPronunciation (pron_event "Tongue Twisters"%py ChallengeAccepted);
     ev_daily_minutes := 12 |}.

Definition profile_event (target : pystr) : Event :=
  {| ev_page := OnProfile {| pf_name := "Ana"%py; pf_native := "English"%py; pf_target := target;
                             pf_level := "Beginner"%py; pf_daily_goal := 20; pf_interests := [];
                             pf_save := true |};
     ev_daily_minutes := 12 |}.

Definition send_event (text : pystr) : Event :=
  {| ev_page := OnConversation {| conv_scenario := "Meeting Someone New"%py; conv_input := text;
                                  conv_button := Some SendMessage; conv_base_score := 80 |};
     ev_daily_minutes := 12 |}.

(** Italian is chosen and a message sent (the KeyError of line 446), then
    Spanish is chosen and a message sent. *)
Definition italian_then_spanish : Session :=
  fold_left (fun s ev => interact ev s)
    [profile_event "Italian"%py; send_event "Hello"%py;
     profile_event "Spanish"%py; send_event "Where is the bathroom?"%py] demo_session.

(** The two-question quiz of [in_progress_demo] at its last question, on
    a page that has shown the greetings. *)
Definition quiz_at_greetings : Session := set_index "greetings"%py 0 in_progress_demo.

Definition submit_greetings : Event :=
  {| ev_page := OnVocabulary (vocab_event "greetings"%py (Some SubmitAnswer));
     ev_daily_minutes := 12 |}.

(** The flashcard buttons as interactions on a category of the page. *)
Definition vocab_click (c : pystr) (b : VocabButton) : Event :=
  {| ev_page := OnVocabulary (vocab_event c (Some b)); ev_daily_minutes := 12 |}.

(** "Mark as Mastered" then "Next" on each of the [n] words of [c]. *)
Definition master_category (c : pystr) (n : nat) : list Event :=
  concat (repeat [vocab_click c MarkMastered; vocab_click c NextWord] n).

(** Every Spanish lesson word is mastered (45 words), French is chosen,
    and the four French greetings are mastered walking back from the
    position the Spanish greetings left (the key is shared, line 507). *)
Definition french_overflow : Session :=
  fold_left (fun s ev => interact ev s)
    (concat (map (fun cn => master_category cn.1 cn.2)
               [("greetings", 4%nat); ("basics", 5%nat); ("questions", 4%nat);
                ("family", 6%nat); ("numbers", 10%nat); ("colors", 8%nat); ("food", 8%nat)]%py) ++
     [profile_event "French"%py] ++
     concat (repeat [vocab_click "greetings"%py MarkMastered; vocab_click "greetings"%py PreviousWord] 3) ++
     [vocab_click "greetings"%py MarkMastered])
    demo_session.

(** ** Lemmas *)

Lemma quiet_handlers_never_rerun (ev : Event) :
  never_reruns (main (quiet ev)).
Proof.
  unfold main, sidebar. apply never_reruns_bind; [never_reruns_tac|intros _].
  cbn [quiet ev_page]. destruct (ev_page ev) as [d|p|c|v|p|c|a].
  - never_reruns_tac.
  - unfold create_profile_setup. cbn [pf_save]. never_reruns_tac.
  - unfold create_conversation_practice. cbn [conv_button]. never_reruns_tac.
  - unfold create_vocabulary_lessons, flashcard_column, vocab_quiz_column.
    cbn [vocab_button]. never_reruns_tac.
  - unfold create_pronunciation_practice, record_attempt. cbn [pron_button]. never_reruns_tac.
  - unfold create_cultural_insights, cultural_quiz_step, init_cultural_quiz,
      cultural_quiz_body. cbn [cult_button]. never_reruns_tac.
  - never_reruns_tac.
Qed.

Create HintDb appinv discriminated.

(** Statements that leave the profile alone keep [profile_ok]. *)
#[export] Hint Extern 1 (implies_rel _ _ _) => (intros ?; assumption) : appinv.

Lemma profile_ok_add_points n s :
  0 <= n -> implies_rel profile_ok s (set_profile (add_points n) s).
Proof. intros Hn (?&?&?&?&?&?&?&?). unfold profile_ok, profile_inv; simpl. split_and!; auto; lia. Qed.

Lemma profile_ok_incr_lessons s : implies_rel profile_ok s (set_profile incr_lessons s).
Proof. intros (?&?&?&?&?&?&?&?). unfold profile_ok, profile_inv; simpl. split_and!; auto; lia. Qed.

Lemma profile_ok_incr_conversations s :
  implies_rel profile_ok s (set_profile incr_conversations s).
Proof. intros (?&?&?&?&?&?&?&?). unfold profile_ok, profile_inv; simpl. split_and!; auto; lia. Qed.

Lemma profile_ok_push_score x s :
  60 <= x <= 100 -> implies_rel profile_ok s (set_profile (push_score x) s).
Proof.
  intros Hx (?&Hs&?&?&?&?&?&?). unfold profile_ok, profile_inv; simpl.
  split_and!; auto; try lia.
  apply Forall_app. split; [done|]. by apply Forall_singleton.
Qed.

Lemma profile_ok_update_form nm nat tgt lvl g ints s :
  10 <= g <= 120 -> lvl ∈ level_choices ->
  implies_rel profile_ok s (set_profile (update_form nm nat tgt lvl g ints) s).
Proof.
  intros Hg Hl (?&?&?&?&?&?&?&?). unfold profile_ok, profile_inv; simpl.
  split_and!; auto; lia.
Qed.

#[export] Hint Resolve profile_ok_add_points profile_ok_incr_lessons
  profile_ok_incr_conversations profile_ok_push_score profile_ok_update_form
  simulate_in_range : appinv.
#[export] Hint Resolve conversation_points_nonneg word_points_nonneg
  phrase_points_nonneg twister_points_nonneg : appinv.
#[export] Hint Extern 5 (_ <= _) => lia : appinv.
#[export] Hint Extern 4 (_ <= if _ then _ else _) => case_match; lia : appinv.

Ltac inv_tac := stays_tac; try solve [eauto with appinv].

Lemma flashcard_column_profile_ok ev c words i w :
  stays (implies_rel profile_ok) (flashcard_column ev c words i w).
Proof.
  intros s Hs.
  destruct (flashcard_column_cases ev c words i w s) as [->|[(j & -> & _)|(_ & ->)]];
    [done|done|].
  destruct (py_mem w _) eqn:Hm; [done|].
  destruct Hs as (Hnd&?&?&?&?&?&?&?). unfold profile_ok, profile_inv; simpl. split_and!; auto; try lia.
  apply NoDup_app. split; [done|]. split; [|apply NoDup_singleton].
  intros x Hx ->%list_elem_of_singleton.
  apply not_true_iff_false in Hm. apply Hm, py_mem_spec, Hx.
Qed.

Lemma main_profile_ok ev :
  valid_event ev -> stays (implies_rel profile_ok) (main ev).
Proof.
  intros Hv. unfold main. apply stays_bind; [typeclasses eauto..|unfold sidebar; inv_tac|intros _].
  unfold valid_event in Hv. destruct (ev_page ev) as [dd|pf|cv|vv|pv|cu|ad].
  - inv_tac.
  - destruct Hv. unfold create_profile_setup. inv_tac.
  - unfold create_conversation_practice, append_message. inv_tac.
  - unfold create_vocabulary_lessons, vocab_quiz_column, set_index, modify_quiz. inv_tac.
    apply flashcard_column_profile_ok.
  - unfold create_pronunciation_practice, record_attempt. inv_tac.
  - unfold create_cultural_insights, cultural_quiz_step, init_cultural_quiz,
      cultural_quiz_body, modify_cq. inv_tac.
  - inv_tac.
Qed.

Lemma flashcard_column_quiz_wf ev c words i w :
  stays (implies_rel session_quiz_wf) (flashcard_column ev c words i w).
Proof.
  intros s Hs.
  destruct (flashcard_column_cases ev c words i w s) as [->|[(j & -> & _)|(_ & ->)]];
    [done|done|]. by destruct (py_mem w _).
Qed.

Lemma main_quiz_wf ev : stays (implies_rel session_quiz_wf) (main ev).
Proof.
  unfold main. apply stays_bind; [typeclasses eauto..|unfold sidebar; inv_tac|intros _].
  destruct (ev_page ev) as [dd|pf|cv|vv|pv|cu|ad].
  - inv_tac.
  - unfold create_profile_setup. inv_tac.
  - unfold create_conversation_practice. inv_tac.
  - unfold create_vocabulary_lessons. inv_tac.
    + apply flashcard_column_quiz_wf.
    + intros s Hs. by apply vocab_quiz_column_keeps_wf.
  - unfold create_pronunciation_practice, record_attempt. inv_tac.
  - unfold create_cultural_insights, cultural_quiz_step, init_cultural_quiz,
      cultural_quiz_body, modify_cq. inv_tac.
  - inv_tac.
Qed.

Lemma cultural_questions_len t qs :
  dict_getitem t cultural_quiz_questions = inr qs -> py_len qs = 2.
Proof.
  unfold dict_getitem, cultural_quiz_questions. simpl.
  repeat case_decide; intros [= <-]; reflexivity.
Qed.

Lemma create_cultural_insights_cq_wf ev :
  stays (implies_rel (cq_wf 2)) (create_cultural_insights ev).
Proof.
  intros s Hs. unfold final, create_cultural_insights. cbv [bind get ret lift raise].
  destruct (negb _); [exact Hs|].
  destruct (dict_getitem _ LANGUAGES) as [e|data]; [exact Hs|].
  destruct (dict_getitem _ data); [exact Hs|].
  destruct (dict_mem _ _); [|exact Hs].
  destruct (dict_getitem _ cultural_quiz_questions) as [e|qs] eqn:E; [exact Hs|].
  pose proof (cultural_questions_len _ _ E) as Hl. rewrite <- Hl in *.
  apply cultural_quiz_step_keeps_wf. exact Hs.
Qed.

Lemma main_cq_wf ev : stays (implies_rel (cq_wf 2)) (main ev).
Proof.
  unfold main. apply stays_bind; [typeclasses eauto..|unfold sidebar; inv_tac|intros _].
  destruct (ev_page ev) as [dd|pf|cv|vv|pv|cu|ad].
  - inv_tac.
  - unfold create_profile_setup. inv_tac.
  - unfold create_conversation_practice. inv_tac.
  - unfold create_vocabulary_lessons, flashcard_column, vocab_quiz_column,
      set_index, modify_quiz. inv_tac.
  - unfold create_pronunciation_practice, record_attempt. inv_tac.
  - apply create_cultural_insights_cq_wf.
  - inv_tac.
Qed.

Lemma main_progress ev : stays session_progress (main ev).
Proof.
  unfold main. apply stays_bind; [typeclasses eauto..|unfold sidebar; stays_tac|intros _].
  destruct (ev_page ev) as [dd|pf|cv|vv|pv|cu|ad].
  - stays_tac.
  - unfold create_profile_setup. stays_tac.
  - unfold create_conversation_practice. stays_tac.
  - unfold create_vocabulary_lessons, flashcard_column, vocab_quiz_column,
      set_index, modify_quiz. stays_tac.
    all: apply set_profile_progress; intros; apply add_points_progress; case_match; lia.
  - unfold create_pronunciation_practice, record_attempt. stays_tac.
  - unfold create_cultural_insights, cultural_quiz_step, init_cultural_quiz,
      cultural_quiz_body, modify_cq. stays_tac.
  - stays_tac.
Qed.

Lemma record_attempt_feedback_ok k subj base ts points :
  valid_base_score base -> stays (implies_rel feedback_ok) (record_attempt k subj base ts points).
Proof.
  intros Hb s Hf. unfold final. rewrite record_attempt_run.
  unfold feedback_ok in *; simpl. apply Forall_app. split; [done|].
  apply Forall_singleton. simpl. by apply simulate_in_range.
Qed.

Lemma main_feedback_ok ev : valid_event ev -> stays (implies_rel feedback_ok) (main ev).
Proof.
  intros Hv. unfold main. apply stays_bind; [typeclasses eauto..|unfold sidebar; inv_tac|intros _].
  unfold valid_event in Hv. destruct (ev_page ev) as [dd|pf|cv|vv|pv|cu|ad].
  - inv_tac.
  - unfold create_profile_setup. inv_tac.
  - unfold create_conversation_practice, append_message. inv_tac.
  - unfold create_vocabulary_lessons, flashcard_column, vocab_quiz_column,
      set_index, modify_quiz. inv_tac.
  - unfold create_pronunciation_practice. inv_tac; apply record_attempt_feedback_ok, Hv.
  - unfold create_cultural_insights, cultural_quiz_step, init_cultural_quiz,
      cultural_quiz_body, modify_cq. inv_tac.
  - inv_tac.
Qed.

#[export] Instance history_ext_refl : Reflexive history_ext.
Proof. intros s. exists []. by rewrite app_nil_r. Qed.

#[export] Instance history_ext_trans : Transitive history_ext.
Proof. intros s1 s2 s3 [l1 H1] [l2 H2]. exists (l1 ++ l2). by rewrite H2, H1, app_assoc. Qed.

Lemma append_message_ext r t s : history_ext s (append_message r t s).
Proof. by exists [{| role := r; content := t |}]. Qed.

#[export] Hint Resolve append_message_ext : appinv.
(** Statements that leave the transcript alone. *)
#[export] Hint Extern 2 (history_ext _ _) =>
  (exists []; cbn; rewrite app_nil_r; reflexivity) : appinv.

Lemma main_history_ext ev : ~ clears_chat ev -> stays history_ext (main ev).
Proof.
  intros Hc. unfold main. apply stays_bind; [typeclasses eauto..|unfold sidebar; inv_tac|intros _].
  unfold clears_chat in Hc. destruct (ev_page ev) as [dd|pf|cv|vv|pv|cu|ad].
  - inv_tac.
  - unfold create_profile_setup. inv_tac.
  - assert (Hcl : clicked (conv_button cv) ClearChat = false)
      by (unfold clicked; apply bool_decide_eq_false_2; exact Hc).
    unfold create_conversation_practice. rewrite Hcl. cbv [when]. inv_tac.
  - unfold create_vocabulary_lessons, flashcard_column, vocab_quiz_column,
      set_index, modify_quiz. inv_tac.
  - unfold create_pronunciation_practice, record_attempt. inv_tac.
  - unfold create_cultural_insights, cultural_quiz_step, init_cultural_quiz,
      cultural_quiz_body, modify_cq. inv_tac.
  - inv_tac.
Qed.

Lemma quiet_not_clears_chat ev : ~ clears_chat (quiet ev).
Proof. unfold clears_chat, quiet. cbn. destruct (ev_page ev); cbn; congruence. Qed.

Lemma valid_event_quiet ev : valid_event ev -> valid_event (quiet ev).
Proof. unfold valid_event, quiet. by destruct (ev_page ev). Qed.

Lemma interact_cases ev s :
  interact ev s = final (main ev) s \/
  interact ev s = final (main (quiet ev)) (final (main ev) s).
Proof.
  unfold interact, final. cbn [run_script].
  destruct (main ev s) as [[[]| |e] s'] eqn:E; cbn [fst snd]; auto.
  right. destruct (main (quiet ev) s') as [[[]| |e'] s''] eqn:E'; cbn; auto.
  exfalso. apply (quiet_handlers_never_rerun ev s'). by rewrite E'.
Qed.

(** An interaction keeps every relation that each valid run keeps. *)
Lemma interact_stays (R : relation Session) `{!Reflexive R} `{!Transitive R} ev s :
  (forall ev, valid_event ev -> stays R (main ev)) -> valid_event ev -> R s (interact ev s).
Proof.
  intros Hmain Hv. destruct (interact_cases ev s) as [->| ->]; [apply Hmain, Hv|].
  etransitivity; [apply (Hmain ev Hv)|]. apply Hmain, valid_event_quiet, Hv.
Qed.

Lemma interact_session_inv ev s : valid_event ev -> session_inv s -> session_inv (interact ev s).
Proof.
  intros Hv (Hp & Hq & Hc & Hf). split_and!.
  - apply (interact_stays (implies_rel profile_ok)); [exact main_profile_ok|exact Hv|exact Hp].
  - apply (interact_stays (implies_rel session_quiz_wf)); [intros; apply main_quiz_wf|exact Hv|exact Hq].
  - apply (interact_stays (implies_rel (cq_wf 2))); [intros; apply main_cq_wf|exact Hv|exact Hc].
  - apply (interact_stays (implies_rel feedback_ok)); [exact main_feedback_ok|exact Hv|exact Hf].
Qed.

(** The invariant holds of every reachable session, by induction on [reachable]. *)
Lemma reachable_inv (s : Session) : reachable s -> session_inv s.
Proof.
  induction 1 as [now|s ev Hr IH Hv].
  - unfold session_inv, profile_inv, feedback_ok. cbn. split_and!; try lia; try constructor.
  - by apply interact_session_inv.
Qed.

(** A sequence of valid interactions from a reachable session. *)
Lemma reachable_fold (evs : list Event) (s : Session) :
  reachable s -> Forall valid_event evs ->
  reachable (fold_left (fun s ev => interact ev s) evs s).
Proof.
  intros Hr Hv. revert s Hr. induction Hv as [|ev evs Hev _ IH]; intros s Hr; simpl; [done|].
  apply IH. by apply reachable_step.
Qed.

(** The sidebar only reads the daily goal of the slider's range. *)
Lemma sidebar_run ev s : 5 <= daily_goal (user_profile s) -> sidebar ev s = (Ret tt, s).
Proof. intros Hg. unfold sidebar, py_randint. run_tac. by rewrite (proj2 (Z.leb_le _ _) Hg). Qed.

Lemma page_reads_profile v s words i w f :
  target_language (f (user_profile s)) = target_language (user_profile s) ->
  page_reads v s words i w -> page_reads v (set_profile f s) words i w.
Proof. intros Ht (data & ?). exists data. cbn. by rewrite Ht. Qed.

Lemma page_reads_quiz v s words i w qo :
  page_reads v s words i w -> page_reads v (set_current_quiz qo s) words i w.
Proof. done. Qed.

(** An interaction whose run reruns ends with the state of its quiet rerun. *)
Lemma interact_rerun ev s s1 :
  main ev s = (Rerun, s1) -> interact ev s = final (main (quiet ev)) s1.
Proof.
  intros H. unfold interact, final. cbn [run_script]. rewrite H.
  destruct (main (quiet ev) s1) as [[[]| |e] s2] eqn:E; try done.
  exfalso. apply (quiet_handlers_never_rerun ev s1). by rewrite E.
Qed.

(** The quiet rerun of a vocabulary event: no button, so the flashcard
    column does nothing, and the progress section writes nothing. *)
Lemma vocab_quiet_final v m s words i w s2 :
  5 <= daily_goal (user_profile s) ->
  page_reads v s words i w ->
  vocab_quiz_column {| vocab_category := vocab_category v; vocab_button := None;
                       vocab_sample := vocab_sample v; vocab_answer := vocab_answer v |} words s =
    (Ret tt, s2) ->
  final (main (quiet {| ev_page := OnVocabulary v; ev_daily_minutes := m |})) s = s2.
Proof.
  set (v0 := {| vocab_category := vocab_category v; vocab_button := None;
                vocab_sample := vocab_sample v; vocab_answer := vocab_answer v |}) in *.
  intros Hg Hr Hq. unfold final, main. rewrite (bind_ret_run _ _ _ _ _ (sidebar_run _ s Hg)).
  cbn [quiet ev_page]. fold v0.
  rewrite (vocab_page_ret v0 s words i w s s2 Hr (flashcard_column_quiet v0 _ _ _ _ eq_refl s) Hq).
  apply vocabulary_progress_final.
Qed.

(** One interaction of the Submit button on a question in range: the run
    answers it and reruns, the rerun shows the next question or counts the
    completed quiz.  The cursor moves by one, the page reads the same data. *)
Lemma vocab_submit_interact v m s words i w q :
  vocab_button v = Some SubmitAnswer -> 5 <= daily_goal (user_profile s) ->
  page_reads v s words i w -> current_quiz s = Some q ->
  0 <= current_question q < py_len (quiz_words q) ->
  let s' := interact {| ev_page := OnVocabulary v; ev_daily_minutes := m |} s in
  exists q', current_quiz s' = Some q' /\ quiz_words q' = quiz_words q /\
    current_question q' = current_question q + 1 /\ quiz_score q <= quiz_score q' /\
    page_reads v s' words i w /\ daily_goal (user_profile s') = daily_goal (user_profile s).
Proof.
  intros Hb Hg Hr Hq Hlen s'. subst s'.
  set (ok := bool_decide (vocab_answer v = "Correct Answer"%py)).
  set (q1 := {| quiz_words := quiz_words q; current_question := current_question q + 1;
                quiz_score := quiz_score q + (if ok then 1 else 0); answers := answers q |}).
  set (s1 := set_profile (add_points (if ok then 5 else 2)) (set_current_quiz (Some q1) s)).
  assert (Hr1 : page_reads v s1 words i w) by (apply page_reads_profile; [done|exact Hr]).
  assert (Hq1 : current_quiz s1 = Some q1) by done.
  rewrite interact_rerun with (s1 := s1).
  2: { unfold main. rewrite (bind_ret_run _ _ _ _ _ (sidebar_run _ _ Hg)). cbn [ev_page].
       exact (vocab_page_quiz_rerun _ _ _ _ _ _ _ Hr (flashcard_column_submit _ _ _ _ _ _ Hb)
                (quiz_submit_run _ _ _ _ Hb Hq Hlen)). }
  destruct (Z.ltb_spec (current_question q + 1) (py_len (quiz_words q))).
  - rewrite (vocab_quiet_final v m s1 words i w s1 Hg Hr1
               (quiz_in_progress_quiet (Build_VocabEvent (vocab_category v) None (vocab_sample v) (vocab_answer v)) _ s1 q1 eq_refl Hq1 ltac:(cbn; lia))).
    exists q1. subst q1 ok. cbn. split_and!; try done; [destruct (bool_decide _); lia].
  - rewrite (vocab_quiet_final v m s1 words i w _ Hg Hr1
               (completed_quiz_counts_each_run (Build_VocabEvent (vocab_category v) None (vocab_sample v) (vocab_answer v)) _ s1 q1 eq_refl Hq1 ltac:(cbn; lia))).
    exists q1. subst q1 ok. cbn. split_and!; try done; [destruct (bool_decide _); lia].
Qed.

(** A click of a navigation button with no quiz dict: the run moves the
    position to [j] and reruns, the rerun shows the word at [j]. *)
Lemma vocab_nav_interact v m s words i w j w' :
  5 <= daily_goal (user_profile s) -> page_reads v s words i w -> current_quiz s = None ->
  flashcard_column v (vocab_category v) words i w s = (Rerun, set_index (vocab_category v) j s) ->
  py_getitem words j = inr w' ->
  interact {| ev_page := OnVocabulary v; ev_daily_minutes := m |} s = set_index (vocab_category v) j s.
Proof.
  intros Hg Hr Hq Hf Hj. set (s1 := set_index (vocab_category v) j s).
  assert (Hr1 : page_reads v s1 words j w') by exact (page_reads_set_index v s words i w j w' Hr Hj).
  rewrite interact_rerun with (s1 := s1).
  2: { unfold main. rewrite (bind_ret_run _ _ _ _ _ (sidebar_run _ _ Hg)). cbn [ev_page].
       exact (vocab_page_flashcard_rerun _ _ _ _ _ _ Hr Hf). }
  exact (vocab_quiet_final v m s1 words j w' s1 Hg Hr1 (vocab_quiz_column_no_quiz (Build_VocabEvent (vocab_category v) None (vocab_sample v) (vocab_answer v)) words s1 eq_refl Hq)).
Qed.

(** ** Theorems *)

(** C3: termination of a script run: the run an interaction starts and
    the reruns it triggers end within two runs, since a run with no click
    never calls [st.rerun()]; more fuel gives the same result. *)
Theorem run_script_two_runs (ev : Event) (s : Session) (fuel : nat) :
  (2 <= fuel)%nat ->
  run_script 2 ev s <> None /\ run_script fuel ev s = run_script 2 ev s.
Proof.
  intros Hf. destruct fuel as [|[|fuel]]; [lia|lia|]. cbn [run_script].
  destruct (main ev s) as [[[]| |e] s'] eqn:E; try (split; [discriminate|reflexivity]).
  cbn [run_script].
  destruct (main (quiet ev) s') as [[[]| |e'] s''] eqn:E'; try (split; [discriminate|reflexivity]).
  exfalso. apply (quiet_handlers_never_rerun ev s'). by rewrite E'.
Qed.

(** C1: every reachable session satisfies the invariant: mastered
    words have no duplicate, every pronunciation score, in the profile and
    in the pronunciation log, is in [60, 100], the streak is 0, the daily goal is in [10, 120], the level
    is one of the three choices, the counters are non-negative, the
    vocabulary quiz is well formed and the cultural quiz has
    [0 <= score <= question <= 2]. *)
Theorem reachable_session_inv (s : Session) : reachable s -> session_inv s.
Proof. exact (reachable_inv s). Qed.

(** C2: no interaction lowers the learner's progress: points, lessons
    and conversations never decrease, and the mastered words and the
    pronunciation scores only grow at their end. *)
Theorem interact_progress (ev : Event) (s : Session) :
  valid_event ev -> session_progress s (interact ev s).
Proof. intros Hv. apply interact_stays; [typeclasses eauto..| |exact Hv]. intros; apply main_progress. Qed.

(** C23: the streak is never written, so "Streak Keeper" is locked in
    every reachable session. *)
Theorem streak_keeper_never_unlocked (s : Session) :
  reachable s -> unlocked_named "Streak Keeper"%py (user_profile s) = false.
Proof.
  intros Hr. destruct (reachable_inv s Hr) as ((_&_&Hst&_) & _).
  rewrite unlocked_streak_keeper, Hst. reflexivity.
Qed.

(** C36: in a reachable session the sidebar's [random.randint(5,
    daily_goal)] and the profile form's [.index(level)] never raise. *)
Theorem sidebar_and_form_never_raise (s : Session) (ev : Event) :
  reachable s ->
  fst (sidebar ev s) = Ret tt /\
  exists i, py_index (level (user_profile s)) level_choices = inr i.
Proof.
  intros Hr. destruct (reachable_inv s Hr) as ((_&_&_&Hg&Hl&_) & _).
  split.
  - unfold sidebar, py_randint. cbv [bind get lift ret].
    destruct (Z.leb_spec 5 (daily_goal (user_profile s))); [reflexivity|lia].
  - exact (py_index_elem_of _ _ Hl).
Qed.

(** C37: "Save Profile" writes the six form fields into the profile, keeps
    every counter and list of the learner's progress and the rest of the
    session, and reruns; when the stored level is not one of the three
    choices, the form's [.index] raises [ValueError] before any change. *)
Theorem profile_save_effect (ev : ProfileEvent) (s : Session) :
  pf_save ev = true ->
  create_profile_setup ev s =
    if bool_decide (level (user_profile s) ∈ level_choices) then
      (Rerun, set_profile (update_form (pf_name ev) (pf_native ev) (pf_target ev)
                             (pf_level ev) (pf_daily_goal ev) (pf_interests ev)) s)
    else (Raise ValueError, s).
Proof.
  intros Hs. unfold create_profile_setup. rewrite Hs. cbv [bind get lift].
  case_bool_decide as Hl.
  - destruct (py_index_elem_of _ _ Hl) as [i ->]. reflexivity.
  - rewrite (py_index_not_elem_of _ _ Hl). reflexivity.
Qed.

(** C25: on every reachable session with a non-empty pronunciation log,
    the analytics column of the pronunciation page averages at least one
    score (its [sum / len] never divides by zero) and the average lies in
    [60, 100]. *)
Theorem pronunciation_average_bounds (s : Session) :
  reachable s -> pronunciation_feedback s <> [] ->
  let rs := recent_scores (pronunciation_feedback s) in
  0 < py_len rs /\ 60 * py_len rs <= py_sum rs <= 100 * py_len rs.
Proof.
  intros Hr Hne rs. destruct (reachable_inv s Hr) as (_ & _ & _ & Hf). split.
  - unfold rs, recent_scores, py_len. rewrite length_map.
    pose proof (py_last_nil 10 _ ltac:(lia) Hne). destruct (py_last 10 _); simpl; [done|lia].
  - apply py_sum_bounds. unfold rs, recent_scores, py_last.
    apply Forall_map, Forall_drop, Hf.
Qed.

(** C38: "Save Profile" on the form as it is first shown resets the stored
    languages: whatever they were, the native language becomes English
    and the target language Spanish, while the name, level, goal and
    interests are kept. *)
Theorem untouched_form_resets_languages (s : Session) :
  level (user_profile s) ∈ level_choices ->
  exists s', create_profile_setup (profile_form_defaults (user_profile s) true) s = (Rerun, s') /\
    native_language (user_profile s') = "English"%py /\
    target_language (user_profile s') = "Spanish"%py /\
    level (user_profile s') = level (user_profile s) /\
    daily_goal (user_profile s') = daily_goal (user_profile s) /\
    total_points (user_profile s') = total_points (user_profile s).
Proof.
  intros Hl. unfold create_profile_setup. cbv [bind get lift when modify rerun].
  destruct (py_index_elem_of _ _ Hl) as [i ->]. cbn. eexists. split; [reflexivity|].
  repeat split.
Qed.

(** C21: the transcript is append-only: an interaction that does not click
    "Clear Chat" only appends messages to [conversation_history], whatever
    page it runs and however it ends. *)
Theorem transcript_append_only (ev : Event) (s : Session) :
  ~ clears_chat ev ->
  exists l, conversation_history (interact ev s) = conversation_history s ++ l.
Proof.
  intros Hc. change (history_ext s (interact ev s)).
  destruct (interact_cases ev s) as [->| ->]; [apply main_history_ext, Hc|].
  etransitivity; [apply (main_history_ext ev Hc)|]. apply main_history_ext, quiet_not_clears_chat.
Qed.

(** C14: on every reachable session, whatever the random source, the
    dashboard writes nothing and shows six radar-chart scores in
    [[0, 10]], the range of the chart's radial axis, and seven weekly
    point counts in [[10, 50]]: the ranges of the code's [min] caps and
    [random.randint] calls. *)
Theorem dashboard_chart_bounds (d : DashboardDraws) (s : Session) :
  reachable s ->
  exists v, create_dashboard d s = (Ret v, s) /\
    length (dash_skills v) = 6%nat /\ Forall (fun x => 0 <= x <= 10) (dash_skills v) /\
    length (dash_daily_points v) = 7%nat /\ Forall (fun x => 10 <= x <= 50) (dash_daily_points v).
Proof.
  intros Hr. destruct (reachable_inv s Hr) as ((_&_&_&_&_&_&_&Hc) & _).
  exists (dashboard_view d s). split; [apply create_dashboard_run|].
  unfold dashboard_view, skill_scores. cbn [dash_skills dash_daily_points].
  destruct (py_randint_values_bounds 10 50 7 (daily_points_draws d)) as [Hl Hp]; [lia|].
  split_and!; [done| |exact Hl|exact Hp].
  pose proof (py_len_nonneg (vocabulary_mastered (user_profile s))).
  pose proof (py_randint_value_bounds 5 10 (grammar_draw d) ltac:(lia)).
  pose proof (py_randint_value_bounds 5 10 (listening_draw d) ltac:(lia)).
  pose proof (py_randint_value_bounds 5 10 (reading_draw d) ltac:(lia)).
  repeat constructor; try case_bool_decide; lia.
Qed.

(** C16: the dashboard's "Recent Achievements" are a literal: on every
    reachable session it shows the "3-Day Streak" badge, although the
    streak of every reachable session is 0. *)
Theorem dashboard_badges_unearned (d : DashboardDraws) (s : Session) :
  reachable s ->
  streak (user_profile s) = 0 /\
  exists v, create_dashboard d s = (Ret v, s) /\
    py_contains "3-Day Streak"%py (dash_badges_html v) = true.
Proof.
  intros Hr. destruct (reachable_inv s Hr) as ((_&_&Hst&_) & _). split; [exact Hst|].
  exists (dashboard_view d s). split; [apply create_dashboard_run|]. vm_compute. reflexivity.
Qed.

(** C15: on every reachable session the analytics page draws its "Points
    Distribution by Skill" pie exactly when the learner has mastered a
    word, made a pronunciation attempt, had a conversation or completed
    a lesson; it never writes the session. *)
Theorem analytics_pie_shown (a : nat -> Z) (s : Session) :
  reachable s ->
  exists v, create_progress_analytics a s = (Ret v, s) /\
    (an_show_pie v = true <->
       vocabulary_mastered (user_profile s) <> [] \/ pronunciation_feedback s <> [] \/
       0 < conversations_had (user_profile s) \/ 0 < lessons_completed (user_profile s)).
Proof.
  intros Hr. destruct (reachable_inv s Hr) as ((_&_&_&_&_&_&Hl&Hc) & _).
  eexists. split; [reflexivity|]. cbn [an_show_pie].
  unfold points_distribution, py_sum. cbn. rewrite Z.ltb_lt, !py_len_pos_ne.
  pose proof (py_len_nonneg (vocabulary_mastered (user_profile s))).
  pose proof (py_len_nonneg (pronunciation_feedback s)). lia.
Qed.

(** C11: liveness of the vocabulary quiz: from a question in range, as many
    clicks of "Submit Answer" as there are questions left complete the quiz
    (each interaction is the click's run and the rerun it triggers), with a
    score no lower than the one it had. *)
Theorem vocab_quiz_completes (v : VocabEvent) (m : Z) (s : Session) words i w (q : VocabQuiz) :
  vocab_button v = Some SubmitAnswer -> 5 <= daily_goal (user_profile s) ->
  page_reads v s words i w -> current_quiz s = Some q ->
  0 <= current_question q < py_len (quiz_words q) ->
  exists sc,
    vocab_phase (fold_left (fun s ev => interact ev s)
                   (repeat {| ev_page := OnVocabulary v; ev_daily_minutes := m |}
                      (Z.to_nat (py_len (quiz_words q) - current_question q))) s) = Completed sc /\
    quiz_score q <= sc.
Proof.
  intros Hb Hg. remember (Z.to_nat (py_len (quiz_words q) - current_question q)) as n eqn:En.
  revert s q Hg En. induction n as [|n IH]; intros s q Hg En Hr Hq Hlen; [lia|].
  pose proof (vocab_submit_interact v m s words i w q Hb Hg Hr Hq Hlen) as Hstep.
  cbv zeta in Hstep. destruct Hstep as (q' & Hq' & Hw & Hc & Hs & Hr' & Hg').
  destruct n as [|n]; cbn [repeat fold_left].
  - exists (quiz_score q'). unfold vocab_phase. rewrite Hq', Hw, Hc.
    destruct (Z.ltb_spec (current_question q + 1) (py_len (quiz_words q))); [lia|done].
  - edestruct (IH (interact {| ev_page := OnVocabulary v; ev_daily_minutes := m |} s) q') as (sc & Hph & Hsc); [lia|rewrite Hw, Hc; lia|exact Hr'|exact Hq'|
      rewrite Hw, Hc; lia|].
    exists sc. split; [exact Hph|lia].
Qed.

(** C12: roundtrip of the flashcard navigation: with no quiz dict, "Next"
    then "Previous" from a position before the last one gives back the
    session as it was (each interaction with the rerun it triggers). *)
Theorem flashcard_next_previous (vn vp : VocabEvent) (m : Z) (s : Session) words i w :
  vocab_button vn = Some NextWord -> vocab_button vp = Some PreviousWord ->
  vocab_category vp = vocab_category vn ->
  5 <= daily_goal (user_profile s) -> page_reads vn s words i w -> current_quiz s = None ->
  0 <= i < py_len words - 1 ->
  interact {| ev_page := OnVocabulary vp; ev_daily_minutes := m |}
    (interact {| ev_page := OnVocabulary vn; ev_daily_minutes := m |} s) = s.
Proof.
  intros Hn Hp Hc Hg Hr Hq Hi.
  destruct (py_getitem_in_range words (i + 1)) as (w' & Hw' & _); [lia|].
  pose proof Hr as (data & _ & _ & Hci & Hw).
  rewrite (vocab_nav_interact vn m s words i w (i + 1) w' Hg Hr Hq); [|
    rewrite (proj2 (flashcard_navigation_run vn _ words i w s) Hn),
      (proj2 (Z.eqb_neq _ _)), Z.min_r by lia; reflexivity|exact Hw'].
  assert (Hr1 : page_reads vp (set_index (vocab_category vn) (i + 1) s) words (i + 1) w').
  { rewrite <- Hc. apply (page_reads_set_index vp s words i w); [|exact Hw'].
    unfold page_reads in *. by rewrite Hc. }
  rewrite <- Hc in Hr1 |- *. rewrite (vocab_nav_interact vp m (set_index (vocab_category vp) (i + 1) s) words (i + 1) w' i w Hg Hr1 Hq); [|
    rewrite (proj1 (flashcard_navigation_run vp _ words (i + 1) w' _) Hp),
      (proj2 (Z.eqb_neq _ _)), Z.max_r by lia; do 3 f_equal; lia|exact Hw].
  rewrite Hc. apply set_index_restore, Hci.
Qed.

(** C40: a run of the vocabulary page with no click and no quiz ends in
    the progress section (590-597): [st.progress(mastered_count /
    total_words)] raises [StreamlitAPIException] exactly when more words
    are mastered, in all languages together, than the current language's
    lists hold; the session is left as it was. *)
Theorem vocabulary_progress_overflow (ev : VocabEvent) (s : Session) words i w :
  vocab_button ev = None -> current_quiz s = None -> page_reads ev s words i w ->
  create_vocabulary_lessons ev s =
    (if bool_decide (0 < total_words (page_language_data s) <
                     py_len (vocabulary_mastered (user_profile s)))
     then Raise StreamlitAPIException else Ret tt, s).
Proof.
  intros Hb Hq Hr.
  rewrite (vocab_page_ret ev s words i w s s Hr (flashcard_column_quiet ev _ _ _ _ Hb s)
             (vocab_quiz_column_no_quiz ev words s Hb Hq)).
  unfold vocabulary_progress. cbn. f_equal. destruct (Z.ltb_spec 0 (total_words (page_language_data s)));
    destruct (Z.ltb_spec (total_words (page_language_data s))
                (py_len (vocabulary_mastered (user_profile s)))); cbn;
    case_bool_decide; first [reflexivity | lia].
Qed.

(** ** Witnesses on a concrete session *)

Lemma run_script_two_runs_witness :
  (2 <= 3)%nat /\ run_script 2 dashboard_event demo_session <> None /\
  run_script 3 dashboard_event demo_session = run_script 2 dashboard_event demo_session.
Proof.
  assert (Hf : (2 <= 3)%nat) by lia.
  split; [exact Hf|]. exact (run_script_two_runs dashboard_event demo_session 3 Hf).
Defined.

Lemma demo_reachable : reachable (interact dashboard_event demo_session).
Proof. apply reachable_step; [apply reachable_init|exact I]. Qed.

Lemma reachable_session_inv_witness :
  reachable (interact dashboard_event demo_session) /\
  session_inv (interact dashboard_event demo_session).
Proof. split; [exact demo_reachable|exact (reachable_session_inv _ demo_reachable)]. Defined.

Lemma interact_progress_witness :
  valid_event dashboard_event /\
  session_progress demo_session (interact dashboard_event demo_session).
Proof. split; [exact I|exact (interact_progress dashboard_event demo_session I)]. Defined.

Lemma streak_keeper_never_unlocked_witness :
  reachable (interact dashboard_event demo_session) /\
  unlocked_named "Streak Keeper"%py
    (user_profile (interact dashboard_event demo_session)) = false.
Proof. split; [exact demo_reachable|exact (streak_keeper_never_unlocked _ demo_reachable)]. Defined.

Lemma sidebar_and_form_never_raise_witness :
  reachable (interact dashboard_event demo_session) /\
  fst (sidebar dashboard_event (interact dashboard_event demo_session)) = Ret tt.
Proof.
  split; [exact demo_reachable|].
  exact (proj1 (sidebar_and_form_never_raise _ dashboard_event demo_reachable)).
Defined.

Lemma profile_save_effect_witness :
  create_profile_setup save_event demo_session =
    (Rerun, set_profile (update_form "Ana"%py "English"%py "French"%py "Intermediate"%py 30
                           ["Travel"%py]) demo_session).
Proof.
  rewrite (profile_save_effect save_event demo_session eq_refl).
  rewrite bool_decide_eq_true_2 by (unfold level_choices; set_solver). reflexivity.
Defined.

Lemma twister_reachable : reachable (interact twister_event demo_session).
Proof.
  apply reachable_step; [apply reachable_init|]. cbn. unfold valid_base_score. lia.
Qed.

Lemma pronunciation_average_bounds_witness :
  reachable (interact twister_event demo_session) /\
  pronunciation_feedback (interact twister_event demo_session) <> [] /\
  60 * py_len (recent_scores (pronunciation_feedback (interact twister_event demo_session))) <=
  py_sum (recent_scores (pronunciation_feedback (interact twister_event demo_session))).
Proof.
  assert (Hne : pronunciation_feedback (interact twister_event demo_session) <> [])
    by (vm_compute; discriminate).
  split_and!; [exact twister_reachable|exact Hne|].
  exact (proj1 (proj2 (pronunciation_average_bounds _ twister_reachable Hne))).
Defined.

(** C20: the transcript is not a sequence of exchanges: a message sent in a
    target language without replies stays in the transcript unanswered
    (the KeyError of line 446 comes after the append of line 440), so
    after switching to Spanish and sending again, a reachable session has
    two learner messages in a row. *)
Theorem transcript_unanswered_message :
  reachable italian_then_spanish /\
  map role (conversation_history italian_then_spanish) = [RoleUser; RoleUser; RoleAssistant].
Proof.
  split; [|vm_compute; reflexivity].
  apply reachable_fold; [apply reachable_init|].
  repeat constructor; cbn; unfold valid_base_score; try lia; set_solver.
Qed.

Lemma untouched_form_resets_languages_witness :
  level (user_profile (set_profile (update_form ""%py "German"%py "French"%py "Beginner"%py 20 [])
                          demo_session)) ∈ level_choices /\
  exists s', create_profile_setup
               (profile_form_defaults
                  (user_profile (set_profile (update_form ""%py "German"%py "French"%py
                                                "Beginner"%py 20 []) demo_session)) true)
               (set_profile (update_form ""%py "German"%py "French"%py "Beginner"%py 20 [])
                  demo_session) = (Rerun, s') /\
             target_language (user_profile s') = "Spanish"%py.
Proof.
  assert (Hl : level (user_profile (set_profile (update_form ""%py "German"%py "French"%py
                 "Beginner"%py 20 []) demo_session)) ∈ level_choices)
    by (cbn; unfold level_choices; set_solver).
  split; [exact Hl|].
  destruct (untouched_form_resets_languages _ Hl) as (s' & Hrun & _ & Ht & _).
  exists s'. split; [exact Hrun|exact Ht].
Defined.

Lemma transcript_append_only_witness :
  ~ clears_chat (send_event "Hola"%py) /\
  exists l, conversation_history (interact (send_event "Hola"%py) demo_session) =
            conversation_history demo_session ++ l.
Proof.
  assert (Hc : ~ clears_chat (send_event "Hola"%py)) by (cbn; discriminate).
  split; [exact Hc|exact (transcript_append_only _ demo_session Hc)].
Defined.

Lemma dashboard_chart_bounds_witness :
  reachable (interact dashboard_event demo_session) /\
  exists v, create_dashboard demo_draws (interact dashboard_event demo_session) =
              (Ret v, interact dashboard_event demo_session) /\
            Forall (fun x => 10 <= x <= 50) (dash_daily_points v).
Proof.
  split; [exact demo_reachable|].
  destruct (dashboard_chart_bounds demo_draws _ demo_reachable) as (v & Hv & _ & _ & _ & Hp).
  exists v. split; [exact Hv|exact Hp].
Defined.

Lemma dashboard_badges_unearned_witness :
  reachable (interact dashboard_event demo_session) /\
  streak (user_profile (interact dashboard_event demo_session)) = 0.
Proof.
  split; [exact demo_reachable|].
  exact (proj1 (dashboard_badges_unearned demo_draws _ demo_reachable)).
Defined.

Lemma analytics_pie_shown_witness :
  reachable (interact twister_event demo_session) /\
  exists v, create_progress_analytics Z.of_nat (interact twister_event demo_session) =
              (Ret v, interact twister_event demo_session) /\ an_show_pie v = true.
Proof.
  split; [exact twister_reachable|].
  destruct (analytics_pie_shown Z.of_nat _ twister_reachable) as (v & Hv & Hiff).
  exists v. split; [exact Hv|]. apply Hiff. right; left. vm_compute. discriminate.
Defined.

Lemma vocab_quiz_completes_witness :
  exists sc, vocab_phase (fold_left (fun s ev => interact ev s) [submit_greetings]
                            quiz_at_greetings) = Completed sc /\ 1 <= sc.
Proof.
  apply (vocab_quiz_completes (vocab_event "greetings"%py (Some SubmitAnswer)) 12
           quiz_at_greetings ["Hola"; "Buenos días"; "Buenas tardes"; "Buenas noches"]%py 0 "Hola"%py
           {| quiz_words := ["Hola"; "Salut"]%py; current_question := 1; quiz_score := 1;
              answers := [] |}); try reflexivity;
    first [unfold py_len; cbn; lia | unfold page_reads; eexists; split_and!; vm_compute; reflexivity].
Defined.

Lemma flashcard_next_previous_witness :
  interact {| ev_page := OnVocabulary (vocab_event "greetings"%py (Some PreviousWord));
              ev_daily_minutes := 12 |}
    (interact {| ev_page := OnVocabulary (vocab_event "greetings"%py (Some NextWord));
                 ev_daily_minutes := 12 |} (set_index "greetings"%py 0 demo_session)) =
  set_index "greetings"%py 0 demo_session.
Proof.
  apply (flashcard_next_previous _ _ 12 _
           ["Hola"; "Buenos días"; "Buenas tardes"; "Buenas noches"]%py 0 "Hola"%py);
    try reflexivity;
    first [unfold py_len; cbn; lia | unfold page_reads; eexists; split_and!; vm_compute; reflexivity].
Defined.

Lemma vocabulary_progress_overflow_witness :
  reachable french_overflow /\
  create_vocabulary_lessons (vocab_event "greetings"%py None) french_overflow =
    (Raise StreamlitAPIException, french_overflow).
Proof.
  split.
  - apply reachable_fold; [apply reachable_init|].
    repeat constructor; cbn; try lia; set_solver.
  - rewrite (vocabulary_progress_overflow (vocab_event "greetings"%py None) french_overflow
               ["Bonjour"; "Bonsoir"; "Salut"; "Bonne nuit"]%py 0 "Bonjour"%py);
      [vm_compute; reflexivity|reflexivity|vm_compute; reflexivity|].
    unfold page_reads; eexists; split_and!; vm_compute; reflexivity.
Defined.
